(** * Authentication and authorization core of go-backend

  A shallow embedding of the credential, token, session, one-time-code and
  role-check code of the repository, and the properties its specification
  states about them.

  Sources embedded here:
  - internal/models/user.go            (Role, User and its methods)
  - internal/models/extended_models.go (EmailVerification, UserSession)
  - internal/utils/jwt.go              (JWTClaims, JWTService)
  - internal/middleware/auth.go        (hasRolePermission)
  - internal/services/audit_service.go (UserService: Register, Login,
                                        ChangePassword)
  - internal/services/two_factor_service.go (VerifyOTP, first variant)
  - internal/services/session_service.go    (ValidateSession,
                                             InvalidateUserSessions)

  The relational store behind *gorm.DB is a record of tables, each table a
  list of rows; every service function takes the store and the clock
  reading and returns its result together with the store it leaves. *)

From Stdlib Require Import ZArith List String Ascii Bool Lia DecimalString.
Import ListNotations.

Open Scope string_scope.
Open Scope Z_scope.

(* ------------------------------------------------------------------ *)
(** * package time *)

Module time.

(** An instant, in nanoseconds since the zero Time (instant 0 is the zero
    value of a time stamp), and a duration, in nanoseconds. *)
Definition Time := Z.
Definition Duration := Z.

Definition Nanosecond : Duration := 1.
Definition Second : Duration := 1000000000.
Definition Minute : Duration := 60 * Second.
Definition Hour : Duration := 60 * Minute.

Definition Add (t : Time) (d : Duration) : Time := t + d.
Definition Before (t u : Time) : bool := t <? u.
Definition After (t u : Time) : bool := u <? t.
Definition Equal (t u : Time) : bool := t =? u.

(** [t.Truncate(d)]: [t] rounded down to a multiple of [d]; [t] itself
    when [d <= 0]. *)
Definition Truncate (t : Time) (d : Duration) : Time :=
  if d <=? 0 then t else t - t mod d.

End time.

(* ------------------------------------------------------------------ *)
(** * golang.org/x/crypto/bcrypt, as far as the models call it *)

(** The hash function itself is a parameter of the development: the salted
  key derivation and the check made once a stored string has parsed as a
  hash.  [bcrypt_generate salt password] is [GenerateFromPassword] at the
  default cost, [salt] being what it draws from the random source; [None]
  is its error return. *)
Class Bcrypt := {
bcrypt_generate : string -> string -> option string;
bcrypt_core : string -> string -> bool
}.

Module bcrypt.

Definition minHashSize : Z := 59.

(** A string can only be read as a hash when it has at least
    [minHashSize] bytes and starts with the version marker. *)
Definition hashShaped (hashedPassword : string) : bool :=
  negb (Z.of_nat (String.length hashedPassword) <? minHashSize)
  && match hashedPassword with
     | String c _ => Ascii.eqb c "$"
     | EmptyString => false
     end.

(** [CompareHashAndPassword]: [true] stands for the nil error.  A string
    shorter than [minHashSize] is ErrHashTooShort, one that does not
    start with a dollar sign is InvalidHashPrefixError. *)
Definition CompareHashAndPassword `{Bcrypt}
    (hashedPassword password : string) : bool :=
  if hashShaped hashedPassword
  then bcrypt_core hashedPassword password
  else false.

End bcrypt.

(* ------------------------------------------------------------------ *)
(** * package models *)

Module models.

(** type Role string *)
Definition Role := string.
Definition RoleAdmin : Role := "admin".
Definition RoleModerator : Role := "moderator".
Definition RoleUser : Role := "user".

(** int is 64 bits wide; [u.FailedLoginAttempts++] wraps around. *)
Definition wrap_int (x : Z) : Z :=
  (x + 2 ^ 63) mod 2 ^ 64 - 2 ^ 63.

End models.

Module User.
Import models.

(** The columns of [users] the authentication code reads or writes.
    Presentation columns (avatar, timezone, language, e-mail
    verification) and the preloaded associations are left out. *)
Record t := mk {
  ID : Z;
  Email : string;
  Username : string;
  Password : string;
  FirstName : string;
  LastName : string;
  Role : models.Role;
  IsActive : bool;
  PhoneNumber : string;
  FailedLoginAttempts : Z;
  AccountLockedUntil : option time.Time;
  LastLoginAt : option time.Time;
  LastLoginIP : string;
  PasswordChangedAt : option time.Time;
  MustChangePassword : bool;
  TwoFactorEnabled : bool;
  CreatedAt : time.Time;
  UpdatedAt : time.Time;
  DeletedAt : option time.Time
}.

Definition with_ID (v : Z) (u : t) : t :=
  mk v (Email u) (Username u) (Password u) (FirstName u) (LastName u)
     (Role u) (IsActive u) (PhoneNumber u) (FailedLoginAttempts u)
     (AccountLockedUntil u) (LastLoginAt u) (LastLoginIP u)
     (PasswordChangedAt u) (MustChangePassword u) (TwoFactorEnabled u)
     (CreatedAt u) (UpdatedAt u) (DeletedAt u).

Definition with_Password (v : string) (u : t) : t :=
  mk (ID u) (Email u) (Username u) v (FirstName u) (LastName u)
     (Role u) (IsActive u) (PhoneNumber u) (FailedLoginAttempts u)
     (AccountLockedUntil u) (LastLoginAt u) (LastLoginIP u)
     (PasswordChangedAt u) (MustChangePassword u) (TwoFactorEnabled u)
     (CreatedAt u) (UpdatedAt u) (DeletedAt u).

Definition with_Role (v : models.Role) (u : t) : t :=
  mk (ID u) (Email u) (Username u) (Password u) (FirstName u) (LastName u)
     v (IsActive u) (PhoneNumber u) (FailedLoginAttempts u)
     (AccountLockedUntil u) (LastLoginAt u) (LastLoginIP u)
     (PasswordChangedAt u) (MustChangePassword u) (TwoFactorEnabled u)
     (CreatedAt u) (UpdatedAt u) (DeletedAt u).

Definition with_FailedLoginAttempts (v : Z) (u : t) : t :=
  mk (ID u) (Email u) (Username u) (Password u) (FirstName u) (LastName u)
     (Role u) (IsActive u) (PhoneNumber u) v
     (AccountLockedUntil u) (LastLoginAt u) (LastLoginIP u)
     (PasswordChangedAt u) (MustChangePassword u) (TwoFactorEnabled u)
     (CreatedAt u) (UpdatedAt u) (DeletedAt u).

Definition with_AccountLockedUntil (v : option time.Time) (u : t) : t :=
  mk (ID u) (Email u) (Username u) (Password u) (FirstName u) (LastName u)
     (Role u) (IsActive u) (PhoneNumber u) (FailedLoginAttempts u)
     v (LastLoginAt u) (LastLoginIP u)
     (PasswordChangedAt u) (MustChangePassword u) (TwoFactorEnabled u)
     (CreatedAt u) (UpdatedAt u) (DeletedAt u).

Definition with_LastLogin (at_ : option time.Time) (ip : string) (u : t) : t :=
  mk (ID u) (Email u) (Username u) (Password u) (FirstName u) (LastName u)
     (Role u) (IsActive u) (PhoneNumber u) (FailedLoginAttempts u)
     (AccountLockedUntil u) at_ ip
     (PasswordChangedAt u) (MustChangePassword u) (TwoFactorEnabled u)
     (CreatedAt u) (UpdatedAt u) (DeletedAt u).

Definition with_stamps (created updated : time.Time) (u : t) : t :=
  mk (ID u) (Email u) (Username u) (Password u) (FirstName u) (LastName u)
     (Role u) (IsActive u) (PhoneNumber u) (FailedLoginAttempts u)
     (AccountLockedUntil u) (LastLoginAt u) (LastLoginIP u)
     (PasswordChangedAt u) (MustChangePassword u) (TwoFactorEnabled u)
     created updated (DeletedAt u).

(** func (u *User) BeforeCreate(tx *gorm.DB) error: [None] is the error
    return of the hash. *)
Definition BeforeCreate `{Bcrypt} (salt : string) (u : t) : option t :=
  let hashed :=
    if String.eqb (Password u) ""
    then Some u
    else match bcrypt_generate salt (Password u) with
         | None => None
         | Some hashedPassword => Some (with_Password hashedPassword u)
         end in
  match hashed with
  | None => None
  | Some u1 =>
      if String.eqb (Role u1) "" then Some (with_Role RoleUser u1)
      else Some u1
  end.

Definition CheckPassword `{Bcrypt} (u : t) (password : string) : bool :=
  bcrypt.CompareHashAndPassword (Password u) password.

Definition IsAdmin (u : t) : bool := String.eqb (Role u) RoleAdmin.

Definition IsModerator (u : t) : bool := String.eqb (Role u) RoleModerator.

Definition CanModerate (u : t) : bool :=
  String.eqb (Role u) RoleAdmin || String.eqb (Role u) RoleModerator.

(** The switch on [requiredRole]; cases are tried in order. *)
Definition HasPermission (u : t) (requiredRole : models.Role) : bool :=
  if String.eqb requiredRole RoleAdmin then
    String.eqb (Role u) RoleAdmin
  else if String.eqb requiredRole RoleModerator then
    String.eqb (Role u) RoleAdmin || String.eqb (Role u) RoleModerator
  else if String.eqb requiredRole RoleUser then
    true
  else false.

Definition IsAccountLocked (now : time.Time) (u : t) : bool :=
  match AccountLockedUntil u with
  | None => false
  | Some lockedUntil => time.Before now lockedUntil
  end.

Definition LockAccount (now : time.Time) (duration : time.Duration) (u : t) : t :=
  with_AccountLockedUntil (Some (time.Add now duration)) u.

Definition UnlockAccount (u : t) : t :=
  with_FailedLoginAttempts 0 (with_AccountLockedUntil None u).

Definition IncrementFailedAttempts (u : t) : t :=
  with_FailedLoginAttempts (wrap_int (FailedLoginAttempts u + 1)) u.

Definition ResetFailedAttempts (u : t) : t :=
  with_FailedLoginAttempts 0 u.

Definition ShouldLockAccount (u : t) (maxAttempts : Z) : bool :=
  maxAttempts <=? FailedLoginAttempts u.

Definition UpdateLastLogin (now : time.Time) (ip : string) (u : t) : t :=
  ResetFailedAttempts (with_LastLogin (Some now) ip u).

Definition CanAccessResource (u : t) (resourceUserID : Z) : bool :=
  if IsAdmin u then true else ID u =? resourceUserID.

End User.

(* ------------------------------------------------------------------ *)
(** * package middleware *)

Module middleware.
Import models.

Definition hasRolePermission (userRole requiredRole : Role) : bool :=
  if String.eqb requiredRole RoleAdmin then
    String.eqb userRole RoleAdmin
  else if String.eqb requiredRole RoleModerator then
    String.eqb userRole RoleAdmin || String.eqb userRole RoleModerator
  else if String.eqb requiredRole RoleUser then
    true
  else false.

(** The position of a role in Admin > Moderator > User. *)
Definition rank (r : Role) : option nat :=
  if String.eqb r RoleAdmin then Some 2%nat
  else if String.eqb r RoleModerator then Some 1%nat
  else if String.eqb r RoleUser then Some 0%nat
  else None.

End middleware.

(* ------------------------------------------------------------------ *)
(** * models.EmailVerification and models.UserSession *)

Module EmailVerification.

Record t := mk {
  ID : Z;
  UserID : Z;
  Email : string;
  Token : string;
  Type_ : string;
  Code : string;
  ExpiresAt : time.Time;
  UsedAt : option time.Time;
  CreatedAt : time.Time;
  UpdatedAt : time.Time;
  DeletedAt : option time.Time
}.

Definition IsExpired (now : time.Time) (ev : t) : bool :=
  time.After now (ExpiresAt ev).

Definition IsUsed (ev : t) : bool :=
  match UsedAt ev with Some _ => true | None => false end.

Definition MarkAsUsed (now : time.Time) (ev : t) : t :=
  mk (ID ev) (UserID ev) (Email ev) (Token ev) (Type_ ev) (Code ev)
     (ExpiresAt ev) (Some now) (CreatedAt ev) (UpdatedAt ev) (DeletedAt ev).

Definition with_UpdatedAt (v : time.Time) (ev : t) : t :=
  mk (ID ev) (UserID ev) (Email ev) (Token ev) (Type_ ev) (Code ev)
     (ExpiresAt ev) (UsedAt ev) (CreatedAt ev) v (DeletedAt ev).

End EmailVerification.

Module UserSession.

(** The columns of the struct in models/extended_models.go, LastSeen
    included, together with what session_service.go sets and queries and
    the struct does not declare: the Token column, and keys that are
    uuid values (written here as their strings) where the struct has a
    string ID and an unsigned UserID. *)
Record t := mk {
  ID : string;
  UserID : string;
  Token : string;
  IPAddress : string;
  UserAgent : string;
  IsActive : bool;
  LastSeen : time.Time;
  CreatedAt : time.Time;
  UpdatedAt : time.Time;
  ExpiresAt : time.Time;
  DeletedAt : option time.Time
}.

Definition with_UpdatedAt (v : time.Time) (s : t) : t :=
  mk (ID s) (UserID s) (Token s) (IPAddress s) (UserAgent s) (IsActive s)
     (LastSeen s) (CreatedAt s) v (ExpiresAt s) (DeletedAt s).

Definition with_IsActive (v : bool) (s : t) : t :=
  mk (ID s) (UserID s) (Token s) (IPAddress s) (UserAgent s) v
     (LastSeen s) (CreatedAt s) (UpdatedAt s) (ExpiresAt s) (DeletedAt s).

End UserSession.

(* ------------------------------------------------------------------ *)
(** * github.com/golang-jwt/jwt/v4, as far as jwt.go exercises it *)

Module jwt.

(** TimePrecision, the unit NumericDate values are truncated to. *)
Definition TimePrecision : time.Duration := time.Second.

Definition NumericDate := time.Time.

Definition NewNumericDate (t : time.Time) : NumericDate :=
  time.Truncate t TimePrecision.

Record RegisteredClaims := mkRegistered {
  Issuer : string;
  Subject : string;
  ExpiresAt : option NumericDate;
  NotBefore : option NumericDate;
  IssuedAt : option NumericDate
}.

(** The families of signing methods the library registers. *)
Inductive SigningMethod :=
| SigningMethodHMAC
| SigningMethodRSA
| SigningMethodRSAPSS
| SigningMethodECDSA
| SigningMethodEd25519
| SigningMethodNone.

Definition algs : list (string * SigningMethod) :=
  [ ("HS256", SigningMethodHMAC); ("HS384", SigningMethodHMAC);
    ("HS512", SigningMethodHMAC);
    ("RS256", SigningMethodRSA); ("RS384", SigningMethodRSA);
    ("RS512", SigningMethodRSA);
    ("PS256", SigningMethodRSAPSS); ("PS384", SigningMethodRSAPSS);
    ("PS512", SigningMethodRSAPSS);
    ("ES256", SigningMethodECDSA); ("ES384", SigningMethodECDSA);
    ("ES512", SigningMethodECDSA);
    ("EdDSA", SigningMethodEd25519);
    ("none", SigningMethodNone) ].

Fixpoint lookup_alg (l : list (string * SigningMethod)) (alg : string)
    : option SigningMethod :=
  match l with
  | [] => None
  | (a, m) :: r => if String.eqb a alg then Some m else lookup_alg r alg
  end.

Definition GetSigningMethod (alg : string) : option SigningMethod :=
  lookup_alg algs alg.

(** The bits of a ValidationError. *)
Record ValidationError := mkError {
  Malformed : bool;
  Unverifiable : bool;
  SignatureInvalid : bool;
  Expired : bool;
  UsedBeforeIssued : bool;
  NotValidYet : bool
}.

Definition ErrMalformed : ValidationError :=
  mkError true false false false false false.
Definition ErrUnverifiable : ValidationError :=
  mkError false true false false false false.

Definition valid (e : ValidationError) : bool :=
  negb (Malformed e || Unverifiable e || SignatureInvalid e
        || Expired e || UsedBeforeIssued e || NotValidYet e).

Definition verifyExp (exp : option NumericDate) (now : time.Time)
    (required : bool) : bool :=
  match exp with
  | None => negb required
  | Some e => time.Before now e
  end.

Definition verifyIat (iat : option NumericDate) (now : time.Time)
    (required : bool) : bool :=
  match iat with
  | None => negb required
  | Some i => time.After now i || time.Equal now i
  end.

Definition verifyNbf (nbf : option NumericDate) (now : time.Time)
    (required : bool) : bool :=
  match nbf with
  | None => negb required
  | Some n => time.After now n || time.Equal now n
  end.

(** func (c RegisteredClaims) Valid() error, as the bits it raises. *)
Definition Valid (now : time.Time) (c : RegisteredClaims) : ValidationError :=
  mkError false false false
    (negb (verifyExp (ExpiresAt c) now false))
    (negb (verifyIat (IssuedAt c) now false))
    (negb (verifyNbf (NotBefore c) now false)).

End jwt.

(* ------------------------------------------------------------------ *)
(** * package utils: jwt.go *)

Module utils.

Record JWTClaims := mkClaims {
  UserID : Z;
  Email : string;
  Username : string;
  Role : models.Role;
  Registered : jwt.RegisteredClaims
}.

(** A token string, read through the compact serialization: either it does
    not split into three segments that decode, or it carries a header
    (of which the alg entry matters, absent when the header has none), a
    claim set and a signature segment. *)
Inductive TokenString :=
| Undecodable (raw : string)
| Compact (alg : option string) (claims : JWTClaims) (signature : string).

Record JWTService := mkJWTService {
  secret : string;
  expiry : time.Duration
}.

End utils.

(** The keyed hash behind the HS methods is a parameter:
    [hmac_sign alg key (header alg, claims)] is the signature segment over
    the first two segments of the token. *)
Class HMAC := {
  hmac_sign : string -> string -> option string * utils.JWTClaims -> string
}.

Module JWTService.
Import utils.

Record Token := mkToken {
  Method : jwt.SigningMethod;
  Claims : JWTClaims;
  Valid : bool
}.

(** What ValidateToken can return as its error: the library's
    ValidationError, or errors.New("invalid token"). *)
Inductive Error :=
| ParseError (e : jwt.ValidationError)
| InvalidToken.

(** fmt.Sprintf("user:%d", id) *)
Definition subject_of (id : Z) : string :=
  "user:" ++ NilZero.string_of_int (Z.to_int id).

(** token.SignedString(key) for a token built by
    jwt.NewWithClaims(jwt.SigningMethodHS256, claims). *)
Definition SignedString `{HMAC} (claims : JWTClaims) (key : string)
    : TokenString :=
  Compact (Some "HS256") claims (hmac_sign "HS256" key (Some "HS256", claims)).

(** method.Verify(signingString, signature, key) with a []byte key: the HS
    methods recompute the keyed hash and compare; every other method
    rejects a key of that type. *)
Definition Verify `{HMAC} (m : jwt.SigningMethod) (alg : string)
    (signingInput : option string * JWTClaims) (signature key : string)
    : bool :=
  match m with
  | jwt.SigningMethodHMAC =>
      String.eqb signature (hmac_sign alg key signingInput)
  | _ => false
  end.

(** jwt.ParseWithClaims(tokenString, &JWTClaims{}, keyFunc); [keyFunc]
    answers [None] for its error return. *)
Definition ParseWithClaims `{HMAC} (now : time.Time)
    (tokenString : TokenString)
    (keyFunc : jwt.SigningMethod -> option string)
    : jwt.ValidationError + Token :=
  match tokenString with
  | Undecodable _ => inl jwt.ErrMalformed
  | Compact None _ _ => inl jwt.ErrUnverifiable
  | Compact (Some alg) claims signature =>
      match jwt.GetSigningMethod alg with
      | None => inl jwt.ErrUnverifiable
      | Some method =>
          match keyFunc method with
          | None => inl jwt.ErrUnverifiable
          | Some key =>
              let vErr := jwt.Valid now (Registered claims) in
              let vErr :=
                if Verify method alg (Some alg, claims) signature key
                then vErr
                else jwt.mkError (jwt.Malformed vErr) (jwt.Unverifiable vErr)
                       true (jwt.Expired vErr) (jwt.UsedBeforeIssued vErr)
                       (jwt.NotValidYet vErr) in
              if jwt.valid vErr
              then inr (mkToken method claims true)
              else inl vErr
          end
      end
  end.

(** func (j *JWTService) GenerateToken(user *models.User) (string, error);
    signing with a byte-slice key has no error return to model.  The three
    clock readings are taken at the same instant [now]. *)
Definition GenerateToken `{HMAC} (j : JWTService) (now : time.Time)
    (user : User.t) : TokenString :=
  let claims :=
    mkClaims (User.ID user) (User.Email user) (User.Username user)
      (User.Role user)
      (jwt.mkRegistered "go-backend" (subject_of (User.ID user))
         (Some (jwt.NewNumericDate (time.Add now (expiry j))))
         (Some (jwt.NewNumericDate now))
         (Some (jwt.NewNumericDate now))) in
  SignedString claims (secret j).

(** The key function ValidateToken hands to the parser. *)
Definition keyFunc (j : JWTService) (m : jwt.SigningMethod) : option string :=
  match m with
  | jwt.SigningMethodHMAC => Some (secret j)
  | _ => None
  end.

(** func (j *JWTService) ValidateToken(tokenString string): the claims,
    or the error. *)
Definition ValidateToken `{HMAC} (j : JWTService) (now : time.Time)
    (tokenString : TokenString) : Error + JWTClaims :=
  match ParseWithClaims now tokenString (keyFunc j) with
  | inl err => inl (ParseError err)
  | inr token =>
      if Valid token then inr (Claims token) else inl InvalidToken
  end.

Definition is_expiry_error (e : Error) : bool :=
  match e with
  | ParseError v => jwt.Expired v
  | InvalidToken => false
  end.

Definition is_malformed_error (e : Error) : bool :=
  match e with
  | ParseError v => jwt.Malformed v
  | InvalidToken => false
  end.

(** The header advertises one of the HS methods. *)
Definition hmac_family (tokenString : TokenString) : bool :=
  match tokenString with
  | Compact (Some alg) _ _ =>
      match jwt.GetSigningMethod alg with
      | Some jwt.SigningMethodHMAC => true
      | _ => false
      end
  | _ => false
  end.

End JWTService.

(* ------------------------------------------------------------------ *)
(** * The store behind *gorm.DB *)

Module gorm.

Section Rows.
Context {A : Type}.

(** The row a query with LIMIT 1 returns: the matching row that no other
    matching row precedes in the ORDER BY. *)
Fixpoint first_by (precedes : A -> A -> bool) (rows : list A) : option A :=
  match rows with
  | [] => None
  | r :: rest =>
      match first_by precedes rest with
      | Some r' => if precedes r' r then Some r' else Some r
      | None => Some r
      end
  end.

End Rows.

(** What a statement can fail with. *)
Inductive error :=
| ErrRecordNotFound
| ErrHook
| ErrDuplicatedKey (column : string).

Record DB := mkDB {
  users : list User.t;
  users_seq : Z;
  email_verifications : list EmailVerification.t;
  user_sessions : list UserSession.t
}.

Definition with_users (us : list User.t) (seq : Z) (db : DB) : DB :=
  mkDB us seq (email_verifications db) (user_sessions db).

Definition with_email_verifications (vs : list EmailVerification.t) (db : DB)
    : DB :=
  mkDB (users db) (users_seq db) vs (user_sessions db).

Definition with_user_sessions (ss : list UserSession.t) (db : DB) : DB :=
  mkDB (users db) (users_seq db) (email_verifications db) ss.

Definition is_null {A : Type} (o : option A) : bool :=
  match o with None => true | Some _ => false end.

(** ORDER BY users.id *)
Definition user_by_id (a b : User.t) : bool := User.ID a <? User.ID b.

(** db.Where(cond).First(&user): soft-deleted rows are out of scope. *)
Definition FirstUser (db : DB) (cond : User.t -> bool) : option User.t :=
  first_by user_by_id
    (filter (fun u => is_null (User.DeletedAt u) && cond u) (users db)).

(** The unique indexes of [users] hold over every row of the table,
    soft-deleted ones included. *)
Definition duplicated_column (db : DB) (u : User.t) : option string :=
  if existsb (fun r => User.ID r =? User.ID u) (users db)
  then Some "id"
  else if existsb (fun r => String.eqb (User.Email r) (User.Email u)) (users db)
  then Some "email"
  else if existsb (fun r => String.eqb (User.Username r) (User.Username u))
            (users db)
  then Some "username"
  else if existsb (fun r => String.eqb (User.PhoneNumber r) (User.PhoneNumber u))
            (users db)
  then Some "phone_number"
  else None.

(** db.Create(user) as Register calls it, with a struct that carries no
    time stamps: the BeforeCreate hook, the time stamps, the key drawn
    from the sequence when the struct carries none, the insert. *)
Definition CreateUser `{Bcrypt} (db : DB) (now : time.Time) (salt : string)
    (user : User.t) : error + (User.t * DB) :=
  match User.BeforeCreate salt user with
  | None => inl ErrHook
  | Some u1 =>
      let u2 := User.with_stamps now now u1 in
      let u3 := if User.ID u2 =? 0 then User.with_ID (users_seq db) u2 else u2 in
      match duplicated_column db u3 with
      | Some column => inl (ErrDuplicatedKey column)
      | None =>
          inr (u3, with_users (users db ++ [u3])
                     (Z.max (users_seq db) (User.ID u3) + 1) db)
      end
  end.

(** db.Save(&user) for a row read in the same call: every column of the
    row with that key is written, updated_at is set. *)
Definition SaveUser (db : DB) (now : time.Time) (user : User.t) : DB :=
  let row := User.with_stamps (User.CreatedAt user) now user in
  with_users
    (map (fun r => if is_null (User.DeletedAt r) && (User.ID r =? User.ID user)
                   then row else r) (users db))
    (users_seq db) db.

Definition SaveEmailVerification (db : DB) (now : time.Time)
    (v : EmailVerification.t) : DB :=
  let row := EmailVerification.with_UpdatedAt now v in
  with_email_verifications
    (map (fun r => if is_null (EmailVerification.DeletedAt r)
                      && (EmailVerification.ID r =? EmailVerification.ID v)
                   then row else r) (email_verifications db))
    db.

Definition SaveUserSession (db : DB) (now : time.Time) (s : UserSession.t)
    : DB :=
  let row := UserSession.with_UpdatedAt now s in
  with_user_sessions
    (map (fun r => if is_null (UserSession.DeletedAt r)
                      && String.eqb (UserSession.ID r) (UserSession.ID s)
                   then row else r) (user_sessions db))
    db.

End gorm.

(* ------------------------------------------------------------------ *)
(** * package services *)

Module services.
Import gorm.

(** The errors the services return: errors.New(msg), fmt.Errorf wrapping
    a store error, or a store error passed through. *)
Inductive error :=
| errors_New (msg : string)
| fmt_Errorf (msg : string) (cause : gorm.error)
| store_error (cause : gorm.error).

Record UserCreateRequest := mkUserCreateRequest {
  req_Email : string;
  req_Username : string;
  req_Password : string;
  req_FirstName : string;
  req_LastName : string;
  req_Role : models.Role
}.

Record LoginRequest := mkLoginRequest {
  login_Email : string;
  login_Password : string
}.

(** models.UserResponse, the columns kept in [User.t]. *)
Record UserResponse := mkUserResponse {
  resp_ID : Z;
  resp_Email : string;
  resp_Username : string;
  resp_FirstName : string;
  resp_LastName : string;
  resp_Role : models.Role;
  resp_IsActive : bool;
  resp_TwoFactorEnabled : bool;
  resp_LastLoginAt : option time.Time
}.

Definition ToResponse (u : User.t) : UserResponse :=
  mkUserResponse (User.ID u) (User.Email u) (User.Username u)
    (User.FirstName u) (User.LastName u) (User.Role u) (User.IsActive u)
    (User.TwoFactorEnabled u) (User.LastLoginAt u).

Record LoginResponse := mkLoginResponse {
  Token : utils.TokenString;
  User_ : UserResponse
}.

(** ** UserService *)

Record UserService := mkUserService {
  jwtService : utils.JWTService
}.

(** func (s *UserService) Register(req *models.UserCreateRequest) *)
Definition Register `{Bcrypt} `{HMAC} (s : UserService) (db : DB)
    (now : time.Time) (salt : string) (req : UserCreateRequest)
    : (error + LoginResponse) * DB :=
  match FirstUser db (fun u => String.eqb (User.Email u) (req_Email req)
                               || String.eqb (User.Username u) (req_Username req)) with
  | Some existingUser =>
      if String.eqb (User.Email existingUser) (req_Email req)
      then (inl (errors_New "user with this email already exists"), db)
      else (inl (errors_New "user with this username already exists"), db)
  | None =>
      let role :=
        if String.eqb (req_Role req) "" then models.RoleUser
        else req_Role req in
      let user :=
        User.mk 0 (req_Email req) (req_Username req) (req_Password req)
          (req_FirstName req) (req_LastName req) role true
          "" 0 None None "" None false false 0 0 None in
      match CreateUser db now salt user with
      | inl err => (inl (fmt_Errorf "failed to create user" err), db)
      | inr (user, db') =>
          let token := JWTService.GenerateToken (jwtService s) now user in
          (inr (mkLoginResponse token (ToResponse user)), db')
      end
  end.

(** func (s *UserService) Login(req *models.LoginRequest) *)
Definition Login `{Bcrypt} `{HMAC} (s : UserService) (db : DB)
    (now : time.Time) (req : LoginRequest)
    : (error + LoginResponse) * DB :=
  match FirstUser db (fun u => String.eqb (User.Email u) (login_Email req)) with
  | None => (inl (errors_New "invalid email or password"), db)
  | Some user =>
      if negb (User.IsActive user)
      then (inl (errors_New "account is deactivated"), db)
      else if negb (User.CheckPassword user (login_Password req))
      then (inl (errors_New "invalid email or password"), db)
      else
        let token := JWTService.GenerateToken (jwtService s) now user in
        (inr (mkLoginResponse token (ToResponse user)), db)
  end.

(** func (s *UserService) ChangePassword(id uint, oldPassword, newPassword string) error;
    [None] is the nil error. *)
Definition ChangePassword `{Bcrypt} (s : UserService) (db : DB)
    (now : time.Time) (id : Z) (oldPassword newPassword : string)
    : option error * DB :=
  match FirstUser db (fun u => User.ID u =? id) with
  | None => (Some (errors_New "user not found"), db)
  | Some user =>
      if negb (User.CheckPassword user oldPassword)
      then (Some (errors_New "invalid current password"), db)
      else
        let user := User.with_Password newPassword user in
        (None, SaveUser db now user)
  end.

(** ** TwoFactorService (the variant over the email_verifications table) *)

Definition TwoFactorMethod := string.
Definition TwoFactorMethodEmail : TwoFactorMethod := "email".
Definition TwoFactorMethodSMS : TwoFactorMethod := "sms".
Definition TwoFactorMethodTOTP : TwoFactorMethod := "totp".

Definition verificationTypes (method : TwoFactorMethod) : list string :=
  if String.eqb method TwoFactorMethodSMS then ["sms_otp"] else ["otp"].

(** The WHERE clause of VerifyOTP. *)
Definition otp_matches (now : time.Time) (userID : Z) (types : list string)
    (providedOTP : string) (v : EmailVerification.t) : bool :=
  is_null (EmailVerification.DeletedAt v)
  && (EmailVerification.UserID v =? userID)
  && existsb (String.eqb (EmailVerification.Type_ v)) types
  && String.eqb (EmailVerification.Code v) providedOTP
  && (now <? EmailVerification.ExpiresAt v)
  && is_null (EmailVerification.UsedAt v).

(** ORDER BY created_at DESC, then the primary key First adds. *)
Definition otp_order (a b : EmailVerification.t) : bool :=
  (EmailVerification.CreatedAt b <? EmailVerification.CreatedAt a)
  || ((EmailVerification.CreatedAt a =? EmailVerification.CreatedAt b)
      && (EmailVerification.ID a <? EmailVerification.ID b)).

Definition findOTP (db : DB) (now : time.Time) (userID : Z)
    (providedOTP : string) (method : TwoFactorMethod)
    : option EmailVerification.t :=
  first_by otp_order
    (filter (otp_matches now userID (verificationTypes method) providedOTP)
       (email_verifications db)).

(** UPDATE users SET failed_login_attempts = failed_login_attempts + 1
    WHERE id = ?; the sum is computed by the store. *)
Definition incrementFailedAttempts (db : DB) (now : time.Time) (userID : Z)
    : DB :=
  with_users
    (map (fun u =>
            if is_null (User.DeletedAt u) && (User.ID u =? userID)
            then User.with_stamps (User.CreatedAt u) now
                   (User.with_FailedLoginAttempts
                      (User.FailedLoginAttempts u + 1) u)
            else u) (users db))
    (users_seq db) db.

(** SELECT failed_login_attempts FROM users WHERE id = ?, as a later read
    of the counter sees it. *)
Definition failedAttemptsOf (db : DB) (userID : Z) : list Z :=
  map User.FailedLoginAttempts
    (filter (fun u => is_null (User.DeletedAt u) && (User.ID u =? userID))
       (users db)).

(** func (s *TwoFactorService) VerifyOTP(userID uint, providedOTP string,
    method TwoFactorMethod) (bool, error) *)
Definition VerifyOTP (db : DB) (now : time.Time) (userID : Z)
    (providedOTP : string) (method : TwoFactorMethod)
    : (bool * option gorm.error) * DB :=
  match findOTP db now userID providedOTP method with
  | None =>
      ((false, Some ErrRecordNotFound), incrementFailedAttempts db now userID)
  | Some verification =>
      let verification := EmailVerification.MarkAsUsed now verification in
      ((true, None), SaveEmailVerification db now verification)
  end.

(** ** SessionService *)

Definition session_by_id (a b : UserSession.t) : bool :=
  String.ltb (UserSession.ID a) (UserSession.ID b).

(** func (s *SessionService) ValidateSession(token string) *)
Definition ValidateSession (db : DB) (now : time.Time) (token : string)
    : (gorm.error + UserSession.t) * DB :=
  match first_by session_by_id
          (filter (fun s => is_null (UserSession.DeletedAt s)
                            && String.eqb (UserSession.Token s) token
                            && Bool.eqb (UserSession.IsActive s) true
                            && (now <? UserSession.ExpiresAt s))
             (user_sessions db)) with
  | None => (inl ErrRecordNotFound, db)
  | Some session =>
      let session := UserSession.with_UpdatedAt now session in
      (inr session, SaveUserSession db now session)
  end.

(** func (s *SessionService) InvalidateUserSessions(userID uuid.UUID) error *)
Definition InvalidateUserSessions (db : DB) (now : time.Time)
    (userID : string) : DB :=
  with_user_sessions
    (map (fun s =>
            if is_null (UserSession.DeletedAt s)
               && String.eqb (UserSession.UserID s) userID
               && Bool.eqb (UserSession.IsActive s) true
            then UserSession.with_UpdatedAt now
                   (UserSession.with_IsActive false s)
            else s) (user_sessions db))
    db.

End services.

(* ------------------------------------------------------------------ *)
(** * Concrete instances and stores *)

Module Example.
Import services.

(** A stand-in for the hash: the stored string is a fixed 59-byte prefix
    followed by the password, and a password checks against exactly that
    string. *)
Definition prefix59 : string :=
  "$2a$10$0000000000000000000000000000000000000000000000000000".

Definition plain_bcrypt : Bcrypt :=
  {| bcrypt_generate := fun _ password => Some (prefix59 ++ password);
     bcrypt_core := fun hashedPassword password =>
                      String.eqb hashedPassword (prefix59 ++ password) |}.

(** A stand-in for the keyed hash: key and algorithm, joined. *)
Definition plain_hmac : HMAC :=
  {| hmac_sign := fun alg key _ => key ++ "/" ++ alg |}.

Definition t0 : time.Time := 1700000000 * time.Second.

Definition alice : User.t :=
  User.mk 1 "a@x.com" "alice" (prefix59 ++ "pw123456") "Alice" "A"
    models.RoleUser true "" 5 (Some (t0 + 15 * time.Minute)) None "" None
    false false t0 t0 None.

Definition bob : User.t :=
  User.mk 2 "b@x.com" "bob" (prefix59 ++ "hunter22") "Bob" "B"
    models.RoleUser false "555" 0 None None "" None
    false false t0 t0 None.

Definition svc : UserService :=
  mkUserService (utils.mkJWTService "secret" (24 * time.Hour)).

Definition db_users : gorm.DB := gorm.mkDB [alice; bob] 3 [] [].

Definition db_empty : gorm.DB := gorm.mkDB [] 1 [] [].

(** An outstanding e-mail code of user 1 as GenerateEmailOTP writes it
    (the token column empty), and the store that holds it; the token
    column being unique, no second row of that kind fits beside it. *)
Definition otp_a : EmailVerification.t :=
  EmailVerification.mk 1 1 "a@x.com" "" "otp" "123456"
    (t0 + 10 * time.Minute) None t0 t0 None.

Definition db_otp : gorm.DB := gorm.mkDB [alice; bob] 3 [otp_a] [].

Definition session1 : UserSession.t :=
  UserSession.mk "s-1" "u-1" "tok-1" "10.0.0.1" "curl" true 0 t0 t0
    (t0 + 24 * time.Hour) None.

Definition session2 : UserSession.t :=
  UserSession.mk "s-2" "u-2" "tok-2" "10.0.0.2" "curl" true 0 t0 t0
    (t0 + 24 * time.Hour) None.

Definition db_sessions : gorm.DB := gorm.mkDB [] 1 [] [session1; session2].

Definition admin_request : UserCreateRequest :=
  mkUserCreateRequest "root@x.com" "root" "pw123456" "Root" "R"
    models.RoleAdmin.

End Example.

(* ------------------------------------------------------------------ *)
(** * The rest of models/user.go and models/extended_models.go *)

Module UserMore.

Definition with_password_change (hashed : string) (changedAt : option time.Time)
    (must : bool) (u : User.t) : User.t :=
  User.mk (User.ID u) (User.Email u) (User.Username u) hashed
    (User.FirstName u) (User.LastName u) (User.Role u) (User.IsActive u)
    (User.PhoneNumber u) (User.FailedLoginAttempts u)
    (User.AccountLockedUntil u) (User.LastLoginAt u) (User.LastLoginIP u)
    changedAt must (User.TwoFactorEnabled u)
    (User.CreatedAt u) (User.UpdatedAt u) (User.DeletedAt u).

Definition with_DeletedAt (v : option time.Time) (u : User.t) : User.t :=
  User.mk (User.ID u) (User.Email u) (User.Username u) (User.Password u)
    (User.FirstName u) (User.LastName u) (User.Role u) (User.IsActive u)
    (User.PhoneNumber u) (User.FailedLoginAttempts u)
    (User.AccountLockedUntil u) (User.LastLoginAt u) (User.LastLoginIP u)
    (User.PasswordChangedAt u) (User.MustChangePassword u)
    (User.TwoFactorEnabled u) (User.CreatedAt u) (User.UpdatedAt u) v.

(** The columns UpdateUser can write. *)
Definition with_profile (email username firstName lastName : string)
    (role : models.Role) (isActive : bool) (u : User.t) : User.t :=
  User.mk (User.ID u) email username (User.Password u)
    firstName lastName role isActive
    (User.PhoneNumber u) (User.FailedLoginAttempts u)
    (User.AccountLockedUntil u) (User.LastLoginAt u) (User.LastLoginIP u)
    (User.PasswordChangedAt u) (User.MustChangePassword u)
    (User.TwoFactorEnabled u) (User.CreatedAt u) (User.UpdatedAt u)
    (User.DeletedAt u).

(** func (u *User) UpdatePassword(newPassword string) error; [None] is the
    error return of the hash, which leaves the struct as it was. *)
Definition UpdatePassword `{Bcrypt} (now : time.Time) (salt : string)
    (newPassword : string) (u : User.t) : option User.t :=
  match bcrypt_generate salt newPassword with
  | None => None
  | Some hashedPassword =>
      Some (with_password_change hashedPassword (Some now) false u)
  end.

Definition SetMustChangePassword (u : User.t) : User.t :=
  with_password_change (User.Password u) (User.PasswordChangedAt u) true u.

Definition GetFullName (u : User.t) : string :=
  User.FirstName u ++ " " ++ User.LastName u.

Definition GetDisplayName (u : User.t) : string :=
  if negb (String.eqb (User.FirstName u) "") then User.FirstName u
  else User.Username u.

End UserMore.

Module PaginationResponse.

(** Page and Limit are int, Total is int64: all 64 bits wide.  The sum,
    the difference and the quotient wrap around; the quotient truncates
    towards zero. *)
Record t := mk {
  Page : Z;
  Limit : Z;
  Total : Z;
  TotalPages : Z;
  HasNext : bool;
  HasPrev : bool
}.

Definition GetTotalPages (p : t) : Z :=
  if Limit p =? 0 then 0
  else models.wrap_int
         (Z.quot (models.wrap_int (models.wrap_int (Total p + Limit p) - 1))
            (Limit p)).

Definition SetPagination (page limit total : Z) (p : t) : t :=
  let totalPages := GetTotalPages (mk page limit total (TotalPages p)
                                     (HasNext p) (HasPrev p)) in
  mk page limit total totalPages (page <? totalPages) (1 <? page).

End PaginationResponse.

Module QueryOptions.

(** Of QueryOptions, the fields ValidateQueryOptions reads or writes: the
    page, the page size, and the filter map, [None] when it is nil. *)
Record t := mk {
  Page : Z;
  PageSize : Z;
  Filters : option (list (string * string))
}.

Definition ValidateQueryOptions (options : t) : t :=
  let page := if Page options <=? 0 then 1 else Page options in
  let pageSize := if PageSize options <=? 0 then 20 else PageSize options in
  let pageSize := if 100 <? pageSize then 100 else pageSize in
  let filters :=
    match Filters options with
    | None => Some []
    | Some m => Some m
    end in
  mk page pageSize filters.

End QueryOptions.

(* ------------------------------------------------------------------ *)
(** * utils/jwt.go: RefreshToken *)

Module JWTRefresh.
Import utils JWTService.

(** func (j *JWTService) RefreshToken(tokenString string) (string, error) *)
Definition RefreshToken `{HMAC} (j : JWTService) (now : time.Time)
    (tokenString : TokenString) : Error + TokenString :=
  match ValidateToken j now tokenString with
  | inl err => inl err
  | inr claims =>
      let newClaims :=
        mkClaims (UserID claims) (Email claims) (Username claims)
          (Role claims)
          (jwt.mkRegistered "go-backend" (subject_of (UserID claims))
             (Some (jwt.NewNumericDate (time.Add now (expiry j))))
             (Some (jwt.NewNumericDate now))
             (Some (jwt.NewNumericDate now))) in
      inr (SignedString newClaims (secret j))
  end.

End JWTRefresh.

(* ------------------------------------------------------------------ *)
(** * middleware/auth.go over a gin context *)

(** How a token string taken from a header reads as a token: the
    base64 and JSON decoding of the library. *)
Class TokenCodec := {
  parse_token : string -> utils.TokenString
}.

Module gin.

(** What the handlers store under c.Set. *)
Inductive value :=
| Uint (n : Z)
| Str (s : string)
| RoleValue (r : models.Role)
| ClaimsValue (c : utils.JWTClaims).

(** The parts of *gin.Context the handlers use: request headers and path
    parameters, the key/value store, the JSON error response written (its
    status and its error text), and whether the chain was aborted. *)
Record Context := mkContext {
  Header : list (string * string);
  Params : list (string * string);
  Keys : list (string * value);
  Response : option (Z * string);
  Aborted : bool
}.

Fixpoint assoc {A : Type} (key : string) (l : list (string * A)) : option A :=
  match l with
  | [] => None
  | (k, v) :: rest => if String.eqb k key then Some v else assoc key rest
  end.

Definition GetHeader (c : Context) (key : string) : string :=
  match assoc key (Header c) with Some v => v | None => "" end.

Definition Param (c : Context) (key : string) : string :=
  match assoc key (Params c) with Some v => v | None => "" end.

Definition Get (c : Context) (key : string) : option value :=
  assoc key (Keys c).

Definition GetUint (c : Context) (key : string) : Z :=
  match Get c key with Some (Uint n) => n | _ => 0 end.

Definition Set_ (key : string) (v : value) (c : Context) : Context :=
  mkContext (Header c) (Params c) ((key, v) :: Keys c) (Response c)
    (Aborted c).

(** c.JSON(code, gin.H{"error": msg}) *)
Definition JSON (code : Z) (msg : string) (c : Context) : Context :=
  mkContext (Header c) (Params c) (Keys c) (Some (code, msg)) (Aborted c).

Definition Abort (c : Context) : Context :=
  mkContext (Header c) (Params c) (Keys c) (Response c) true.

Definition HandlerFunc := Context -> Context.

(** The handler chain: each handler ends in c.Next() or in c.Abort(); an
    aborted context skips the handlers still pending. *)
Fixpoint run (handlers : list HandlerFunc) (c : Context) : Context :=
  match handlers with
  | [] => c
  | h :: rest =>
      let c' := h c in
      if Aborted c' then c' else run rest c'
  end.

End gin.

Module auth.
Import gin models middleware.

Definition StatusUnauthorized : Z := 401.
Definition StatusForbidden : Z := 403.
Definition StatusInternalServerError : Z := 500.

(** Where the first space of [s] cuts it. *)
Fixpoint cut_at_space (s : string) : option (string * string) :=
  match s with
  | EmptyString => None
  | String ch rest =>
      if Ascii.eqb ch " " then Some (EmptyString, rest)
      else match cut_at_space rest with
           | Some (before, after) => Some (String ch before, after)
           | None => None
           end
  end.

(** strings.SplitN(s, " ", 2) *)
Definition SplitN2 (s : string) : list string :=
  match cut_at_space s with
  | Some (before, after) => [before; after]
  | None => [s]
  end.

(** func AuthMiddleware(jwtService *utils.JWTService) gin.HandlerFunc *)
Definition AuthMiddleware `{HMAC} `{TokenCodec} (jwtService : utils.JWTService)
    (now : time.Time) : HandlerFunc :=
  fun c =>
    let authHeader := GetHeader c "Authorization" in
    if String.eqb authHeader "" then
      Abort (JSON StatusUnauthorized "Authorization header is required" c)
    else
      match SplitN2 authHeader with
      | [scheme; token] =>
          if negb (String.eqb scheme "Bearer") then
            Abort (JSON StatusUnauthorized
                     "Invalid authorization header format" c)
          else
            match JWTService.ValidateToken jwtService now (parse_token token) with
            | inl _ =>
                Abort (JSON StatusUnauthorized "Invalid or expired token" c)
            | inr claims =>
                Set_ "claims" (ClaimsValue claims)
                  (Set_ "user_role" (RoleValue (utils.Role claims))
                     (Set_ "user_username" (Str (utils.Username claims))
                        (Set_ "user_email" (Str (utils.Email claims))
                           (Set_ "user_id" (Uint (utils.UserID claims)) c))))
            end
      | _ =>
          Abort (JSON StatusUnauthorized
                   "Invalid authorization header format" c)
      end.

(** func RequireRole(requiredRoles ...models.Role) gin.HandlerFunc *)
Definition RequireRole (requiredRoles : list Role) : HandlerFunc :=
  fun c =>
    match Get c "user_role" with
    | None =>
        Abort (JSON StatusUnauthorized "User role not found in context" c)
    | Some (RoleValue role) =>
        if existsb (hasRolePermission role) requiredRoles then c
        else Abort (JSON StatusForbidden "Insufficient permissions" c)
    | Some _ =>
        Abort (JSON StatusInternalServerError "Invalid user role type" c)
    end.

Definition RequireAdmin : HandlerFunc := RequireRole [RoleAdmin].

Definition RequireModerator : HandlerFunc :=
  RequireRole [RoleAdmin; RoleModerator].

(** func RequireOwnerOrAdmin(getUserIDFunc) gin.HandlerFunc; the argument
    reads the owner of the resource off the context. *)
Definition RequireOwnerOrAdmin (getUserIDFunc : Context -> Z) : HandlerFunc :=
  fun c =>
    match Get c "user_id" with
    | None =>
        Abort (JSON StatusUnauthorized "User ID not found in context" c)
    | Some (Uint currentUserID) =>
        match Get c "user_role" with
        | None =>
            Abort (JSON StatusUnauthorized "User role not found in context" c)
        | Some (RoleValue role) =>
            if String.eqb role RoleAdmin then c
            else if currentUserID =? getUserIDFunc c then c
            else Abort (JSON StatusForbidden
                   "Access denied: you can only access your own resources" c)
        | Some _ =>
            Abort (JSON StatusInternalServerError "Invalid user role type" c)
        end
    | Some _ =>
        Abort (JSON StatusInternalServerError "Invalid user ID type" c)
    end.

End auth.

(* ------------------------------------------------------------------ *)
(** * The rest of UserService *)

Module UserAdmin.
Import gorm services.

Record UserUpdateRequest := mkUserUpdateRequest {
  upd_Email : option string;
  upd_Username : option string;
  upd_FirstName : option string;
  upd_LastName : option string;
  upd_Role : option models.Role;
  upd_IsActive : option bool
}.

(** func (s *UserService) GetUserByID(id uint): the user, or the error. *)
Definition GetUserByID (db : DB) (id : Z) : error + User.t :=
  match FirstUser db (fun u => User.ID u =? id) with
  | None => inl (errors_New "user not found")
  | Some user => inr user
  end.

(** db.Delete(&user) on a model with a DeletedAt column:
    UPDATE users SET deleted_at = now WHERE id = ? AND deleted_at IS NULL. *)
Definition SoftDeleteUser (db : DB) (now : time.Time) (user : User.t) : DB :=
  with_users
    (map (fun r => if is_null (User.DeletedAt r) && (User.ID r =? User.ID user)
                   then UserMore.with_DeletedAt (Some now) r else r)
       (users db))
    (users_seq db) db.

(** func (s *UserService) DeleteUser(id uint) error *)
Definition DeleteUser (db : DB) (now : time.Time) (id : Z)
    : option error * DB :=
  match FirstUser db (fun u => User.ID u =? id) with
  | None => (Some (errors_New "user not found"), db)
  | Some user => (None, SoftDeleteUser db now user)
  end.

Definition or_else {A : Type} (o : option A) (d : A) : A :=
  match o with Some v => v | None => d end.

(** The row after the SET clause built from the updates map. *)
Definition apply_updates (req : UserUpdateRequest) (now : time.Time)
    (u : User.t) : User.t :=
  User.with_stamps (User.CreatedAt u) now
    (UserMore.with_profile
       (or_else (upd_Email req) (User.Email u))
       (or_else (upd_Username req) (User.Username u))
       (or_else (upd_FirstName req) (User.FirstName u))
       (or_else (upd_LastName req) (User.LastName u))
       (or_else (upd_Role req) (User.Role u))
       (or_else (upd_IsActive req) (User.IsActive u))
       u).

(** The unique index an UPDATE of e-mail or user name runs into: another
    row of the table, soft-deleted or not, that holds the new value. *)
Definition update_conflict (db : DB) (id : Z) (req : UserUpdateRequest)
    : option string :=
  match upd_Email req with
  | Some email =>
      if existsb (fun r => negb (User.ID r =? id)
                           && String.eqb (User.Email r) email) (users db)
      then Some "email"
      else match upd_Username req with
           | Some username =>
               if existsb (fun r => negb (User.ID r =? id)
                                    && String.eqb (User.Username r) username)
                    (users db)
               then Some "username" else None
           | None => None
           end
  | None =>
      match upd_Username req with
      | Some username =>
          if existsb (fun r => negb (User.ID r =? id)
                               && String.eqb (User.Username r) username)
               (users db)
          then Some "username" else None
      | None => None
      end
  end.

(** db.Model(&user).Updates(updates) *)
Definition UpdatesUser (db : DB) (now : time.Time) (user : User.t)
    (req : UserUpdateRequest) : gorm.error + DB :=
  match update_conflict db (User.ID user) req with
  | Some column => inl (ErrDuplicatedKey column)
  | None =>
      inr (with_users
             (map (fun r => if is_null (User.DeletedAt r)
                               && (User.ID r =? User.ID user)
                            then apply_updates req now r else r)
                (users db))
             (users_seq db) db)
  end.

(** func (s *UserService) UpdateUser(id uint, req *models.UserUpdateRequest) *)
Definition UpdateUser (db : DB) (now : time.Time) (id : Z)
    (req : UserUpdateRequest) : (error + User.t) * DB :=
  match FirstUser db (fun u => User.ID u =? id) with
  | None => (inl (errors_New "user not found"), db)
  | Some user =>
      let emailTaken :=
        match upd_Email req with
        | Some email =>
            negb (is_null
                    (FirstUser db (fun u => String.eqb (User.Email u) email
                                            && negb (User.ID u =? id))))
        | None => false
        end in
      if emailTaken then (inl (errors_New "email already taken"), db)
      else
        let usernameTaken :=
          match upd_Username req with
          | Some username =>
              negb (is_null
                      (FirstUser db
                         (fun u => String.eqb (User.Username u) username
                                   && negb (User.ID u =? id))))
          | None => false
          end in
        if usernameTaken then (inl (errors_New "username already taken"), db)
        else
          match UpdatesUser db now user req with
          | inl err => (inl (fmt_Errorf "failed to update user" err), db)
          | inr db' =>
              match FirstUser db' (fun u => User.ID u =? id) with
              | None =>
                  (inl (fmt_Errorf "failed to fetch updated user"
                          ErrRecordNotFound), db')
              | Some user' => (inr user', db')
              end
          end
  end.

End UserAdmin.

(* ------------------------------------------------------------------ *)
(** * The rest of TwoFactorService (email_verifications variant) *)

Module OTP.
Import gorm services.

Definition digit (d : Z) : ascii := ascii_of_nat (48 + Z.to_nat d).

(** The decimal digits of [n >= 0], most significant first; the loop
    stops at the last digit, [fuel] bounds it. *)
Fixpoint digits (fuel : nat) (n : Z) : string :=
  match fuel with
  | O => EmptyString
  | S fuel' =>
      if n <? 10 then String (digit (n mod 10)) EmptyString
      else digits fuel' (n / 10) ++ String (digit (n mod 10)) EmptyString
  end.

Definition decimal (n : Z) : string :=
  digits (S (Z.to_nat (Z.log2 n))) n.

Fixpoint repeat_char (ch : ascii) (k : nat) : string :=
  match k with
  | O => EmptyString
  | S k' => String ch (repeat_char ch k')
  end.

(** fmt.Sprintf("%0*d", width, n) for [n >= 0]: padded with zeros on the
    left up to [width]; a negative width pads with spaces on the right. *)
Definition Sprintf_0star_d (width : Z) (n : Z) : string :=
  let s := decimal n in
  let len := Z.of_nat (String.length s) in
  if width <? 0
  then s ++ repeat_char " " (Z.to_nat (- width - len))
  else repeat_char "0" (Z.to_nat (width - len)) ++ s.

(** func (s *TwoFactorService) generateOTP(length int) (string, error);
    [n] is the draw of rand.Int below 10^length. *)
Definition generateOTP (length : Z) (n : Z) : string :=
  Sprintf_0star_d length n.

(** The WHERE clause IsOTPValid and GetOTPExpiryTime share. *)
Definition otp_outstanding (now : time.Time) (userID : Z)
    (v : EmailVerification.t) : bool :=
  is_null (EmailVerification.DeletedAt v)
  && (EmailVerification.UserID v =? userID)
  && (String.eqb (EmailVerification.Type_ v) "otp"
      || String.eqb (EmailVerification.Type_ v) "sms_otp")
  && (now <? EmailVerification.ExpiresAt v)
  && is_null (EmailVerification.UsedAt v).

(** func (s *TwoFactorService) IsOTPValid(userID uint) (bool, error) *)
Definition IsOTPValid (db : DB) (now : time.Time) (userID : Z) : bool :=
  0 <? Z.of_nat (List.length (filter (otp_outstanding now userID)
                                (email_verifications db))).

(** func (s *TwoFactorService) GetOTPExpiryTime(userID uint) *)
Definition GetOTPExpiryTime (db : DB) (now : time.Time) (userID : Z)
    : gorm.error + time.Time :=
  match first_by otp_order
          (filter (otp_outstanding now userID) (email_verifications db)) with
  | None => inl ErrRecordNotFound
  | Some verification => inr (EmailVerification.ExpiresAt verification)
  end.

Definition with_DeletedAt (v : option time.Time) (ev : EmailVerification.t)
    : EmailVerification.t :=
  EmailVerification.mk (EmailVerification.ID ev) (EmailVerification.UserID ev)
    (EmailVerification.Email ev) (EmailVerification.Token ev)
    (EmailVerification.Type_ ev) (EmailVerification.Code ev)
    (EmailVerification.ExpiresAt ev) (EmailVerification.UsedAt ev)
    (EmailVerification.CreatedAt ev) (EmailVerification.UpdatedAt ev) v.

(** func (s *TwoFactorService) ClearExpiredOTPs() error: a delete on a
    model with a DeletedAt column marks the rows deleted. *)
Definition ClearExpiredOTPs (db : DB) (now : time.Time) : DB :=
  with_email_verifications
    (map (fun r =>
            if is_null (EmailVerification.DeletedAt r)
               && (String.eqb (EmailVerification.Type_ r) "otp"
                   || String.eqb (EmailVerification.Type_ r) "sms_otp")
               && (EmailVerification.ExpiresAt r <? now)
            then with_DeletedAt (Some now) r else r)
       (email_verifications db))
    db.

End OTP.

(* ------------------------------------------------------------------ *)
(** * TwoFactorService: the calls that write one-time codes *)

Module TwoFactor.
Import gorm services.

Definition with_ID (v : Z) (ev : EmailVerification.t) : EmailVerification.t :=
  EmailVerification.mk v (EmailVerification.UserID ev)
    (EmailVerification.Email ev) (EmailVerification.Token ev)
    (EmailVerification.Type_ ev) (EmailVerification.Code ev)
    (EmailVerification.ExpiresAt ev) (EmailVerification.UsedAt ev)
    (EmailVerification.CreatedAt ev) (EmailVerification.UpdatedAt ev)
    (EmailVerification.DeletedAt ev).

(** db.Create(verification) for a struct that carries no key: [id] is the
    key the sequence hands out.  The unique indexes of the table, the
    primary key and the token column (gorm:"not null;uniqueIndex"), hold
    over every row, soft-deleted ones included. *)
Definition CreateEmailVerification (db : DB) (id : Z)
    (v : EmailVerification.t) : gorm.error + (EmailVerification.t * DB) :=
  let row := with_ID id v in
  if existsb (fun r => EmailVerification.ID r =? id) (email_verifications db)
  then inl (ErrDuplicatedKey "id")
  else if existsb (fun r => String.eqb (EmailVerification.Token r)
                              (EmailVerification.Token row))
            (email_verifications db)
  then inl (ErrDuplicatedKey "token")
  else inr (row, with_email_verifications
                   (email_verifications db ++ [row]) db).

(** func (s *TwoFactorService) GenerateEmailOTP(userID, email, username):
    [draw] is what generateOTP's random source gives, a number below
    10^6 or its error; [sent] is the error of SendOTPEmail, [None] when
    the mail goes out.  The row stays in the table when the mail fails. *)
Definition GenerateEmailOTP (db : DB) (now : time.Time) (id : Z)
    (draw : services.error + Z) (sent : option services.error)
    (userID : Z) (email username : string)
    : (services.error + string) * DB :=
  match draw with
  | inl err => (inl err, db)
  | inr n =>
      let otp := OTP.generateOTP 6 n in
      let verification :=
        EmailVerification.mk 0 userID email "" "otp" otp
          (time.Add now (10 * time.Minute)) None now now None in
      match CreateEmailVerification db id verification with
      | inl err => (inl (store_error err), db)
      | inr (_, db') =>
          match sent with
          | Some err => (inl err, db')
          | None => (inr otp, db')
          end
      end
  end.

(** func (s *TwoFactorService) GenerateSMSOTP(userID, phoneNumber,
    username): the phone number goes into the e-mail column; nothing is
    sent. *)
Definition GenerateSMSOTP (db : DB) (now : time.Time) (id : Z)
    (draw : services.error + Z) (userID : Z) (phoneNumber username : string)
    : (services.error + string) * DB :=
  match draw with
  | inl err => (inl err, db)
  | inr n =>
      let otp := OTP.generateOTP 6 n in
      let verification :=
        EmailVerification.mk 0 userID phoneNumber "" "sms_otp" otp
          (time.Add now (10 * time.Minute)) None now now None in
      match CreateEmailVerification db id verification with
      | inl err => (inl (store_error err), db)
      | inr (_, db') => (inr otp, db')
      end
  end.

(** A call that writes the store, with the time it is made at and what
    the outside world hands it: the calls of TwoFactorService that write
    the table of codes (ResendOTP writes through GenerateEmailOTP), and,
    as one case, any call of another service, which may leave the users
    and the sessions in any state and does not touch the codes. *)
Inductive Call :=
| CallGenerateEmailOTP (now : time.Time) (id : Z)
    (draw : services.error + Z) (sent : option services.error)
    (userID : Z) (email username : string)
| CallGenerateSMSOTP (now : time.Time) (id : Z)
    (draw : services.error + Z) (userID : Z) (phoneNumber username : string)
| CallVerifyOTP (now : time.Time) (userID : Z) (providedOTP : string)
    (method : TwoFactorMethod)
| CallClearExpiredOTPs (now : time.Time)
| CallElsewhere (now : time.Time) (us : list User.t) (seq : Z)
    (ss : list UserSession.t).

Definition call_at (c : Call) : time.Time :=
  match c with
  | CallGenerateEmailOTP now _ _ _ _ _ _ => now
  | CallGenerateSMSOTP now _ _ _ _ _ => now
  | CallVerifyOTP now _ _ _ => now
  | CallClearExpiredOTPs now => now
  | CallElsewhere now _ _ _ => now
  end.

(** The store after a call. *)
Definition step (db : DB) (c : Call) : DB :=
  match c with
  | CallGenerateEmailOTP now id draw sent userID email username =>
      snd (GenerateEmailOTP db now id draw sent userID email username)
  | CallGenerateSMSOTP now id draw userID phoneNumber username =>
      snd (GenerateSMSOTP db now id draw userID phoneNumber username)
  | CallVerifyOTP now userID providedOTP method =>
      snd (VerifyOTP db now userID providedOTP method)
  | CallClearExpiredOTPs now => OTP.ClearExpiredOTPs db now
  | CallElsewhere _ us seq ss => mkDB us seq (email_verifications db) ss
  end.

(** The store after a sequence of calls. *)
Fixpoint run (db : DB) (calls : list Call) : DB :=
  match calls with
  | [] => db
  | c :: rest => run (step db c) rest
  end.

(** The clock does not run backwards over the calls, starting at [t0]. *)
Fixpoint ordered (t0 : time.Time) (calls : list Call) : Prop :=
  match calls with
  | [] => True
  | c :: rest => t0 <= call_at c /\ ordered (call_at c) rest
  end.

Definition last (t0 : time.Time) (calls : list Call) : time.Time :=
  fold_left (fun _ c => call_at c) calls t0.

(** The stores the service produces: from an empty table of codes, by
    its calls. *)
Inductive reachable : DB -> Prop :=
| reachable_empty (db : DB) :
    email_verifications db = [] -> reachable db
| reachable_step (db : DB) (c : Call) :
    reachable db -> reachable (step db c).

(** What the token index leaves of the table: the generators write the
    token column empty, so the table holds one code at most. *)
Definition one_code (db : DB) : Prop :=
  match email_verifications db with
  | [] => True
  | [r] => EmailVerification.Token r = ""
  | _ => False
  end.

(** The one code of the table is used or past its expiry. *)
Definition spent_code (t : time.Time) (db : DB) : Prop :=
  exists r,
    email_verifications db = [r]
    /\ EmailVerification.Token r = ""
    /\ (EmailVerification.IsUsed r = true
        \/ EmailVerification.IsExpired t r = true).

End TwoFactor.

(* ------------------------------------------------------------------ *)
(** * The rest of SessionService *)

Module Sessions.
Import gorm services.

Definition with_ExpiresAt (v : time.Time) (s : UserSession.t) : UserSession.t :=
  UserSession.mk (UserSession.ID s) (UserSession.UserID s)
    (UserSession.Token s) (UserSession.IPAddress s) (UserSession.UserAgent s)
    (UserSession.IsActive s) (UserSession.LastSeen s)
    (UserSession.CreatedAt s) (UserSession.UpdatedAt s) v
    (UserSession.DeletedAt s).

Definition with_IPAddress (v : string) (s : UserSession.t) : UserSession.t :=
  UserSession.mk (UserSession.ID s) (UserSession.UserID s)
    (UserSession.Token s) v (UserSession.UserAgent s)
    (UserSession.IsActive s) (UserSession.LastSeen s)
    (UserSession.CreatedAt s) (UserSession.UpdatedAt s)
    (UserSession.ExpiresAt s) (UserSession.DeletedAt s).

Definition with_DeletedAt (v : option time.Time) (s : UserSession.t)
    : UserSession.t :=
  UserSession.mk (UserSession.ID s) (UserSession.UserID s)
    (UserSession.Token s) (UserSession.IPAddress s) (UserSession.UserAgent s)
    (UserSession.IsActive s) (UserSession.LastSeen s)
    (UserSession.CreatedAt s) (UserSession.UpdatedAt s)
    (UserSession.ExpiresAt s) v.

(** func (s *SessionService) CreateSession(userID, ipAddress, userAgent):
    [id] is the uuid drawn for the row, [sessionToken] the token drawn by
    generateSessionToken, [None] when the random source fails.  LastSeen
    is not set and keeps the zero value.  The insert fails on a key that
    is already in the table. *)
Definition CreateSession (db : DB) (now : time.Time) (id : string)
    (sessionToken : option string) (userID ipAddress userAgent : string)
    : (option gorm.error + UserSession.t) * DB :=
  match sessionToken with
  | None => (inl None, db)
  | Some token =>
      let session :=
        UserSession.mk id userID token ipAddress userAgent true 0 now now
          (time.Add now (24 * time.Hour)) None in
      if existsb (fun r => String.eqb (UserSession.ID r) id) (user_sessions db)
      then (inl (Some (ErrDuplicatedKey "id")), db)
      else (inr session,
            with_user_sessions (user_sessions db ++ [session]) db)
  end.

(** func (s *SessionService) RefreshSession(token string) error *)
Definition RefreshSession (db : DB) (now : time.Time) (token : string) : DB :=
  with_user_sessions
    (map (fun s =>
            if is_null (UserSession.DeletedAt s)
               && String.eqb (UserSession.Token s) token
               && Bool.eqb (UserSession.IsActive s) true
            then UserSession.with_UpdatedAt now
                   (with_ExpiresAt (time.Add now (24 * time.Hour)) s)
            else s) (user_sessions db))
    db.

(** func (s *SessionService) InvalidateSession(token string) error *)
Definition InvalidateSession (db : DB) (now : time.Time) (token : string)
    : DB :=
  with_user_sessions
    (map (fun s =>
            if is_null (UserSession.DeletedAt s)
               && String.eqb (UserSession.Token s) token
            then UserSession.with_UpdatedAt now
                   (UserSession.with_IsActive false s)
            else s) (user_sessions db))
    db.

(** func (s *SessionService) InvalidateUserSessionsExcept(userID, exceptToken) *)
Definition InvalidateUserSessionsExcept (db : DB) (now : time.Time)
    (userID exceptToken : string) : DB :=
  with_user_sessions
    (map (fun s =>
            if is_null (UserSession.DeletedAt s)
               && String.eqb (UserSession.UserID s) userID
               && negb (String.eqb (UserSession.Token s) exceptToken)
               && Bool.eqb (UserSession.IsActive s) true
            then UserSession.with_UpdatedAt now
                   (UserSession.with_IsActive false s)
            else s) (user_sessions db))
    db.

(** func (s *SessionService) CleanupExpiredSessions() error *)
Definition CleanupExpiredSessions (db : DB) (now : time.Time) : DB :=
  with_user_sessions
    (map (fun s =>
            if is_null (UserSession.DeletedAt s)
               && ((UserSession.ExpiresAt s <? now)
                   || Bool.eqb (UserSession.IsActive s) false)
            then with_DeletedAt (Some now) s
            else s) (user_sessions db))
    db.

(** func (s *SessionService) IsUserSessionActive(userID) (bool, error) *)
Definition IsUserSessionActive (db : DB) (now : time.Time) (userID : string)
    : bool :=
  0 <? Z.of_nat
         (List.length
            (filter (fun s => is_null (UserSession.DeletedAt s)
                              && String.eqb (UserSession.UserID s) userID
                              && Bool.eqb (UserSession.IsActive s) true
                              && (now <? UserSession.ExpiresAt s))
               (user_sessions db))).

(** func (s *SessionService) UpdateSessionActivity(token, ipAddress) error *)
Definition UpdateSessionActivity (db : DB) (now : time.Time)
    (token ipAddress : string) : DB :=
  with_user_sessions
    (map (fun s =>
            if is_null (UserSession.DeletedAt s)
               && String.eqb (UserSession.Token s) token
               && Bool.eqb (UserSession.IsActive s) true
            then UserSession.with_UpdatedAt now
                   (if negb (String.eqb ipAddress "")
                    then with_IPAddress ipAddress s else s)
            else s) (user_sessions db))
    db.

End Sessions.

(* ------------------------------------------------------------------ *)
(** * handlers/user_handler.go: reading the :id parameter *)

Module handlers.
Import gin.

Definition is_digit (ch : ascii) : bool :=
  (48 <=? nat_of_ascii ch)%nat && (nat_of_ascii ch <=? 57)%nat.

Fixpoint parse_digits (acc : Z) (s : string) : option Z :=
  match s with
  | EmptyString => Some acc
  | String ch rest =>
      if is_digit ch
      then parse_digits (10 * acc + (Z.of_nat (nat_of_ascii ch) - 48)) rest
      else None
  end.

(** strconv.ParseUint(s, 10, 32); [None] for a syntax or a range error. *)
Definition ParseUint32 (s : string) : option Z :=
  match s with
  | EmptyString => None
  | _ =>
      match parse_digits 0 s with
      | Some n => if n <? 2 ^ 32 then Some n else None
      | None => None
      end
  end.

(** func (h *UserHandler) GetUserIDFromParam(c *gin.Context) uint *)
Definition GetUserIDFromParam (c : Context) : Z :=
  match ParseUint32 (Param c "id") with
  | Some id => id
  | None => 0
  end.

End handlers.

(* ------------------------------------------------------------------ *)
(** * What is assumed of the hash library *)

(** A generated hash checks against the password it was generated from. *)
Definition bcrypt_sound `{Bcrypt} : Prop :=
  forall salt password hashed,
    bcrypt_generate salt password = Some hashed ->
    bcrypt.CompareHashAndPassword hashed password = true.

(* ------------------------------------------------------------------ *)
(** * package database: Seed *)

Module database.
Import gorm services.


End database.

(* ------------------------------------------------------------------ *)
(** * More concrete requests and stores *)

Module Example2.

Definition alice_token : utils.TokenString :=
  @JWTService.GenerateToken Example.plain_hmac
    (services.jwtService Example.svc) Example.t0 Example.alice.

(** A stand-in for the decoding of token strings: one string is known. *)
Definition plain_codec : TokenCodec :=
  {| parse_token := fun s =>
       if String.eqb s "alice-token" then alice_token
       else utils.Undecodable s |}.

Definition request (authorization id : string) : gin.Context :=
  gin.mkContext [("Authorization", authorization)] [("id", id)] [] None false.

Definition carol : User.t :=
  User.mk 3 "c@x.com" "carol" (Example.prefix59 ++ "secret99") "Carol" "C"
    models.RoleUser true "777" 0 None None "" None
    false false Example.t0 Example.t0 None.

Definition db_carol : gorm.DB := gorm.mkDB [Example.bob; carol] 4 [] [].

Definition otp_sms : EmailVerification.t :=
  EmailVerification.mk 4 1 "555" "" "sms_otp" "111111"
    (Example.t0 + 10 * time.Minute) None Example.t0 Example.t0 None.

Definition otp_old : EmailVerification.t :=
  EmailVerification.mk 5 1 "a@x.com" "" "otp" "222222"
    (Example.t0 - time.Minute) None (Example.t0 - 11 * time.Minute)
    (Example.t0 - 11 * time.Minute) None.

Definition db_codes : gorm.DB :=
  gorm.mkDB [Example.alice] 2 [Example.otp_a] [].

Definition db_sms : gorm.DB := gorm.mkDB [Example.alice] 2 [otp_sms] [].

Definition db_old : gorm.DB := gorm.mkDB [Example.alice] 2 [otp_old] [].

Definition session3 : UserSession.t :=
  UserSession.mk "s-3" "u-1" "tok-3" "10.0.0.3" "curl" true 0 Example.t0
    Example.t0 (Example.t0 + 24 * time.Hour) None.

Definition db_sessions3 : gorm.DB :=
  gorm.mkDB [] 1 [] [Example.session1; Example.session2; session3].

Definition registered :=
  @services.Register Example.plain_bcrypt Example.plain_hmac Example.svc
    Example.db_empty Example.t0 "salt" Example.admin_request.

Definition registered_resp : services.LoginResponse :=
  match fst registered with
  | inr resp => resp
  | inl _ =>
      services.mkLoginResponse (utils.Undecodable "none")
        (services.ToResponse Example.alice)
  end.

Definition second_request : services.UserCreateRequest :=
  services.mkUserCreateRequest "new@x.com" "newuser" "pw999999" "New" "U"
    models.RoleUser.

Definition promote : UserAdmin.UserUpdateRequest :=
  UserAdmin.mkUserUpdateRequest None None None None (Some models.RoleAdmin)
    None.

Definition take_email (email : string) : UserAdmin.UserUpdateRequest :=
  UserAdmin.mkUserUpdateRequest (Some email) None None None None None.

(** A user that has been deleted. *)
Definition dave : User.t :=
  User.mk 4 "d@x.com" "dave" (Example.prefix59 ++ "letmein1") "Dave" "D"
    models.RoleUser true "888" 0 None None "" None
    false false Example.t0 Example.t0 (Some Example.t0).

Definition db_dave : gorm.DB := gorm.mkDB [Example.bob; carol; dave] 5 [] [].

Definition session9 : UserSession.t :=
  UserSession.mk "s-9" "u-1" "tok-9" "10.0.0.9" "curl" true 0 Example.t0
    Example.t0 (Example.t0 + 24 * time.Hour) None.

Definition created :=
  Sessions.CreateSession Example.db_sessions Example.t0 "s-9" (Some "tok-9")
    "u-1" "10.0.0.9" "curl".

(** A code is asked for, then a second one is asked for and a wrong one
    is tried. *)
Definition ask_code : TwoFactor.Call :=
  TwoFactor.CallGenerateEmailOTP Example.t0 1 (inr 123456) None 1 "a@x.com"
    "alice".

Definition later_calls : list TwoFactor.Call :=
  [ TwoFactor.CallGenerateEmailOTP (Example.t0 + 2 * time.Minute) 2
      (inr 123456) None 1 "a@x.com" "alice";
    TwoFactor.CallVerifyOTP (Example.t0 + 3 * time.Minute) 1 "000000"
      services.TwoFactorMethodEmail;
    TwoFactor.CallClearExpiredOTPs (Example.t0 + 3 * time.Minute);
    TwoFactor.CallElsewhere (Example.t0 + 3 * time.Minute) [Example.alice] 2
      [] ].




End Example2.

(* ------------------------------------------------------------------ *)
(** * Role hierarchy *)

Section RoleHierarchy.
Import models middleware.

(** C8.  The role check of the middleware, and the method of the same
    shape on User, follow Admin > Moderator > User: an admin satisfies
    every requirement, a moderator satisfies moderator and user but not
    admin, a user satisfies only user.  The nine entries of each table are
    the comparison of the ranks. *)
Theorem role_hierarchy_table :
  (hasRolePermission RoleAdmin RoleAdmin = true
   /\ hasRolePermission RoleAdmin RoleModerator = true
   /\ hasRolePermission RoleAdmin RoleUser = true
   /\ hasRolePermission RoleModerator RoleModerator = true
   /\ hasRolePermission RoleModerator RoleAdmin = false
   /\ hasRolePermission RoleUser RoleAdmin = false
   /\ hasRolePermission RoleUser RoleModerator = false
   /\ hasRolePermission RoleModerator RoleUser = true
   /\ hasRolePermission RoleUser RoleUser = true)
  /\ (forall u : User.t,
        User.HasPermission (User.with_Role RoleAdmin u) RoleAdmin = true
        /\ User.HasPermission (User.with_Role RoleAdmin u) RoleModerator = true
        /\ User.HasPermission (User.with_Role RoleAdmin u) RoleUser = true
        /\ User.HasPermission (User.with_Role RoleModerator u) RoleModerator = true
        /\ User.HasPermission (User.with_Role RoleModerator u) RoleAdmin = false
        /\ User.HasPermission (User.with_Role RoleUser u) RoleAdmin = false
        /\ User.HasPermission (User.with_Role RoleUser u) RoleModerator = false
        /\ User.HasPermission (User.with_Role RoleModerator u) RoleUser = true
        /\ User.HasPermission (User.with_Role RoleUser u) RoleUser = true)
  /\ forallb (fun a =>
       forallb (fun b =>
         Bool.eqb (hasRolePermission a b)
           match rank a, rank b with
           | Some ra, Some rb => (rb <=? ra)%nat
           | _, _ => false
           end)
         [RoleAdmin; RoleModerator; RoleUser])
       [RoleAdmin; RoleModerator; RoleUser] = true.
Proof.
  split; [| split].
  - repeat split; reflexivity.
  - intro u. repeat split; reflexivity.
  - vm_compute. reflexivity.
Qed.

End RoleHierarchy.

(* ------------------------------------------------------------------ *)
(** * Token codec *)

Section TokenCodec.
Import utils JWTService.
Context `{HMAC}.

Lemma Truncate_le (t d : Z) : time.Truncate t d <= t.
Proof.
  unfold time.Truncate. destruct (d <=? 0) eqn:Hd; [lia |].
  apply Z.leb_gt in Hd. pose proof (Z.mod_pos_bound t d Hd). lia.
Qed.

Lemma Truncate_gt (t d : Z) : 0 < d -> t - d < time.Truncate t d.
Proof.
  intro Hd. unfold time.Truncate.
  destruct (d <=? 0) eqn:E; [apply Z.leb_le in E; lia |].
  pose proof (Z.mod_pos_bound t d Hd). lia.
Qed.

(** A token read at [now'], no earlier than its issue at [now] and before
    its truncated expiry, verifies to the claims it was issued with. *)
Lemma ValidateToken_GenerateToken (j : JWTService) (now now' : time.Time)
    (user : User.t) :
  now <= now' ->
  now' < jwt.NewNumericDate (time.Add now (expiry j)) ->
  ValidateToken j now' (GenerateToken j now user)
  = inr (mkClaims (User.ID user) (User.Email user) (User.Username user)
           (User.Role user)
           (jwt.mkRegistered "go-backend" (subject_of (User.ID user))
              (Some (jwt.NewNumericDate (time.Add now (expiry j))))
              (Some (jwt.NewNumericDate now))
              (Some (jwt.NewNumericDate now)))).
Proof.
  intros Hle Hlt.
  unfold ValidateToken, GenerateToken, SignedString, ParseWithClaims.
  cbn [jwt.GetSigningMethod jwt.algs jwt.lookup_alg String.eqb Ascii.eqb
       Bool.eqb keyFunc Verify Registered].
  rewrite String.eqb_refl.
  unfold jwt.Valid, jwt.verifyExp, jwt.verifyIat, jwt.verifyNbf.
  cbn [jwt.ExpiresAt jwt.IssuedAt jwt.NotBefore].
  unfold time.Before, time.After, time.Equal.
  assert (Hexp : (now' <? jwt.NewNumericDate (time.Add now (expiry j))) = true)
    by (apply Z.ltb_lt; exact Hlt).
  assert (Hiat : jwt.NewNumericDate now <= now')
    by (unfold jwt.NewNumericDate; pose proof (Truncate_le now jwt.TimePrecision); lia).
  assert (Hiat' : ((jwt.NewNumericDate now <? now')
                   || (now' =? jwt.NewNumericDate now)) = true).
  { destruct (Z.eq_dec now' (jwt.NewNumericDate now)) as [-> | Hne].
    - rewrite Z.eqb_refl. apply orb_true_r.
    - apply orb_true_iff. left. apply Z.ltb_lt. lia. }
  rewrite Hexp, Hiat'. reflexivity.
Qed.

(** C5, as the code has it.  For every identity and every token lifetime
    of at least one second, a token verified at the instant it was issued,
    or at any later time up to one second before issue time plus lifetime,
    is accepted, and the claims returned carry exactly the ID, e-mail,
    user name and role of the identity it was issued for.  (The expiry
    written into the token is issue time plus lifetime, truncated to whole
    seconds.) *)
Theorem token_round_trip (j : JWTService) (now now' : time.Time)
    (user : User.t) :
  time.Second <= expiry j ->
  now <= now' ->
  now' <= time.Add now (expiry j) - time.Second ->
  exists claims,
    ValidateToken j now' (GenerateToken j now user) = inr claims
    /\ UserID claims = User.ID user
    /\ Email claims = User.Email user
    /\ Username claims = User.Username user
    /\ Role claims = User.Role user.
Proof.
  intros Httl Hle Hbefore.
  eexists. split.
  - apply ValidateToken_GenerateToken; [exact Hle |].
    unfold jwt.NewNumericDate.
    pose proof (Truncate_gt (time.Add now (expiry j)) jwt.TimePrecision).
    unfold jwt.TimePrecision, time.Second in *. lia.
  - repeat split.
Qed.

(** The parser never hands claims out for a token whose header does not
    advertise an HS method. *)
Lemma ValidateToken_not_hmac (j : JWTService) (now : time.Time)
    (tokenString : TokenString) :
  hmac_family tokenString = false ->
  ValidateToken j now tokenString = inl (ParseError jwt.ErrMalformed)
  \/ ValidateToken j now tokenString = inl (ParseError jwt.ErrUnverifiable).
Proof.
  unfold hmac_family, ValidateToken, ParseWithClaims.
  destruct tokenString as [raw | [alg |] claims signature]; auto.
  destruct (jwt.GetSigningMethod alg) as [[] |]; cbn [keyFunc]; auto.
  discriminate.
Qed.

(** Past expires-at, a token that reaches the claim checks is refused with
    the expiry bit raised. *)
Lemma ValidateToken_expired (j : JWTService) (now : time.Time)
    (alg : option string) (claims : JWTClaims) (signature : string)
    (exp : jwt.NumericDate) :
  jwt.ExpiresAt (Registered claims) = Some exp ->
  exp <= now ->
  exists e,
    ValidateToken j now (Compact alg claims signature) = inl e
    /\ (hmac_family (Compact alg claims signature) = true ->
        is_expiry_error e = true).
Proof.
  intros Hexp Hpast.
  unfold hmac_family, ValidateToken, ParseWithClaims.
  destruct alg as [alg |]; [| eexists; split; [reflexivity | discriminate]].
  destruct (jwt.GetSigningMethod alg) as [[] |]; cbn [keyFunc];
    try (eexists; split; [reflexivity | discriminate]).
  assert (Hbit : jwt.Expired (jwt.Valid now (Registered claims)) = true).
  { unfold jwt.Valid, jwt.verifyExp. cbn [jwt.Expired]. rewrite Hexp.
    unfold time.Before. apply negb_true_iff. apply Z.ltb_ge. exact Hpast. }
  destruct (Verify jwt.SigningMethodHMAC alg (Some alg, claims) signature
              (secret j)).
  - unfold jwt.valid. rewrite Hbit.
    rewrite !orb_true_r. cbn [negb orb].
    eexists; split; [reflexivity |]. intros _. cbn. exact Hbit.
  - unfold jwt.valid. cbn [jwt.Malformed jwt.Unverifiable jwt.SignatureInvalid
                            jwt.Expired jwt.UsedBeforeIssued jwt.NotValidYet].
    rewrite !orb_true_r. cbn [negb orb].
    eexists; split; [reflexivity |]. intros _. cbn. exact Hbit.
Qed.

(** C6, as the code has it.  Whatever token is presented: when the
    algorithm its header advertises is not one of the HS methods (the
    unsigned "none" method, an asymmetric method, an unknown or missing
    one), verification returns an error and no claims, and that error
    does not carry the expiry bit, expired or not: the key function
    refuses the method before any claim is looked at; when the clock is
    past the expires-at claim, verification returns an error, and for a
    token of an HS method that error carries the expiry bit; when the
    string does not decode as a token, verification returns the malformed
    error and no claims. *)
Theorem ValidateToken_rejects (j : JWTService) (now : time.Time)
    (tokenString : TokenString) :
  (hmac_family tokenString = false ->
   exists e,
     ValidateToken j now tokenString = inl e
     /\ is_expiry_error e = false)
  /\ (forall alg claims signature exp,
        tokenString = Compact alg claims signature ->
        jwt.ExpiresAt (Registered claims) = Some exp ->
        exp < now ->
        exists e,
          ValidateToken j now tokenString = inl e
          /\ (hmac_family tokenString = true -> is_expiry_error e = true))
  /\ (forall raw,
        tokenString = Undecodable raw ->
        exists e,
          ValidateToken j now tokenString = inl e
          /\ is_malformed_error e = true).
Proof.
  split; [| split].
  - intro Hfam.
    destruct (ValidateToken_not_hmac j now tokenString Hfam) as [E | E];
      rewrite E; eexists; split; reflexivity.
  - intros alg claims signature exp -> Hexp Hpast.
    apply (ValidateToken_expired j now alg claims signature exp Hexp). lia.
  - intros raw ->. eexists. split; reflexivity.
Qed.

End TokenCodec.

(** The three refusals on concrete tokens: an unsigned token with a
    plausible payload, an expired token under HS256, a string that is no
    token. *)
Lemma ValidateToken_rejects_witness :
  let j := utils.mkJWTService "secret" (24 * time.Hour) in
  let claims :=
    utils.mkClaims 1 "a@x.com" "alice" models.RoleAdmin
      (jwt.mkRegistered "go-backend" "user:1" (Some Example.t0)
         (Some Example.t0) (Some Example.t0)) in
  (exists e,
     @JWTService.ValidateToken Example.plain_hmac j Example.t0
       (utils.Compact (Some "none") claims "") = inl e
     /\ JWTService.is_expiry_error e = false)
  /\ (exists e,
        @JWTService.ValidateToken Example.plain_hmac j (Example.t0 + 1)
          (utils.Compact (Some "HS256") claims "secret/HS256") = inl e
        /\ JWTService.is_expiry_error e = true)
  /\ (exists e,
        @JWTService.ValidateToken Example.plain_hmac j Example.t0
          (utils.Undecodable "invalid-token") = inl e
        /\ JWTService.is_malformed_error e = true).
Proof.
  intros j claims. split; [| split].
  - destruct (@ValidateToken_rejects Example.plain_hmac j Example.t0
                (utils.Compact (Some "none") claims "")) as [H1 _].
    apply H1. reflexivity.
  - destruct (@ValidateToken_rejects Example.plain_hmac j (Example.t0 + 1)
                (utils.Compact (Some "HS256") claims "secret/HS256"))
      as [_ [H2 _]].
    destruct (H2 (Some "HS256") claims "secret/HS256" Example.t0
                eq_refl eq_refl) as [e [He Hbit]].
    + lia.
    + exists e. split; [exact He | apply Hbit; reflexivity].
  - destruct (@ValidateToken_rejects Example.plain_hmac j Example.t0
                (utils.Undecodable "invalid-token")) as [_ [_ H3]].
    apply (H3 "invalid-token"). reflexivity.
Defined.

(** C6, where the claim fails.  A token that advertises the "none" method,
    or RS256, and whose expires-at lies an hour in the past is refused,
    but not with an expiry error: the error is the parser's
    "unverifiable" one, with the expiry bit off. *)
Lemma expired_token_of_another_method_is_no_expiry_error :
  let j := utils.mkJWTService "secret" (24 * time.Hour) in
  let claims :=
    utils.mkClaims 1 "a@x.com" "alice" models.RoleAdmin
      (jwt.mkRegistered "go-backend" "user:1" (Some Example.t0)
         (Some (Example.t0 - time.Hour)) (Some (Example.t0 - time.Hour))) in
  let now := Example.t0 + time.Hour in
  @JWTService.ValidateToken Example.plain_hmac j now
    (utils.Compact (Some "none") claims "")
  = inl (JWTService.ParseError jwt.ErrUnverifiable)
  /\ @JWTService.ValidateToken Example.plain_hmac j now
       (utils.Compact (Some "RS256") claims "secret/RS256")
     = inl (JWTService.ParseError jwt.ErrUnverifiable)
  /\ JWTService.is_expiry_error (JWTService.ParseError jwt.ErrUnverifiable)
     = false
  /\ Example.t0 < now.
Proof.
  cbv zeta. split; [reflexivity |]. split; [reflexivity |].
  split; reflexivity.
Qed.

Lemma token_round_trip_witness :
  let j := utils.mkJWTService "secret" (24 * time.Hour) in
  time.Second <= utils.expiry j
  /\ exists claims,
       @JWTService.ValidateToken Example.plain_hmac j Example.t0
         (@JWTService.GenerateToken Example.plain_hmac j Example.t0
            Example.alice) = inr claims
       /\ utils.UserID claims = User.ID Example.alice
       /\ utils.Email claims = User.Email Example.alice
       /\ utils.Username claims = User.Username Example.alice
       /\ utils.Role claims = User.Role Example.alice.
Proof.
  intro j.
  assert (Httl : time.Second <= utils.expiry j) by (vm_compute; discriminate).
  split; [exact Httl |].
  apply (@token_round_trip Example.plain_hmac j Example.t0 Example.t0
           Example.alice Httl).
  - apply Z.le_refl.
  - vm_compute. discriminate.
Defined.

(** C5 as stated fails for a positive lifetime below one second: a token
    issued half a second into a second with a lifetime of one nanosecond
    carries an expires-at already behind the clock, and verifying it at
    the instant of issue is refused as expired. *)
Lemma token_round_trip_subsecond_lifetime :
  let j := utils.mkJWTService "secret" time.Nanosecond in
  let now := Example.t0 + 500000000 in
  0 < utils.expiry j
  /\ @JWTService.ValidateToken Example.plain_hmac j now
       (@JWTService.GenerateToken Example.plain_hmac j now Example.alice)
     = inl (JWTService.ParseError
              (jwt.mkError false false false true false false)).
Proof.
  split; [reflexivity | vm_compute; reflexivity].
Qed.

(* ------------------------------------------------------------------ *)
(** * Queries *)

Section FirstBy.
Context {A : Type}.
Variable precedes : A -> A -> bool.

Lemma first_by_In (rows : list A) (v : A) :
  gorm.first_by precedes rows = Some v -> In v rows.
Proof.
  revert v. induction rows as [| r rest IH]; intros v; cbn; [discriminate |].
  destruct (gorm.first_by precedes rest) as [r' |].
  - destruct (precedes r' r); intro E; inversion E; subst; auto.
  - intro E; inversion E; auto.
Qed.

Lemma first_by_nil_iff (rows : list A) :
  gorm.first_by precedes rows = None <-> rows = [].
Proof.
  split.
  - destruct rows as [| r rest]; [reflexivity |]. cbn.
    destruct (gorm.first_by precedes rest) as [r' |];
      [destruct (precedes r' r) |]; discriminate.
  - intros ->. reflexivity.
Qed.

Lemma first_by_all_eq (rows : list A) (s : A) :
  (forall x, In x rows -> x = s) -> rows <> [] ->
  gorm.first_by precedes rows = Some s.
Proof.
  intros Hall Hne.
  destruct (gorm.first_by precedes rows) as [v |] eqn:E.
  - f_equal. apply Hall. eapply first_by_In; eassumption.
  - apply first_by_nil_iff in E. contradiction.
Qed.

Lemma first_by_filter (p : A -> bool) (rows : list A) (v : A) :
  gorm.first_by precedes (filter p rows) = Some v ->
  In v rows /\ p v = true.
Proof.
  intro E. apply first_by_In in E. apply filter_In in E. exact E.
Qed.

Lemma filter_nil_iff (p : A -> bool) (rows : list A) :
  filter p rows = [] <-> forall x, In x rows -> p x = false.
Proof.
  induction rows as [| r rest IH]; cbn.
  - split; [intros _ x [] | reflexivity].
  - destruct (p r) eqn:Hr.
    + split; [discriminate |]. intro Hall.
      specialize (Hall r (or_introl eq_refl)). congruence.
    + rewrite IH. split.
      * intros Hall x [<- | Hin]; auto.
      * intros Hall x Hin. apply Hall. right. exact Hin.
Qed.

End FirstBy.

(* ------------------------------------------------------------------ *)
(** * Login *)

Section Login.
Import services gorm.
Context `{Bcrypt} `{HMAC}.

(** Login writes nothing. *)
Lemma Login_leaves_store (s : UserService) (db : DB) (now : time.Time)
    (req : LoginRequest) :
  snd (Login s db now req) = db.
Proof.
  unfold Login.
  destruct (FirstUser db _) as [user |]; [| reflexivity].
  destruct (User.IsActive user); cbn [negb]; [| reflexivity].
  destruct (User.CheckPassword user (login_Password req)); reflexivity.
Qed.

(** C1.  What Login does for an identity whose failed-attempt counter has
    reached the threshold and whose lock is still running: with the right
    password it answers with a token, and it leaves the store, counter
    included, as it was.  Neither the lock nor the counter is consulted or
    written on any path of Login. *)
Theorem Login_ignores_lockout (s : UserService) (db : DB) (now : time.Time)
    (req : LoginRequest) (user : User.t) (maxAttempts : Z) :
  FirstUser db (fun u => String.eqb (User.Email u) (login_Email req))
    = Some user ->
  User.IsActive user = true ->
  User.CheckPassword user (login_Password req) = true ->
  User.ShouldLockAccount user maxAttempts = true ->
  User.IsAccountLocked now user = true ->
  Login s db now req
  = (inr (mkLoginResponse
            (JWTService.GenerateToken (jwtService s) now user)
            (ToResponse user)), db).
Proof.
  intros Hfind Hact Hpw _ _. unfold Login.
  rewrite Hfind, Hact, Hpw. reflexivity.
Qed.

(** C2, as the code has it.  An unknown e-mail and a wrong password get
    the same error, "invalid email or password"; an inactive identity gets
    an error of its own, "account is deactivated", before the password is
    looked at.  In all three cases the store is left as it was. *)
Theorem Login_error_messages (s : UserService) (db : DB) (now : time.Time)
    (req : LoginRequest) :
  (FirstUser db (fun u => String.eqb (User.Email u) (login_Email req)) = None ->
   Login s db now req = (inl (errors_New "invalid email or password"), db))
  /\ (forall user,
        FirstUser db (fun u => String.eqb (User.Email u) (login_Email req))
          = Some user ->
        User.IsActive user = true ->
        User.CheckPassword user (login_Password req) = false ->
        Login s db now req
        = (inl (errors_New "invalid email or password"), db))
  /\ (forall user,
        FirstUser db (fun u => String.eqb (User.Email u) (login_Email req))
          = Some user ->
        User.IsActive user = false ->
        Login s db now req = (inl (errors_New "account is deactivated"), db)).
Proof.
  unfold Login. split; [| split].
  - intros ->. reflexivity.
  - intros user -> -> ->. reflexivity.
  - intros user -> ->. reflexivity.
Qed.

End Login.

Lemma Login_ignores_lockout_witness :
  let req := services.mkLoginRequest "a@x.com" "pw123456" in
  User.ShouldLockAccount Example.alice 5 = true
  /\ User.IsAccountLocked Example.t0 Example.alice = true
  /\ User.FailedLoginAttempts Example.alice = 5
  /\ @services.Login Example.plain_bcrypt Example.plain_hmac Example.svc
       Example.db_users Example.t0 req
     = (inr (services.mkLoginResponse
               (@JWTService.GenerateToken Example.plain_hmac
                  (services.jwtService Example.svc) Example.t0 Example.alice)
               (services.ToResponse Example.alice)), Example.db_users).
Proof.
  intro req.
  split; [reflexivity | split; [reflexivity | split; [reflexivity |]]].
  apply (@Login_ignores_lockout Example.plain_bcrypt Example.plain_hmac
           Example.svc Example.db_users Example.t0 req Example.alice 5);
    reflexivity.
Defined.

Lemma Login_error_messages_witness :
  @services.Login Example.plain_bcrypt Example.plain_hmac Example.svc
    Example.db_users Example.t0
    (services.mkLoginRequest "nobody@x.com" "pw123456")
  = (inl (services.errors_New "invalid email or password"), Example.db_users)
  /\ @services.Login Example.plain_bcrypt Example.plain_hmac Example.svc
       Example.db_users Example.t0
       (services.mkLoginRequest "a@x.com" "wrong")
     = (inl (services.errors_New "invalid email or password"), Example.db_users)
  /\ @services.Login Example.plain_bcrypt Example.plain_hmac Example.svc
       Example.db_users Example.t0
       (services.mkLoginRequest "b@x.com" "hunter22")
     = (inl (services.errors_New "account is deactivated"), Example.db_users).
Proof.
  split; [| split].
  - apply (@Login_error_messages Example.plain_bcrypt Example.plain_hmac
             Example.svc Example.db_users Example.t0
             (services.mkLoginRequest "nobody@x.com" "pw123456")).
    reflexivity.
  - apply (proj1 (proj2
             (@Login_error_messages Example.plain_bcrypt Example.plain_hmac
                Example.svc Example.db_users Example.t0
                (services.mkLoginRequest "a@x.com" "wrong")))
             Example.alice); reflexivity.
  - apply (proj2 (proj2
             (@Login_error_messages Example.plain_bcrypt Example.plain_hmac
                Example.svc Example.db_users Example.t0
                (services.mkLoginRequest "b@x.com" "hunter22")))
             Example.bob); reflexivity.
Defined.

(** C2 as stated fails: the error for an inactive identity is not the one
    an unknown e-mail gets, and its text says which condition held. *)
Lemma Login_inactive_is_told_apart :
  let unknown :=
    fst (@services.Login Example.plain_bcrypt Example.plain_hmac Example.svc
           Example.db_users Example.t0
           (services.mkLoginRequest "nobody@x.com" "hunter22")) in
  let inactive :=
    fst (@services.Login Example.plain_bcrypt Example.plain_hmac Example.svc
           Example.db_users Example.t0
           (services.mkLoginRequest "b@x.com" "hunter22")) in
  User.IsActive Example.bob = false
  /\ unknown = inl (services.errors_New "invalid email or password")
  /\ inactive = inl (services.errors_New "account is deactivated")
  /\ inactive <> unknown.
Proof.
  cbv zeta. repeat split. vm_compute. discriminate.
Qed.

(* ------------------------------------------------------------------ *)
(** * One-time codes *)

Section OneTimeCodes.
Import services gorm.

Lemma findOTP_Some (db : DB) (now : time.Time) (userID : Z)
    (providedOTP : string) (method : TwoFactorMethod)
    (v : EmailVerification.t) :
  findOTP db now userID providedOTP method = Some v ->
  In v (email_verifications db)
  /\ otp_matches now userID (verificationTypes method) providedOTP v = true.
Proof.
  unfold findOTP. apply first_by_filter.
Qed.

Lemma findOTP_None (db : DB) (now : time.Time) (userID : Z)
    (providedOTP : string) (method : TwoFactorMethod) :
  findOTP db now userID providedOTP method = None <->
  (forall v, In v (email_verifications db) ->
     otp_matches now userID (verificationTypes method) providedOTP v = false).
Proof.
  unfold findOTP. rewrite first_by_nil_iff. apply filter_nil_iff.
Qed.

(** A row the query accepts is neither used nor expired. *)
Lemma otp_matches_live (now : time.Time) (userID : Z) (types : list string)
    (providedOTP : string) (v : EmailVerification.t) :
  otp_matches now userID types providedOTP v = true ->
  EmailVerification.IsUsed v = false
  /\ EmailVerification.IsExpired now v = false
  /\ EmailVerification.UserID v = userID
  /\ EmailVerification.Code v = providedOTP.
Proof.
  unfold otp_matches. rewrite !andb_true_iff.
  intros [[[[[_ Hu] _] Hc] He] Hn].
  repeat split.
  - unfold EmailVerification.IsUsed.
    destruct (EmailVerification.UsedAt v); [discriminate | reflexivity].
  - unfold EmailVerification.IsExpired, time.After.
    apply Z.ltb_lt in He. apply Z.ltb_ge. lia.
  - apply Z.eqb_eq. exact Hu.
  - apply String.eqb_eq. exact Hc.
Qed.

(** A row the query accepts at some time, it accepted at any earlier time. *)
Lemma otp_matches_earlier (t t' : time.Time) (userID : Z)
    (types : list string) (providedOTP : string) (v : EmailVerification.t) :
  t <= t' ->
  otp_matches t' userID types providedOTP v = true ->
  otp_matches t userID types providedOTP v = true.
Proof.
  unfold otp_matches. rewrite !andb_true_iff.
  intros Hle [[[[[Hd Hu] Ht] Hc] He] Hn].
  repeat split; try assumption.
  apply Z.ltb_lt in He. apply Z.ltb_lt. lia.
Qed.

Lemma failedAttemptsOf_increment (db : DB) (now : time.Time) (userID : Z) :
  failedAttemptsOf (incrementFailedAttempts db now userID) userID
  = map (fun n => n + 1) (failedAttemptsOf db userID).
Proof.
  unfold failedAttemptsOf, incrementFailedAttempts. cbn [users with_users].
  induction (users db) as [| u rest IH]; [reflexivity |].
  cbn [map filter].
  destruct (is_null (User.DeletedAt u) && (User.ID u =? userID)) eqn:E.
  - cbn [User.with_stamps User.with_FailedLoginAttempts User.DeletedAt
         User.ID User.FailedLoginAttempts].
    rewrite E. cbn [map User.FailedLoginAttempts]. rewrite IH. reflexivity.
  - rewrite E. exact IH.
Qed.

(** The row VerifyOTP stores for the row it matched. *)
Lemma MarkAsUsed_fields (now : time.Time) (v : EmailVerification.t) :
  let stored :=
    EmailVerification.with_UpdatedAt now
      (EmailVerification.MarkAsUsed now v) in
  EmailVerification.UsedAt stored = Some now
  /\ EmailVerification.IsUsed stored = true
  /\ EmailVerification.ID stored = EmailVerification.ID v
  /\ EmailVerification.UserID stored = EmailVerification.UserID v
  /\ EmailVerification.Token stored = EmailVerification.Token v
  /\ EmailVerification.Type_ stored = EmailVerification.Type_ v
  /\ EmailVerification.Code stored = EmailVerification.Code v
  /\ EmailVerification.ExpiresAt stored = EmailVerification.ExpiresAt v
  /\ EmailVerification.DeletedAt stored = EmailVerification.DeletedAt v.
Proof.
  cbv zeta.
  unfold EmailVerification.with_UpdatedAt, EmailVerification.MarkAsUsed,
    EmailVerification.IsUsed.
  cbn. repeat split.
Qed.

(** A row with used-at set satisfies no verification. *)
Lemma used_never_matches (t : time.Time) (userID : Z) (types : list string)
    (code : string) (v : EmailVerification.t) :
  EmailVerification.IsUsed v = true ->
  otp_matches t userID types code v = false.
Proof.
  unfold EmailVerification.IsUsed, otp_matches.
  destruct (EmailVerification.UsedAt v); [| discriminate].
  intros _. cbn [is_null]. apply andb_false_r.
Qed.

(** A row past its expiry satisfies no verification then or later. *)
Lemma expired_never_matches (t0 t : time.Time) (userID : Z)
    (types : list string) (code : string) (v : EmailVerification.t) :
  EmailVerification.IsExpired t0 v = true -> t0 <= t ->
  otp_matches t userID types code v = false.
Proof.
  unfold EmailVerification.IsExpired, time.After, otp_matches.
  intros He Hle. apply Z.ltb_lt in He.
  assert (Hno : (t <? EmailVerification.ExpiresAt v) = false)
    by (apply Z.ltb_ge; lia).
  rewrite Hno. rewrite andb_false_r. reflexivity.
Qed.

(** The table after a successful VerifyOTP that matched [v]. *)
Lemma VerifyOTP_stores (db : DB) (now : time.Time) (userID : Z)
    (providedOTP : string) (method : TwoFactorMethod)
    (v : EmailVerification.t) :
  findOTP db now userID providedOTP method = Some v ->
  let stored :=
    EmailVerification.with_UpdatedAt now
      (EmailVerification.MarkAsUsed now v) in
  VerifyOTP db now userID providedOTP method
  = ((true, None),
     with_email_verifications
       (map (fun r => if is_null (EmailVerification.DeletedAt r)
                         && (EmailVerification.ID r =? EmailVerification.ID v)
                      then stored else r) (email_verifications db)) db)
  /\ In stored
        (email_verifications
           (snd (VerifyOTP db now userID providedOTP method))).
Proof.
  intros E stored.
  destruct (findOTP_Some _ _ _ _ _ _ E) as [Hin Hm].
  assert (Hd : is_null (EmailVerification.DeletedAt v) = true).
  { unfold otp_matches in Hm. rewrite !andb_true_iff in Hm. apply Hm. }
  assert (Hv : VerifyOTP db now userID providedOTP method
               = ((true, None),
                  with_email_verifications
                    (map (fun r =>
                            if is_null (EmailVerification.DeletedAt r)
                               && (EmailVerification.ID r
                                   =? EmailVerification.ID v)
                            then stored else r) (email_verifications db)) db)).
  { unfold VerifyOTP. rewrite E. unfold SaveEmailVerification. reflexivity. }
  split; [exact Hv |].
  rewrite Hv. cbn [snd email_verifications with_email_verifications].
  apply in_map_iff. exists v. split; [| exact Hin].
  rewrite Hd, Z.eqb_refl. reflexivity.
Qed.

(** C3, as the code has it.  VerifyOTP fails closed: when no row of the
    identity and purpose is unused, unexpired and carries the submitted
    code, it returns false, adds one to the failed-attempt counter of the
    identity and leaves the codes alone.  When such a row exists it
    returns true, and the table afterwards holds the chosen row with
    used-at set to the time of the call: that row satisfies no
    verification any more, the rows under other keys are as they were,
    and the users table, the failed-attempt counter with it, is left as
    it was. *)
Theorem VerifyOTP_fails_closed (db : DB) (now : time.Time) (userID : Z)
    (providedOTP : string) (method : TwoFactorMethod) :
  ((forall v, In v (email_verifications db) ->
      otp_matches now userID (verificationTypes method) providedOTP v = false) ->
   let r := VerifyOTP db now userID providedOTP method in
   fst r = (false, Some ErrRecordNotFound)
   /\ failedAttemptsOf (snd r) userID
      = map (fun n => n + 1) (failedAttemptsOf db userID)
   /\ email_verifications (snd r) = email_verifications db)
  /\ ((exists v, In v (email_verifications db) /\
         otp_matches now userID (verificationTypes method) providedOTP v = true) ->
      let r := VerifyOTP db now userID providedOTP method in
      fst r = (true, None)
      /\ (exists v stored,
            In v (email_verifications db)
            /\ otp_matches now userID (verificationTypes method) providedOTP v
               = true
            /\ In stored (email_verifications (snd r))
            /\ EmailVerification.UsedAt stored = Some now
            /\ EmailVerification.ID stored = EmailVerification.ID v
            /\ EmailVerification.UserID stored = EmailVerification.UserID v
            /\ EmailVerification.Type_ stored = EmailVerification.Type_ v
            /\ EmailVerification.Code stored = EmailVerification.Code v
            /\ EmailVerification.ExpiresAt stored
               = EmailVerification.ExpiresAt v
            /\ (forall t userID' types code,
                  otp_matches t userID' types code stored = false)
            /\ (forall x, In x (email_verifications (snd r)) ->
                  x = stored
                  \/ (In x (email_verifications db)
                      /\ ~ (EmailVerification.DeletedAt x = None
                            /\ EmailVerification.ID x
                               = EmailVerification.ID v))))
      /\ List.length (email_verifications (snd r))
         = List.length (email_verifications db)
      /\ users (snd r) = users db
      /\ failedAttemptsOf (snd r) userID = failedAttemptsOf db userID).
Proof.
  split.
  - intro Hnone. apply findOTP_None in Hnone.
    unfold VerifyOTP. rewrite Hnone. cbn [fst snd].
    split; [reflexivity |]. split; [apply failedAttemptsOf_increment |].
    reflexivity.
  - intros [v0 [Hin0 Hm0]].
    destruct (findOTP db now userID providedOTP method) as [v |] eqn:E.
    2:{ rewrite findOTP_None in E. rewrite (E v0 Hin0) in Hm0.
        discriminate. }
    destruct (findOTP_Some _ _ _ _ _ _ E) as [Hin Hm].
    destruct (VerifyOTP_stores db now userID providedOTP method v E)
      as [Hv Hstored].
    pose proof (MarkAsUsed_fields now v) as Hf. cbv zeta in Hf.
    destruct Hf as (Hu & Hused & Hi & Huid & _ & Hty & Hc & He & _).
    cbv zeta. rewrite Hv in *. cbn [fst snd] in *.
    split; [reflexivity |]. split; [| split; [| split; reflexivity]].
    + exists v, (EmailVerification.with_UpdatedAt now
                   (EmailVerification.MarkAsUsed now v)).
      split; [exact Hin |]. split; [exact Hm |]. split; [exact Hstored |].
      split; [exact Hu |]. split; [exact Hi |]. split; [exact Huid |].
      split; [exact Hty |]. split; [exact Hc |]. split; [exact He |].
      split.
      * intros t userID' types code. apply used_never_matches. exact Hused.
      * intros x Hx. cbn [email_verifications with_email_verifications] in Hx.
        apply in_map_iff in Hx. destruct Hx as [y [Hy Hyin]].
        destruct (is_null (EmailVerification.DeletedAt y)
                  && (EmailVerification.ID y =? EmailVerification.ID v))
          eqn:Ey.
        -- left. symmetry. exact Hy.
        -- right. subst x. split; [exact Hyin |].
           intros [Hd Hid]. rewrite Hd, Hid, Z.eqb_refl in Ey.
           discriminate Ey.
    + cbn [email_verifications with_email_verifications]. apply length_map.
Qed.

End OneTimeCodes.

Section SingleUse.
Import services gorm TwoFactor.

Lemma one_code_cases (db : DB) :
  one_code db ->
  email_verifications db = []
  \/ exists r, email_verifications db = [r] /\ EmailVerification.Token r = "".
Proof.
  unfold one_code. destruct (email_verifications db) as [| r [| r' rest]].
  - intros _. left. reflexivity.
  - intro Ht. right. exists r. split; [reflexivity | exact Ht].
  - intros [].
Qed.

(** The insert of a generated code: into an empty table it goes, beside
    a row with an empty token it does not. *)
Lemma CreateEmailVerification_one_code (db : DB) (id : Z)
    (v : EmailVerification.t) :
  one_code db ->
  EmailVerification.Token v = "" ->
  match CreateEmailVerification db id v with
  | inl _ => email_verifications db <> []
  | inr (row, db') =>
      email_verifications db = []
      /\ email_verifications db' = [row]
      /\ row = with_ID id v
  end.
Proof.
  intros Hone Htok. unfold CreateEmailVerification.
  destruct (one_code_cases db Hone) as [E | [r [E Hr]]]; rewrite E.
  - cbn [existsb app]. repeat split; reflexivity.
  - cbn [existsb].
    destruct (EmailVerification.ID r =? id); cbn [orb]; [discriminate |].
    cbn [with_ID EmailVerification.Token]. rewrite Hr, Htok.
    cbn. discriminate.
Qed.

Lemma step_one_code (db : DB) (c : Call) :
  one_code db -> one_code (step db c).
Proof.
  intro Hone. destruct c as [now id draw sent userID email username
                            | now id draw userID phoneNumber username
                            | now userID providedOTP method
                            | now
                            | now us seq ss]; cbn [step].
  5:{ exact Hone. }
  - unfold GenerateEmailOTP. destruct draw as [err | n]; [exact Hone |].
    match goal with
    | |- context [CreateEmailVerification db id ?v] =>
        pose proof (CreateEmailVerification_one_code db id v Hone eq_refl)
          as Hc;
        destruct (CreateEmailVerification db id v) as [e | [row db']]
    end; [exact Hone |].
    destruct Hc as (_ & Hrows & Hrow).
    assert (Hone' : one_code db').
    { unfold one_code. rewrite Hrows, Hrow. reflexivity. }
    destruct sent; exact Hone'.
  - unfold GenerateSMSOTP. destruct draw as [err | n]; [exact Hone |].
    match goal with
    | |- context [CreateEmailVerification db id ?v] =>
        pose proof (CreateEmailVerification_one_code db id v Hone eq_refl)
          as Hc;
        destruct (CreateEmailVerification db id v) as [e | [row db']]
    end; [exact Hone |].
    destruct Hc as (_ & Hrows & Hrow).
    unfold one_code. cbn [snd]. rewrite Hrows, Hrow. reflexivity.
  - unfold VerifyOTP.
    destruct (findOTP db now userID providedOTP method) as [v |] eqn:E;
      cbn [snd]; [| exact Hone].
    destruct (findOTP_Some _ _ _ _ _ _ E) as [Hin _].
    unfold one_code, SaveEmailVerification.
    cbn [email_verifications with_email_verifications].
    destruct (one_code_cases db Hone) as [E0 | [r [E0 Hr]]];
      rewrite E0 in *; [destruct Hin |].
    destruct Hin as [<- | []]. cbn [map].
    destruct (is_null (EmailVerification.DeletedAt r) && _);
      [exact Hr | exact Hr].
  - unfold one_code, OTP.ClearExpiredOTPs.
    cbn [email_verifications with_email_verifications].
    destruct (one_code_cases db Hone) as [E0 | [r [E0 Hr]]]; rewrite E0;
      [exact I |].
    cbn [map]. destruct (_ && _); [exact Hr | exact Hr].
Qed.

(** Every store the service produces holds one code at most. *)
Lemma reachable_one_code (db : DB) : reachable db -> one_code db.
Proof.
  induction 1 as [db E | db c _ IH].
  - unfold one_code. rewrite E. exact I.
  - apply step_one_code. exact IH.
Qed.

Lemma spent_code_no_match (t0 t : time.Time) (db : DB) (userID : Z)
    (providedOTP : string) (method : TwoFactorMethod) :
  spent_code t0 db -> t0 <= t ->
  findOTP db t userID providedOTP method = None.
Proof.
  intros (r & E & _ & Hdead) Hle. apply findOTP_None. rewrite E.
  intros v [<- | []]. destruct Hdead as [Hu | He].
  - apply used_never_matches. exact Hu.
  - apply (expired_never_matches t0); assumption.
Qed.

Lemma spent_code_later (t0 t : time.Time) (db : DB) :
  spent_code t0 db -> t0 <= t -> spent_code t db.
Proof.
  intros (r & E & Ht & Hdead) Hle. exists r. split; [exact E |].
  split; [exact Ht |]. destruct Hdead as [Hu | He]; [left; exact Hu |].
  right. unfold EmailVerification.IsExpired, time.After in *.
  apply Z.ltb_lt in He. apply Z.ltb_lt. lia.
Qed.

(** No call brings a spent code back or puts another beside it. *)
Lemma step_spent_code (t0 : time.Time) (db : DB) (c : Call) :
  spent_code t0 db -> t0 <= call_at c -> spent_code (call_at c) (step db c).
Proof.
  intros Hs Hle.
  pose proof (spent_code_later t0 (call_at c) db Hs Hle) as Hs'.
  destruct Hs as (r & E & Ht & Hdead).
  assert (Hone : one_code db) by (unfold one_code; rewrite E; exact Ht).
  assert (Hfull : email_verifications db <> [])
    by (rewrite E; discriminate).
  destruct c as [now id draw sent userID email username
                | now id draw userID phoneNumber username
                | now userID providedOTP method
                | now
                | now us seq ss]; cbn [step call_at] in *.
  5:{ exact Hs'. }
  - unfold GenerateEmailOTP. destruct draw as [err | n]; [exact Hs' |].
    match goal with
    | |- context [CreateEmailVerification db id ?v] =>
        pose proof (CreateEmailVerification_one_code db id v Hone eq_refl)
          as Hc;
        destruct (CreateEmailVerification db id v) as [e | [row db']]
    end; [exact Hs' |].
    destruct Hc as (Hnil & _). contradiction.
  - unfold GenerateSMSOTP. destruct draw as [err | n]; [exact Hs' |].
    match goal with
    | |- context [CreateEmailVerification db id ?v] =>
        pose proof (CreateEmailVerification_one_code db id v Hone eq_refl)
          as Hc;
        destruct (CreateEmailVerification db id v) as [e | [row db']]
    end; [exact Hs' |].
    destruct Hc as (Hnil & _). contradiction.
  - unfold VerifyOTP.
    rewrite (spent_code_no_match now now db userID providedOTP method Hs'
               (Z.le_refl now)).
    exact Hs'.
  - destruct Hs' as (r' & E' & Ht' & Hdead').
    unfold spent_code, OTP.ClearExpiredOTPs.
    cbn [email_verifications with_email_verifications]. rewrite E'.
    cbn [map].
    destruct (_ && _); eexists; (split; [reflexivity |]);
      (split; [exact Ht' | exact Hdead']).
Qed.

Lemma run_spent_code (calls : list Call) :
  forall (db : DB) (t0 : time.Time),
    spent_code t0 db -> ordered t0 calls ->
    spent_code (last t0 calls) (run db calls).
Proof.
  induction calls as [| c rest IH]; intros db t0 Hs Hord.
  - exact Hs.
  - destruct Hord as [Hle Hrest]. cbn [run].
    change (last t0 (c :: rest)) with (last (call_at c) rest).
    apply IH; [| exact Hrest].
    apply (step_spent_code t0); assumption.
Qed.

(** C4.  In a store the service has produced, a code whose used-at is
    set or whose expiry has passed is never accepted again: whatever
    calls of the service follow (new codes being asked for, other
    verifications, sweeps), every later VerifyOTP with that row's code
    for its identity returns false, under every method.  In particular a
    VerifyOTP that succeeds has matched a row that was unused and
    unexpired, leaves that row in the table with used-at set to the time
    of the call, and no later VerifyOTP with the same code succeeds. *)
Theorem used_or_expired_code_is_rejected (db : DB) (t0 t : time.Time)
    (calls : list Call) :
  reachable db ->
  ordered t0 calls ->
  last t0 calls <= t ->
  (forall r method,
     In r (email_verifications db) ->
     EmailVerification.IsUsed r = true
     \/ EmailVerification.IsExpired t0 r = true ->
     fst (VerifyOTP (run db calls) t (EmailVerification.UserID r)
            (EmailVerification.Code r) method)
     = (false, Some ErrRecordNotFound))
  /\ (forall userID providedOTP method,
        fst (fst (VerifyOTP db t0 userID providedOTP method)) = true ->
        let db1 := snd (VerifyOTP db t0 userID providedOTP method) in
        (exists v stored,
           In v (email_verifications db)
           /\ EmailVerification.IsUsed v = false
           /\ EmailVerification.IsExpired t0 v = false
           /\ EmailVerification.UserID v = userID
           /\ EmailVerification.Code v = providedOTP
           /\ email_verifications db1 = [stored]
           /\ EmailVerification.ID stored = EmailVerification.ID v
           /\ EmailVerification.Code stored = providedOTP
           /\ EmailVerification.UsedAt stored = Some t0)
        /\ forall method',
             fst (VerifyOTP (run db1 calls) t userID providedOTP method')
             = (false, Some ErrRecordNotFound)).
Proof.
  intros Hreach Hord Hlast.
  pose proof (reachable_one_code db Hreach) as Hone.
  assert (Hfinal : forall db0 userID providedOTP method,
            spent_code t0 db0 ->
            fst (VerifyOTP (run db0 calls) t userID providedOTP method)
            = (false, Some ErrRecordNotFound)).
  { intros db0 userID providedOTP method Hs. unfold VerifyOTP.
    rewrite (spent_code_no_match (last t0 calls) t (run db0 calls) userID
               providedOTP method
               (run_spent_code calls db0 t0 Hs Hord) Hlast).
    reflexivity. }
  split.
  - intros r method Hin Hdead. apply Hfinal.
    destruct (one_code_cases db Hone) as [E | [r0 [E Ht]]];
      rewrite E in Hin; [destruct Hin |].
    destruct Hin as [<- | []]. exists r0. auto.
  - intros userID providedOTP method Hok db1.
    destruct (findOTP db t0 userID providedOTP method) as [v |] eqn:E.
    2:{ unfold VerifyOTP in Hok. rewrite E in Hok. discriminate Hok. }
    destruct (findOTP_Some _ _ _ _ _ _ E) as [Hin Hm].
    destruct (otp_matches_live _ _ _ _ _ Hm) as (Hu & He & Huid & Hc).
    destruct (VerifyOTP_stores db t0 userID providedOTP method v E)
      as [Hv _].
    pose proof (MarkAsUsed_fields t0 v) as Hf. cbv zeta in Hf.
    destruct Hf as (Hsu & Hused & Hsi & _ & Hst & _ & Hsc & _ & _).
    destruct (one_code_cases db Hone) as [E0 | [r0 [E0 Ht]]];
      rewrite E0 in Hin; [destruct Hin |].
    destruct Hin as [<- | []].
    assert (Hd : is_null (EmailVerification.DeletedAt r0) = true).
    { unfold otp_matches in Hm. rewrite !andb_true_iff in Hm. apply Hm. }
    assert (Hrows : email_verifications db1
                    = [EmailVerification.with_UpdatedAt t0
                         (EmailVerification.MarkAsUsed t0 r0)]).
    { unfold db1. rewrite Hv.
      cbn [snd email_verifications with_email_verifications].
      rewrite E0. cbn [map]. rewrite Hd, Z.eqb_refl. reflexivity. }
    split.
    + exists r0, (EmailVerification.with_UpdatedAt t0
                    (EmailVerification.MarkAsUsed t0 r0)).
      split; [rewrite E0; left; reflexivity |].
      split; [exact Hu |]. split; [exact He |]. split; [exact Huid |].
      split; [exact Hc |]. split; [exact Hrows |]. split; [exact Hsi |].
      split; [congruence | exact Hsu].
    + intro method'. apply Hfinal.
      exists (EmailVerification.with_UpdatedAt t0
                (EmailVerification.MarkAsUsed t0 r0)).
      split; [exact Hrows |]. split; [congruence |]. left. exact Hused.
Qed.

End SingleUse.

Lemma VerifyOTP_fails_closed_witness :
  let miss :=
    services.VerifyOTP Example.db_otp Example.t0 1 "000000"
      services.TwoFactorMethodEmail in
  let hit :=
    services.VerifyOTP Example.db_otp Example.t0 1 "123456"
      services.TwoFactorMethodEmail in
  (fst miss = (false, Some gorm.ErrRecordNotFound)
   /\ services.failedAttemptsOf (snd miss) 1
      = map (fun n => n + 1) (services.failedAttemptsOf Example.db_otp 1))
  /\ (fst hit = (true, None)
      /\ (exists stored,
            gorm.email_verifications (snd hit) = [stored]
            /\ EmailVerification.UsedAt stored = Some Example.t0)
      /\ services.failedAttemptsOf (snd hit) 1
         = services.failedAttemptsOf Example.db_otp 1).
Proof.
  cbv zeta. split.
  - destruct (proj1 (VerifyOTP_fails_closed Example.db_otp Example.t0 1
                       "000000" services.TwoFactorMethodEmail))
      as [Hfalse [Hcount _]].
    + intros v [<- | []]; reflexivity.
    + split; [exact Hfalse | exact Hcount].
  - destruct (proj2 (VerifyOTP_fails_closed Example.db_otp Example.t0 1
                       "123456" services.TwoFactorMethodEmail))
      as [Htrue [Hrow [_ [_ Hcount]]]].
    + exists Example.otp_a. split; [left; reflexivity | reflexivity].
    + split; [exact Htrue |]. split; [| exact Hcount].
      destruct Hrow as (v & stored & _ & _ & _ & Hu & _).
      eexists. split; [reflexivity | reflexivity].
Defined.

(** C3 as stated fails in its last clause: a successful verification
    leaves the failed-attempt counter where it was, here at 5. *)
Lemma VerifyOTP_success_keeps_counter :
  let r :=
    services.VerifyOTP Example.db_otp Example.t0 1 "123456"
      services.TwoFactorMethodEmail in
  fst r = (true, None)
  /\ services.failedAttemptsOf Example.db_otp 1 = [5]
  /\ services.failedAttemptsOf (snd r) 1 = [5]
  /\ services.failedAttemptsOf (snd r) 1 <> [0].
Proof.
  cbv zeta. repeat split. vm_compute. discriminate.
Qed.

Lemma used_or_expired_code_is_rejected_witness :
  let db := TwoFactor.step Example.db_users Example2.ask_code in
  let t1 := Example.t0 + time.Minute in
  let t := Example.t0 + 4 * time.Minute in
  db = Example.db_otp
  /\ fst (services.VerifyOTP db t1 1 "123456" services.TwoFactorMethodEmail)
     = (true, None)
  /\ fst (services.VerifyOTP
            (TwoFactor.run
               (snd (services.VerifyOTP db t1 1 "123456"
                       services.TwoFactorMethodEmail))
               Example2.later_calls)
            t 1 "123456" services.TwoFactorMethodEmail)
     = (false, Some gorm.ErrRecordNotFound).
Proof.
  intros db t1 t. split; [reflexivity |]. split; [reflexivity |].
  assert (Hreach : TwoFactor.reachable db).
  { apply TwoFactor.reachable_step. apply TwoFactor.reachable_empty.
    reflexivity. }
  destruct (used_or_expired_code_is_rejected db t1 t Example2.later_calls
              Hreach) as [_ Honce].
  - cbn. repeat split; vm_compute; discriminate.
  - vm_compute. discriminate.
  - destruct (Honce 1 "123456" services.TwoFactorMethodEmail eq_refl)
      as [_ Hnever].
    apply Hnever.
Defined.

(* ------------------------------------------------------------------ *)
(** * Sessions *)

Section Sessions.
Import services gorm.

Lemma ValidateSession_found (db : DB) (now : time.Time) (token : string)
    (s : UserSession.t) :
  first_by session_by_id
    (filter (fun s => is_null (UserSession.DeletedAt s)
                      && String.eqb (UserSession.Token s) token
                      && Bool.eqb (UserSession.IsActive s) true
                      && (now <? UserSession.ExpiresAt s))
       (user_sessions db)) = Some s ->
  ValidateSession db now token
  = (inr (UserSession.with_UpdatedAt now s),
     SaveUserSession db now (UserSession.with_UpdatedAt now s)).
Proof.
  intro E. unfold ValidateSession. rewrite E. reflexivity.
Qed.

Lemma ValidateSession_not_found (db : DB) (now : time.Time) (token : string) :
  (forall x, In x (user_sessions db) ->
     is_null (UserSession.DeletedAt x)
     && String.eqb (UserSession.Token x) token
     && Bool.eqb (UserSession.IsActive x) true
     && (now <? UserSession.ExpiresAt x) = false) ->
  ValidateSession db now token = (inl ErrRecordNotFound, db).
Proof.
  intro Hall. unfold ValidateSession.
  replace (filter _ (user_sessions db)) with (@nil UserSession.t);
    [reflexivity |].
  symmetry. apply filter_nil_iff. exact Hall.
Qed.

(** The row ValidateSession returns and stores for [s]: only its
    updated-at column differs from [s]. *)
Lemma with_UpdatedAt_fields (now : time.Time) (s : UserSession.t) :
  let session := UserSession.with_UpdatedAt now s in
  UserSession.UpdatedAt session = now
  /\ UserSession.LastSeen session = UserSession.LastSeen s
  /\ UserSession.ID session = UserSession.ID s
  /\ UserSession.UserID session = UserSession.UserID s
  /\ UserSession.Token session = UserSession.Token s
  /\ UserSession.IPAddress session = UserSession.IPAddress s
  /\ UserSession.UserAgent session = UserSession.UserAgent s
  /\ UserSession.IsActive session = UserSession.IsActive s
  /\ UserSession.CreatedAt session = UserSession.CreatedAt s
  /\ UserSession.ExpiresAt session = UserSession.ExpiresAt s
  /\ UserSession.DeletedAt session = UserSession.DeletedAt s.
Proof.
  cbv zeta. unfold UserSession.with_UpdatedAt. cbn. repeat split.
Qed.

(** C7, as the code has it.  For a session of the table whose token no
    other row shares: when the session is active and its expiry lies in
    the future, ValidateSession on its token returns the session with its
    updated-at time set to now and every other column, last_seen
    included, as it was, and the row of that token in the table is from
    then on this updated row; otherwise it returns the store's not-found
    error and changes nothing.  After InvalidateUserSessions for the
    owner, ValidateSession on the token returns that same not-found
    error, whatever the expiry of the session. *)
Theorem ValidateSession_active_and_unexpired (db : DB) (now : time.Time)
    (s : UserSession.t) :
  In s (user_sessions db) ->
  UserSession.DeletedAt s = None ->
  (forall s', In s' (user_sessions db) ->
     UserSession.Token s' = UserSession.Token s -> s' = s) ->
  ((UserSession.IsActive s = true /\ now < UserSession.ExpiresAt s) ->
   exists session db',
     ValidateSession db now (UserSession.Token s) = (inr session, db')
     /\ UserSession.UpdatedAt session = now
     /\ UserSession.LastSeen session = UserSession.LastSeen s
     /\ UserSession.ID session = UserSession.ID s
     /\ UserSession.UserID session = UserSession.UserID s
     /\ UserSession.Token session = UserSession.Token s
     /\ UserSession.IPAddress session = UserSession.IPAddress s
     /\ UserSession.UserAgent session = UserSession.UserAgent s
     /\ UserSession.IsActive session = true
     /\ UserSession.CreatedAt session = UserSession.CreatedAt s
     /\ UserSession.ExpiresAt session = UserSession.ExpiresAt s
     /\ UserSession.DeletedAt session = None
     /\ In session (user_sessions db')
     /\ (forall r, In r (user_sessions db') ->
           UserSession.Token r = UserSession.Token s -> r = session)
     /\ List.length (user_sessions db') = List.length (user_sessions db))
  /\ (~ (UserSession.IsActive s = true /\ now < UserSession.ExpiresAt s) ->
      ValidateSession db now (UserSession.Token s)
      = (inl ErrRecordNotFound, db))
  /\ (forall t,
        let db' := InvalidateUserSessions db t (UserSession.UserID s) in
        ValidateSession db' now (UserSession.Token s)
        = (inl ErrRecordNotFound, db')).
Proof.
  intros Hin Hlive Huniq. split; [| split].
  - intros [Hact Hexp].
    assert (Hfound : ValidateSession db now (UserSession.Token s)
              = (inr (UserSession.with_UpdatedAt now s),
                 SaveUserSession db now (UserSession.with_UpdatedAt now s))).
    { apply ValidateSession_found. apply first_by_all_eq.
      * intros x Hx. apply filter_In in Hx. destruct Hx as [Hx Hc].
        rewrite !andb_true_iff in Hc. destruct Hc as [[[_ Ht] _] _].
        apply Huniq; [exact Hx |]. apply String.eqb_eq. exact Ht.
      * intro Hnil.
        assert (Hs : In s (filter
                  (fun s0 => is_null (UserSession.DeletedAt s0)
                             && String.eqb (UserSession.Token s0)
                                  (UserSession.Token s)
                             && Bool.eqb (UserSession.IsActive s0) true
                             && (now <? UserSession.ExpiresAt s0))
                  (user_sessions db))).
        { apply filter_In. split; [exact Hin |].
          rewrite Hlive, String.eqb_refl, Hact. cbn.
          apply Z.ltb_lt. exact Hexp. }
        rewrite Hnil in Hs. exact Hs. }
    pose proof (with_UpdatedAt_fields now s) as Hf. cbv zeta in Hf.
    destruct Hf as (Hu & Hl & Hi & Huid & Ht & Hip & Hua & Ha & Hc & He & Hd).
    set (session := UserSession.with_UpdatedAt now s) in *.
    assert (Hrow : UserSession.with_UpdatedAt now session = session).
    { unfold UserSession.with_UpdatedAt. destruct session. cbn in *.
      rewrite Hu. reflexivity. }
    exists session, (SaveUserSession db now session).
    split; [exact Hfound |].
    split; [exact Hu |]. split; [exact Hl |]. split; [exact Hi |].
    split; [exact Huid |]. split; [exact Ht |]. split; [exact Hip |].
    split; [exact Hua |]. split; [congruence |]. split; [exact Hc |].
    split; [exact He |]. split; [congruence |].
    unfold SaveUserSession. cbn [user_sessions with_user_sessions].
    rewrite Hrow, Hi.
    split; [| split].
    + apply in_map_iff. exists s. split; [| exact Hin].
      rewrite Hlive, String.eqb_refl. reflexivity.
    + intros r Hr Htr. apply in_map_iff in Hr. destruct Hr as [x [Hx Hxin]].
      destruct (is_null (UserSession.DeletedAt x)
                && String.eqb (UserSession.ID x) (UserSession.ID s)) eqn:Ex;
        [symmetry; exact Hx |].
      subst r. rewrite (Huniq x Hxin Htr) in Ex.
      rewrite Hlive, String.eqb_refl in Ex. discriminate Ex.
    + apply length_map.
  - intro Hnot. apply ValidateSession_not_found. intros x Hx.
    destruct (String.eqb (UserSession.Token x) (UserSession.Token s)) eqn:Ht.
    + apply String.eqb_eq in Ht. rewrite (Huniq x Hx Ht).
      destruct (UserSession.IsActive s) eqn:Hact;
        [| rewrite !andb_false_r; reflexivity].
      destruct (now <? UserSession.ExpiresAt s) eqn:Hexp;
        [| apply andb_false_r].
      exfalso. apply Hnot. split; [reflexivity |].
      apply Z.ltb_lt. exact Hexp.
    + rewrite andb_false_r. reflexivity.
  - intros t db'. apply ValidateSession_not_found. intros y Hy.
    unfold db', InvalidateUserSessions in Hy.
    cbn [user_sessions with_user_sessions] in Hy.
    apply in_map_iff in Hy. destruct Hy as [x [Hy Hx]].
    destruct (String.eqb (UserSession.Token x) (UserSession.Token s)) eqn:Ht.
    + apply String.eqb_eq in Ht. pose proof (Huniq x Hx Ht) as ->.
      rewrite Hlive, String.eqb_refl in Hy. cbn [is_null andb] in Hy.
      destruct (UserSession.IsActive s) eqn:Hact; cbn [Bool.eqb] in Hy;
        subst y.
      * cbn. rewrite !andb_false_r. reflexivity.
      * rewrite Hact. cbn. rewrite !andb_false_r. reflexivity.
    + assert (Hty : UserSession.Token y = UserSession.Token x).
      { destruct (is_null (UserSession.DeletedAt x)
                  && String.eqb (UserSession.UserID x) (UserSession.UserID s)
                  && Bool.eqb (UserSession.IsActive x) true);
          subst y; reflexivity. }
      rewrite Hty, Ht. rewrite andb_false_r. reflexivity.
Qed.

End Sessions.

Lemma ValidateSession_active_and_unexpired_witness :
  let s := Example.session1 in
  let db := Example.db_sessions in
  let now := Example.t0 + time.Hour in
  (exists session db',
     services.ValidateSession db now "tok-1" = (inr session, db')
     /\ UserSession.UpdatedAt session = now
     /\ In session (gorm.user_sessions db'))
  /\ services.ValidateSession db (Example.t0 + 25 * time.Hour) "tok-1"
     = (inl gorm.ErrRecordNotFound, db)
  /\ fst (services.ValidateSession
            (services.InvalidateUserSessions db now "u-1") now "tok-1")
     = inl gorm.ErrRecordNotFound.
Proof.
  intros s db now.
  assert (Hin : In s (gorm.user_sessions db)) by (left; reflexivity).
  assert (Hlive : UserSession.DeletedAt s = None) by reflexivity.
  assert (Huniq : forall s', In s' (gorm.user_sessions db) ->
            UserSession.Token s' = UserSession.Token s -> s' = s).
  { intros s' [<- | [<- | []]] Ht; [reflexivity | discriminate Ht]. }
  split; [| split].
  - destruct (ValidateSession_active_and_unexpired db now s Hin Hlive Huniq)
      as [Hok _].
    destruct Hok as (session & db' & E & Hu & Hrest);
      [split; [reflexivity | vm_compute; reflexivity] |].
    exists session, db'. split; [exact E |]. split; [exact Hu |].
    apply Hrest.
  - destruct (ValidateSession_active_and_unexpired db
                (Example.t0 + 25 * time.Hour) s Hin Hlive Huniq)
      as [_ [Hno _]].
    apply Hno. intros [_ Hlt]. vm_compute in Hlt. discriminate Hlt.
  - destruct (ValidateSession_active_and_unexpired db now s Hin Hlive Huniq)
      as [_ [_ Hrev]].
    specialize (Hrev now). cbv zeta in Hrev.
    change (UserSession.Token s) with "tok-1" in Hrev.
    change (UserSession.UserID s) with "u-1" in Hrev.
    rewrite Hrev. reflexivity.
Defined.

(** C7, where the claim fails.  A session created at [t0] (last_seen left
    at the zero value by CreateSession) is validated an hour later: the
    call succeeds and stores updated-at = now, and last_seen is still
    the zero value, in the session returned and in the table. *)
Lemma ValidateSession_leaves_last_seen :
  let now := Example.t0 + time.Hour in
  let r := services.ValidateSession Example.db_sessions now "tok-1" in
  exists session,
    fst r = inr session
    /\ UserSession.UpdatedAt session = now
    /\ UserSession.LastSeen session = 0
    /\ UserSession.LastSeen session <> now
    /\ map UserSession.LastSeen (gorm.user_sessions (snd r)) = [0; 0]
    /\ map UserSession.UpdatedAt (gorm.user_sessions (snd r))
       = [now; Example.t0].
Proof.
  cbv zeta. eexists. split; [reflexivity |].
  split; [reflexivity |]. split; [reflexivity |].
  split; [discriminate |]. split; reflexivity.
Qed.

(* ------------------------------------------------------------------ *)
(** * Register and ChangePassword *)

Section UserService.
Import services gorm.
Context `{Bcrypt} `{HMAC}.


(** Register does succeed when nothing stands in its way: no row has the
    e-mail, the user name, an empty phone number or the next key of the
    sequence, and the hash is produced. *)
Lemma Register_succeeds (s : UserService) (db : DB) (now : time.Time)
    (salt : string) (req : UserCreateRequest) (hashed : string) :
  (forall u, In u (users db) ->
     User.Email u <> req_Email req
     /\ User.Username u <> req_Username req
     /\ User.PhoneNumber u <> ""
     /\ User.ID u <> users_seq db) ->
  req_Password req <> "" ->
  bcrypt_generate salt (req_Password req) = Some hashed ->
  exists resp db', Register s db now salt req = (inr resp, db').
Proof.
  intros Hfree Hpw Hhash. unfold Register.
  assert (Hnone : FirstUser db
            (fun u => String.eqb (User.Email u) (req_Email req)
                      || String.eqb (User.Username u) (req_Username req))
          = None).
  { unfold FirstUser. apply first_by_nil_iff. apply filter_nil_iff.
    intros x Hx. destruct (Hfree x Hx) as [He [Hu _]].
    apply String.eqb_neq in He. apply String.eqb_neq in Hu.
    rewrite He, Hu. apply andb_false_r. }
  rewrite Hnone.
  set (role := if String.eqb (req_Role req) "" then models.RoleUser
               else req_Role req).
  assert (Hrole : String.eqb role "" = false).
  { unfold role. destruct (String.eqb (req_Role req) "") eqn:E;
      [reflexivity | exact E]. }
  clearbody role.
  unfold CreateUser, User.BeforeCreate. cbn [User.Password User.Role].
  apply String.eqb_neq in Hpw. rewrite Hpw, Hhash.
  unfold User.with_Password. cbn [User.Role]. rewrite Hrole.
  unfold User.with_stamps, User.with_ID. cbn [User.ID Z.eqb].
  unfold duplicated_column.
  cbn [User.ID User.Email User.Username User.PhoneNumber].
  assert (Hex : forall p : User.t -> bool,
            (forall x, In x (users db) -> p x = false) ->
            existsb p (users db) = false).
  { intros p Hp. destruct (existsb p (users db)) eqn:E; [| reflexivity].
    apply existsb_exists in E. destruct E as [x [Hx Hpx]].
    rewrite (Hp x Hx) in Hpx. discriminate. }
  rewrite (Hex (fun r => User.ID r =? users_seq db)).
  2:{ intros x Hx. apply Z.eqb_neq. apply (Hfree x Hx). }
  rewrite (Hex (fun r => String.eqb (User.Email r) (req_Email req))).
  2:{ intros x Hx. apply String.eqb_neq. apply (Hfree x Hx). }
  rewrite (Hex (fun r => String.eqb (User.Username r) (req_Username req))).
  2:{ intros x Hx. apply String.eqb_neq. apply (Hfree x Hx). }
  rewrite (Hex (fun r => String.eqb (User.PhoneNumber r) "")).
  2:{ intros x Hx. apply String.eqb_neq. apply (Hfree x Hx). }
  eexists. eexists. reflexivity.
Qed.


Lemma FirstUser_Some (db : DB) (cond : User.t -> bool) (user : User.t) :
  FirstUser db cond = Some user ->
  In user (users db) /\ User.DeletedAt user = None /\ cond user = true.
Proof.
  unfold FirstUser. intro E. apply first_by_filter in E.
  destruct E as [Hin Hc]. apply andb_true_iff in Hc. destruct Hc as [Hd Hc].
  repeat split; try assumption.
  destruct (User.DeletedAt user); [discriminate | reflexivity].
Qed.

(** X30.  After a successful ChangePassword the row a later read by ID
    returns holds the new password as it was typed: the save path hashes
    nothing.  CheckPassword of the new password against that row is false
    whenever the new password has not the shape of a hash itself (59
    bytes or more, starting with a dollar sign), the stored string then
    being nothing the hash library can compare with. *)
Theorem ChangePassword_stores_plaintext (s : UserService) (db db' : DB)
    (now : time.Time) (id : Z) (oldPassword newPassword : string) :
  ChangePassword s db now id oldPassword newPassword = (None, db') ->
  exists stored,
    FirstUser db' (fun u => User.ID u =? id) = Some stored
    /\ User.Password stored = newPassword
    /\ (bcrypt.hashShaped newPassword = false ->
        User.CheckPassword stored newPassword = false).
Proof.
  unfold ChangePassword.
  destruct (FirstUser db (fun u => User.ID u =? id)) as [user |] eqn:Hfind;
    [| discriminate].
  destruct (User.CheckPassword user oldPassword); cbn [negb]; [| discriminate].
  intro E. inversion E. subst db'. clear E.
  apply FirstUser_Some in Hfind. destruct Hfind as [Hin [Hlive Hid]].
  apply Z.eqb_eq in Hid.
  set (row := User.with_stamps
                (User.CreatedAt (User.with_Password newPassword user)) now
                (User.with_Password newPassword user)).
  exists row. split; [| split].
  - unfold FirstUser, SaveUser. cbn [users with_users]. fold row.
    apply first_by_all_eq.
    + intros x Hx. apply filter_In in Hx. destruct Hx as [Hx Hc].
      apply in_map_iff in Hx. destruct Hx as [y [Hy _]].
      cbn [User.with_Password User.ID] in Hy.
      destruct (is_null (User.DeletedAt y) && (User.ID y =? User.ID user))
        eqn:Hy'.
      * symmetry. exact Hy.
      * subst x. rewrite Hid in Hy'. rewrite Hy' in Hc. discriminate.
    + intro Hnil.
      assert (Hrow : In row (filter
                (fun u => is_null (User.DeletedAt u) && (User.ID u =? id))
                (map (fun r => if is_null (User.DeletedAt r)
                                  && (User.ID r =?
                                      User.ID (User.with_Password newPassword user))
                               then row else r) (users db)))).
      { apply filter_In. split.
        - apply in_map_iff. exists user. split; [| exact Hin].
          cbn [User.with_Password User.ID]. rewrite Hlive, Z.eqb_refl.
          reflexivity.
        - unfold row. cbn. rewrite Hlive, Hid, Z.eqb_refl. reflexivity. }
      rewrite Hnil in Hrow. exact Hrow.
  - reflexivity.
  - intro Hshape. unfold User.CheckPassword, bcrypt.CompareHashAndPassword.
    cbn [row User.with_stamps User.with_Password User.Password].
    unfold row. cbn [User.with_stamps User.with_Password User.Password].
    rewrite Hshape. reflexivity.
Qed.

End UserService.



Lemma ChangePassword_stores_plaintext_witness :
  let r :=
    @services.ChangePassword Example.plain_bcrypt Example.svc
      Example.db_users (Example.t0 + time.Minute) 1 "pw123456" "newpass1" in
  fst r = None
  /\ exists stored,
       gorm.FirstUser (snd r) (fun u => User.ID u =? 1) = Some stored
       /\ User.Password stored = "newpass1"
       /\ @User.CheckPassword Example.plain_bcrypt stored "newpass1" = false.
Proof.
  intro r. split; [reflexivity |].
  destruct (@ChangePassword_stores_plaintext Example.plain_bcrypt Example.svc
              Example.db_users (snd r) (Example.t0 + time.Minute) 1
              "pw123456" "newpass1" eq_refl)
    as [stored [Hfind [Hpw Hcheck]]].
  exists stored. split; [exact Hfind |]. split; [exact Hpw |].
  apply Hcheck. reflexivity.
Defined.

(* ------------------------------------------------------------------ *)
(** * The account lock and the failed-attempt counter *)

Section AccountLock.
Import models.

(** X1.  The life of a lock set by LockAccount at [now] for [duration]:
    the account is locked at every instant before [now + duration] and at
    none from then on, with no call needed to lift it (so a duration of
    zero or less never locks); UpdateLastLogin during the lock resets the
    counter to 0 but leaves the account locked; UnlockAccount lifts the
    lock for every instant and resets the counter. *)
Theorem lock_lifecycle (now : time.Time) (duration : time.Duration)
    (t : time.Time) (ip : string) (u : User.t) :
  let locked := User.LockAccount now duration u in
  User.IsAccountLocked t locked = (t <? now + duration)
  /\ User.FailedLoginAttempts locked = User.FailedLoginAttempts u
  /\ User.IsAccountLocked t (User.UpdateLastLogin t ip locked)
     = (t <? now + duration)
  /\ User.FailedLoginAttempts (User.UpdateLastLogin t ip locked) = 0
  /\ User.IsAccountLocked t (User.UnlockAccount locked) = false
  /\ User.FailedLoginAttempts (User.UnlockAccount locked) = 0.
Proof.
  cbv zeta. repeat split.
Qed.

Lemma wrap_int_small (x : Z) :
  - 2 ^ 63 <= x < 2 ^ 63 -> wrap_int x = x.
Proof.
  intro Hx. unfold wrap_int.
  rewrite Z.mod_small; lia.
Qed.

Lemma iter_IncrementFailedAttempts (n : nat) (u : User.t) :
  Z.of_nat n < 2 ^ 63 ->
  User.FailedLoginAttempts
    (Nat.iter n User.IncrementFailedAttempts (User.ResetFailedAttempts u))
  = Z.of_nat n.
Proof.
  induction n as [| n IH]; intro Hn; [reflexivity |].
  change (Nat.iter (S n) User.IncrementFailedAttempts
            (User.ResetFailedAttempts u))
    with (User.IncrementFailedAttempts
            (Nat.iter n User.IncrementFailedAttempts
               (User.ResetFailedAttempts u))).
  unfold User.IncrementFailedAttempts at 1.
  unfold User.with_FailedLoginAttempts at 1.
  cbn [User.FailedLoginAttempts].
  rewrite IH by lia. rewrite wrap_int_small by lia. lia.
Qed.

(** X2.  Counting from a reset counter, the account is due for locking
    exactly from the [maxAttempts]-th failed attempt on: after [n] calls
    of IncrementFailedAttempts the counter is [n], and ShouldLockAccount
    answers whether [n] has reached [maxAttempts].  The lock field is not
    touched by the counting. *)
Theorem ShouldLockAccount_after_failures (n : nat) (maxAttempts : Z)
    (u : User.t) :
  Z.of_nat n < 2 ^ 63 ->
  let u' := Nat.iter n User.IncrementFailedAttempts
              (User.ResetFailedAttempts u) in
  User.FailedLoginAttempts u' = Z.of_nat n
  /\ User.ShouldLockAccount u' maxAttempts = (maxAttempts <=? Z.of_nat n)
  /\ User.AccountLockedUntil u' = User.AccountLockedUntil u.
Proof.
  intros Hn u'. pose proof (iter_IncrementFailedAttempts n u Hn) as Hc.
  fold u' in Hc. split; [exact Hc |]. split.
  - unfold User.ShouldLockAccount. rewrite Hc. reflexivity.
  - unfold u'. clear. induction n as [| n IH]; [reflexivity |].
    change (Nat.iter (S n) User.IncrementFailedAttempts
              (User.ResetFailedAttempts u))
      with (User.IncrementFailedAttempts
              (Nat.iter n User.IncrementFailedAttempts
                 (User.ResetFailedAttempts u))).
    exact IH.
Qed.

End AccountLock.

Lemma ShouldLockAccount_after_failures_witness :
  let u' := Nat.iter 5 User.IncrementFailedAttempts
              (User.ResetFailedAttempts Example.alice) in
  User.FailedLoginAttempts u' = 5
  /\ User.ShouldLockAccount u' 5 = true.
Proof.
  destruct (ShouldLockAccount_after_failures 5 5 Example.alice)
    as [Hc [Hs _]]; [vm_compute; reflexivity |].
  split; [exact Hc | exact Hs].
Defined.

(* ------------------------------------------------------------------ *)
(** * Role checks over arbitrary role strings *)

Section RoleStrings.
Import models middleware.

(** X3.  The role check of the middleware and the method on User are the
    same function of the two role strings, whatever the strings are.  A
    required role outside the three known ones is refused to everybody,
    an admin included; the requirement RoleUser is met by every caller,
    whatever its role string, one outside the known roles included. *)
Theorem role_check_on_any_string (userRole requiredRole : Role) (u : User.t) :
  User.HasPermission (User.with_Role userRole u) requiredRole
  = hasRolePermission userRole requiredRole
  /\ (rank requiredRole = None ->
      hasRolePermission userRole requiredRole = false)
  /\ hasRolePermission userRole RoleUser = true
  /\ User.CanModerate (User.with_Role userRole u)
     = hasRolePermission userRole RoleModerator
  /\ User.IsAdmin (User.with_Role userRole u)
     = hasRolePermission userRole RoleAdmin.
Proof.
  split; [reflexivity |]. split; [| repeat split].
  unfold rank, hasRolePermission.
  destruct (String.eqb requiredRole RoleAdmin); [discriminate |].
  destruct (String.eqb requiredRole RoleModerator); [discriminate |].
  destruct (String.eqb requiredRole RoleUser); [discriminate |].
  reflexivity.
Qed.

End RoleStrings.

Lemma role_check_on_any_string_witness :
  middleware.hasRolePermission models.RoleAdmin "superuser" = false
  /\ middleware.hasRolePermission "banned" models.RoleUser = true.
Proof.
  destruct (role_check_on_any_string models.RoleAdmin "superuser"
              Example.alice) as [_ [Hunknown _]].
  destruct (role_check_on_any_string "banned" models.RoleUser
              Example.alice) as [_ [_ [Huser _]]].
  split; [apply Hunknown; reflexivity | exact Huser].
Defined.

(* ------------------------------------------------------------------ *)
(** * UpdatePassword *)

Section UpdatePassword.
Context `{Bcrypt}.

(** X4.  UpdatePassword stores a hash, not the password: with a sound
    hash library, after UpdatePassword the new password checks against the
    stored field, the must-change flag is cleared and the change time is
    the time of the call, while identity, role, lock and counter are left
    alone.  (ChangePassword of the service does not go through this
    method.) *)
Theorem UpdatePassword_then_CheckPassword (now : time.Time) (salt : string)
    (newPassword : string) (u u' : User.t) :
  bcrypt_sound ->
  UserMore.UpdatePassword now salt newPassword u = Some u' ->
  User.CheckPassword u' newPassword = true
  /\ User.MustChangePassword u' = false
  /\ User.PasswordChangedAt u' = Some now
  /\ User.ID u' = User.ID u
  /\ User.Role u' = User.Role u
  /\ User.FailedLoginAttempts u' = User.FailedLoginAttempts u
  /\ User.AccountLockedUntil u' = User.AccountLockedUntil u.
Proof.
  intros Hsound. unfold UserMore.UpdatePassword.
  destruct (bcrypt_generate salt newPassword) as [hashed |] eqn:E;
    [| discriminate].
  intro Eu. inversion Eu. subst u'. clear Eu.
  split; [| repeat split].
  unfold User.CheckPassword. cbn. apply (Hsound salt). exact E.
Qed.

End UpdatePassword.

Lemma plain_bcrypt_checks (password : string) :
  @bcrypt.CompareHashAndPassword Example.plain_bcrypt
    (Example.prefix59 ++ password) password = true.
Proof.
  unfold bcrypt.CompareHashAndPassword.
  assert (Hshape : bcrypt.hashShaped (Example.prefix59 ++ password) = true).
  { unfold bcrypt.hashShaped, Example.prefix59.
    cbn [append String.length Ascii.eqb Bool.eqb andb].
    rewrite andb_true_r. apply negb_true_iff. apply Z.ltb_ge.
    unfold bcrypt.minHashSize. lia. }
  rewrite Hshape. cbn [bcrypt_core Example.plain_bcrypt].
  apply String.eqb_refl.
Qed.

Lemma plain_bcrypt_sound : @bcrypt_sound Example.plain_bcrypt.
Proof.
  intros salt password hashed E.
  change (Some (Example.prefix59 ++ password) = Some hashed) in E.
  injection E as <-.
  exact (plain_bcrypt_checks password).
Qed.

Lemma UpdatePassword_then_CheckPassword_witness :
  exists u',
    @UserMore.UpdatePassword Example.plain_bcrypt Example.t0 "salt"
      "newpass1" Example.alice = Some u'
    /\ @User.CheckPassword Example.plain_bcrypt u' "newpass1" = true.
Proof.
  eexists. split; [reflexivity |].
  apply (@UpdatePassword_then_CheckPassword Example.plain_bcrypt Example.t0
           "salt" "newpass1" Example.alice _ plain_bcrypt_sound eq_refl).
Defined.

(* ------------------------------------------------------------------ *)
(** * Pagination *)

Section Pagination.
Import PaginationResponse.

Lemma GetTotalPages_div (page limit total pages : Z) (hasNext hasPrev : bool) :
  0 < limit -> 0 <= total -> total + limit < 2 ^ 63 ->
  GetTotalPages (mk page limit total pages hasNext hasPrev)
  = (total + limit - 1) / limit.
Proof.
  intros Hl Ht Hb. unfold GetTotalPages. cbn [Limit Total].
  replace (limit =? 0) with false by (symmetry; apply Z.eqb_neq; lia).
  rewrite (wrap_int_small (total + limit)) by lia.
  rewrite (wrap_int_small (total + limit - 1)) by lia.
  rewrite Z.quot_div_nonneg by lia.
  apply wrap_int_small.
  assert (0 <= (total + limit - 1) / limit) by (apply Z.div_pos; lia).
  assert ((total + limit - 1) / limit <= total + limit - 1)
    by (apply Z.div_le_upper_bound; nia).
  lia.
Qed.

(** X5.  SetPagination on a positive limit and a total that is not
    negative (their sum within int64): the page count is the total divided
    by the limit, rounded up, so the pages just cover the total; HasNext
    says exactly that rows remain beyond the given page, HasPrev that the
    page is past the first. *)
Theorem SetPagination_covers (page limit total : Z) (p : t) :
  0 < limit -> 0 <= total -> total + limit < 2 ^ 63 ->
  let p' := SetPagination page limit total p in
  total <= TotalPages p' * limit < total + limit
  /\ HasNext p' = (page * limit <? total)
  /\ HasPrev p' = (1 <? page)
  /\ Page p' = page /\ Limit p' = limit /\ Total p' = total.
Proof.
  intros Hl Ht Hb. unfold SetPagination. cbv zeta.
  rewrite GetTotalPages_div by assumption.
  cbn [TotalPages HasNext HasPrev Page Limit Total].
  set (q := (total + limit - 1) / limit).
  assert (Hq : limit * q <= total + limit - 1 < limit * q + limit).
  { unfold q. pose proof (Z.div_mod (total + limit - 1) limit).
    pose proof (Z.mod_pos_bound (total + limit - 1) limit Hl). lia. }
  split; [nia |]. split; [| repeat split].
  destruct (page * limit <? total) eqn:E.
  - apply Z.ltb_lt in E. apply Z.ltb_lt. nia.
  - apply Z.ltb_ge in E. apply Z.ltb_ge. nia.
Qed.

(** A limit of zero is answered with no pages at all, not with a division
    by zero. *)
Lemma SetPagination_zero_limit (page total : Z) (p : t) :
  TotalPages (SetPagination page 0 total p) = 0.
Proof.
  reflexivity.
Qed.

End Pagination.

Lemma SetPagination_covers_witness :
  let p' := PaginationResponse.SetPagination 3 10 25
              (PaginationResponse.mk 0 0 0 0 false false) in
  PaginationResponse.TotalPages p' = 3
  /\ PaginationResponse.HasNext p' = false
  /\ PaginationResponse.HasPrev p' = true.
Proof.
  intro p'.
  destruct (SetPagination_covers 3 10 25
              (PaginationResponse.mk 0 0 0 0 false false))
    as [Hcover [Hnext [Hprev _]]]; try (vm_compute; congruence).
  fold p' in Hcover, Hnext, Hprev.
  split; [lia |]. split; [exact Hnext | exact Hprev].
Defined.

Section QueryOptionsSection.
Import QueryOptions.

(** X6.  ValidateQueryOptions leaves the options within bounds, page at
    least 1, page size between 1 and 100, filter map allocated; a page
    size over 100 is cut to 100 and one of zero or less becomes 20.
    Options already within bounds are returned unchanged, so validating
    twice is validating once. *)
Theorem ValidateQueryOptions_bounds (options : t) :
  let v := ValidateQueryOptions options in
  1 <= Page v
  /\ 1 <= PageSize v <= 100
  /\ Filters v <> None
  /\ (100 < PageSize options -> PageSize v = 100)
  /\ (PageSize options <= 0 -> PageSize v = 20)
  /\ (1 <= Page options -> Page v = Page options)
  /\ (1 <= PageSize options <= 100 -> PageSize v = PageSize options)
  /\ ValidateQueryOptions v = v.
Proof.
  destruct options as [page size filters]. unfold ValidateQueryOptions.
  cbn [Page PageSize Filters].
  destruct (page <=? 0) eqn:Ep; destruct (size <=? 0) eqn:Es;
    cbn [Z.ltb Z.leb Z.compare];
    try (destruct (100 <? size) eqn:Eh);
    cbn [Z.ltb Z.leb Z.compare];
    rewrite ?Ep, ?Es, ?Eh;
    try apply Z.leb_le in Ep; try apply Z.leb_gt in Ep;
    try apply Z.leb_le in Es; try apply Z.leb_gt in Es;
    try apply Z.ltb_lt in Eh; try apply Z.ltb_ge in Eh;
    (repeat split; try lia; try (destruct filters; discriminate);
     try (destruct filters; reflexivity)).
Qed.

End QueryOptionsSection.

Lemma ValidateQueryOptions_bounds_witness :
  QueryOptions.PageSize
    (QueryOptions.ValidateQueryOptions (QueryOptions.mk 0 1000 None)) = 100
  /\ QueryOptions.Page
       (QueryOptions.ValidateQueryOptions (QueryOptions.mk 0 1000 None)) = 1.
Proof.
  destruct (ValidateQueryOptions_bounds (QueryOptions.mk 0 1000 None))
    as [Hp [_ [_ [Hcut _]]]].
  split; [apply Hcut; vm_compute; reflexivity | reflexivity].
Defined.

(* ------------------------------------------------------------------ *)
(** * RefreshToken *)

Section Refresh.
Import utils JWTService JWTRefresh.
Context `{HMAC}.

Lemma NewNumericDate_after (t d : Z) :
  time.Second <= d -> t + d - time.Second < jwt.NewNumericDate (time.Add t d).
Proof.
  intro Hd. unfold jwt.NewNumericDate, time.Add.
  pose proof (Truncate_gt (t + d) jwt.TimePrecision).
  unfold jwt.TimePrecision, time.Second in *. lia.
Qed.

Lemma RefreshToken_valid (j : JWTService) (now t1 : time.Time)
    (user : User.t) :
  time.Second <= expiry j ->
  now <= t1 ->
  t1 <= time.Add now (expiry j) - time.Second ->
  RefreshToken j t1 (GenerateToken j now user)
  = inr (GenerateToken j t1 user).
Proof.
  intros Httl Hle Hin. unfold RefreshToken.
  rewrite ValidateToken_GenerateToken; [reflexivity | exact Hle |].
  pose proof (NewNumericDate_after now (expiry j) Httl).
  unfold time.Add in *. lia.
Qed.

(** X7.  Refreshing a token of this service while it is valid is issuing
    a new one for the same identity at the time of the refresh: the
    result is the very token GenerateToken would sign then, with the ID,
    e-mail, user name and role copied from the old claims.  Once the old
    token has reached its expires-at, RefreshToken refuses it with the
    expiry error and issues nothing. *)
Theorem RefreshToken_reissues (j : JWTService) (now t1 : time.Time)
    (user : User.t) :
  time.Second <= expiry j ->
  now <= t1 ->
  (t1 <= time.Add now (expiry j) - time.Second ->
   RefreshToken j t1 (GenerateToken j now user)
   = inr (GenerateToken j t1 user))
  /\ (jwt.NewNumericDate (time.Add now (expiry j)) <= t1 ->
      exists e,
        RefreshToken j t1 (GenerateToken j now user) = inl e
        /\ is_expiry_error e = true).
Proof.
  intros Httl Hle. split.
  - intro Hin. apply RefreshToken_valid; assumption.
  - intro Hpast. unfold RefreshToken, GenerateToken, SignedString.
    match goal with
    | |- context [ValidateToken j t1 (Compact ?a ?c ?s)] =>
        destruct (ValidateToken_expired j t1 a c s
                    (jwt.NewNumericDate (time.Add now (expiry j)))
                    eq_refl Hpast) as [e [He Hbit]];
        rewrite He
    end.
    exists e. split; [reflexivity |]. apply Hbit. reflexivity.
Qed.

(** X8.  A refreshed token outlives the token it was made from: at an
    instant when the original has expired and the refreshed one has not,
    the original is refused as expired while the refreshed token verifies
    to the same identity.  Nothing marks the original as replaced; its
    own expires-at is all that ends it. *)
Theorem refreshed_token_outlives (j : JWTService) (now t1 t2 : time.Time)
    (user : User.t) (refreshed : TokenString) :
  time.Second <= expiry j ->
  now <= t1 ->
  t1 <= time.Add now (expiry j) - time.Second ->
  RefreshToken j t1 (GenerateToken j now user) = inr refreshed ->
  jwt.NewNumericDate (time.Add now (expiry j)) <= t2 ->
  t2 <= time.Add t1 (expiry j) - time.Second ->
  (exists e,
     ValidateToken j t2 (GenerateToken j now user) = inl e
     /\ is_expiry_error e = true)
  /\ (exists claims,
        ValidateToken j t2 refreshed = inr claims
        /\ UserID claims = User.ID user
        /\ Email claims = User.Email user
        /\ Username claims = User.Username user
        /\ Role claims = User.Role user)
  /\ (forall t, now <= t -> t <= time.Add now (expiry j) - time.Second ->
        exists claims,
          ValidateToken j t (GenerateToken j now user) = inr claims).
Proof.
  intros Httl Hle Hin Href Hpast Hbefore.
  rewrite (RefreshToken_valid j now t1 user Httl Hle Hin) in Href.
  injection Href as <-.
  split; [| split].
  - unfold GenerateToken, SignedString.
    match goal with
    | |- context [ValidateToken j t2 (Compact ?a ?c ?s)] =>
        destruct (ValidateToken_expired j t2 a c s
                    (jwt.NewNumericDate (time.Add now (expiry j)))
                    eq_refl Hpast) as [e [He Hbit]]
    end.
    exists e. split; [exact He | apply Hbit; reflexivity].
  - assert (Ht12 : t1 <= t2).
    { pose proof (NewNumericDate_after now (expiry j) Httl).
      unfold time.Add in *. lia. }
    eexists. split.
    + apply ValidateToken_GenerateToken; [exact Ht12 |].
      pose proof (NewNumericDate_after t1 (expiry j) Httl).
      unfold time.Add in *. lia.
    + repeat split.
  - intros t Ht Ht'. eexists.
    apply ValidateToken_GenerateToken; [exact Ht |].
    pose proof (NewNumericDate_after now (expiry j) Httl).
    unfold time.Add in *. lia.
Qed.

End Refresh.

Lemma RefreshToken_reissues_witness :
  let j := utils.mkJWTService "secret" time.Hour in
  let old := @JWTService.GenerateToken Example.plain_hmac j Example.t0
               Example.alice in
  @JWTRefresh.RefreshToken Example.plain_hmac j
    (Example.t0 + 30 * time.Minute) old
  = inr (@JWTService.GenerateToken Example.plain_hmac j
           (Example.t0 + 30 * time.Minute) Example.alice)
  /\ exists e,
       @JWTRefresh.RefreshToken Example.plain_hmac j
         (Example.t0 + 2 * time.Hour) old = inl e
       /\ JWTService.is_expiry_error e = true.
Proof.
  intros j old. split.
  - apply (@RefreshToken_reissues Example.plain_hmac j Example.t0
             (Example.t0 + 30 * time.Minute) Example.alice);
      vm_compute; discriminate.
  - apply (@RefreshToken_reissues Example.plain_hmac j Example.t0
             (Example.t0 + 2 * time.Hour) Example.alice);
      vm_compute; discriminate.
Defined.

Lemma refreshed_token_outlives_witness :
  let j := utils.mkJWTService "secret" time.Hour in
  let old := @JWTService.GenerateToken Example.plain_hmac j Example.t0
               Example.alice in
  let refreshed := @JWTService.GenerateToken Example.plain_hmac j
                     (Example.t0 + 30 * time.Minute) Example.alice in
  (exists e,
     @JWTService.ValidateToken Example.plain_hmac j
       (Example.t0 + 70 * time.Minute) old = inl e
     /\ JWTService.is_expiry_error e = true)
  /\ exists claims,
       @JWTService.ValidateToken Example.plain_hmac j
         (Example.t0 + 70 * time.Minute) refreshed = inr claims
       /\ utils.Role claims = User.Role Example.alice.
Proof.
  intros j old refreshed.
  destruct (@refreshed_token_outlives Example.plain_hmac j Example.t0
              (Example.t0 + 30 * time.Minute)
              (Example.t0 + 70 * time.Minute) Example.alice refreshed)
    as [Hold [[claims [Hv [_ [_ [_ Hr]]]]] _]];
    try (vm_compute; congruence).
  split; [exact Hold |]. exists claims. split; [exact Hv | exact Hr].
Defined.

(* ------------------------------------------------------------------ *)
(** * The authentication and authorization middleware *)

Section Middleware.
Import gin auth.
Context `{HMAC} `{TokenCodec}.

Lemma cut_at_space_Some (s before after : string) :
  cut_at_space s = Some (before, after) ->
  s = before ++ " " ++ after.
Proof.
  revert before. induction s as [| ch rest IH]; intros before; cbn;
    [discriminate |].
  destruct (Ascii.eqb ch " ") eqn:E.
  - apply Ascii.eqb_eq in E. subst ch. intro E1. inversion E1. reflexivity.
  - destruct (cut_at_space rest) as [[b a] |]; [| discriminate].
    intro E1. inversion E1. subst. cbn. f_equal. apply IH. reflexivity.
Qed.

(** The context AuthMiddleware hands on when the token verifies. *)
Lemma AuthMiddleware_accepts (jwtService : utils.JWTService)
    (now : time.Time) (c : Context) (token : string)
    (claims : utils.JWTClaims) :
  GetHeader c "Authorization" = "Bearer " ++ token ->
  JWTService.ValidateToken jwtService now (parse_token token) = inr claims ->
  AuthMiddleware jwtService now c
  = Set_ "claims" (ClaimsValue claims)
      (Set_ "user_role" (RoleValue (utils.Role claims))
         (Set_ "user_username" (Str (utils.Username claims))
            (Set_ "user_email" (Str (utils.Email claims))
               (Set_ "user_id" (Uint (utils.UserID claims)) c)))).
Proof.
  intros Hh Hv. unfold AuthMiddleware. rewrite Hh.
  cbn [append String.eqb Ascii.eqb Bool.eqb SplitN2 cut_at_space negb].
  rewrite Hv. reflexivity.
Qed.

(** X9.  AuthMiddleware lets a request through only when the
    Authorization header is the word Bearer, spelled exactly so, one
    space, and a token that ValidateToken accepts; it then stores the
    user ID and the role of the claims in the context.  Every other
    request (no header, no space, another scheme or another spelling such
    as "bearer", a token that does not verify) is aborted with status 401
    and nothing is stored. *)
Theorem AuthMiddleware_bearer_only (jwtService : utils.JWTService)
    (now : time.Time) (c : Context) :
  Aborted c = false ->
  let c' := AuthMiddleware jwtService now c in
  (Aborted c' = false ->
   exists token claims,
     GetHeader c "Authorization" = "Bearer " ++ token
     /\ JWTService.ValidateToken jwtService now (parse_token token)
        = inr claims
     /\ Get c' "user_id" = Some (Uint (utils.UserID claims))
     /\ Get c' "user_role" = Some (RoleValue (utils.Role claims)))
  /\ (Aborted c' = true ->
      (exists msg, Response c' = Some (StatusUnauthorized, msg))
      /\ Keys c' = Keys c).
Proof.
  intros Hfresh c'. unfold c', AuthMiddleware.
  destruct (String.eqb (GetHeader c "Authorization") "") eqn:Eh.
  { split; [discriminate |]. intros _. split; [eexists |]; reflexivity. }
  unfold SplitN2.
  destruct (cut_at_space (GetHeader c "Authorization"))
    as [[scheme token] |] eqn:Ecut.
  2:{ split; [discriminate |]. intros _. split; [eexists |]; reflexivity. }
  destruct (String.eqb scheme "Bearer") eqn:Es; cbn [negb].
  2:{ split; [discriminate |]. intros _. split; [eexists |]; reflexivity. }
  apply String.eqb_eq in Es. subst scheme.
  apply cut_at_space_Some in Ecut.
  destruct (JWTService.ValidateToken jwtService now (parse_token token))
    as [err | claims] eqn:Ev.
  { split; [discriminate |]. intros _. split; [eexists |]; reflexivity. }
  split.
  - intros _. exists token, claims.
    split; [exact Ecut | split; [exact Ev | split; reflexivity]].
  - cbn [Set_ Aborted]. rewrite Hfresh. discriminate.
Qed.

(** X10.  Behind AuthMiddleware, RequireRole decides on the role claim of
    the token alone: a request with a token that verifies passes the pair
    exactly when its role claim meets one of the required roles, and is
    otherwise answered 403; the 401 and 500 answers of RequireRole cannot
    occur there.  RequireAdmin so admits the role admin only,
    RequireModerator admin and moderator only, and RequireRole with no
    role listed admits nobody. *)
Theorem RequireRole_behind_AuthMiddleware (jwtService : utils.JWTService)
    (now : time.Time) (c : Context) (token : string)
    (claims : utils.JWTClaims) (requiredRoles : list models.Role) :
  Aborted c = false ->
  GetHeader c "Authorization" = "Bearer " ++ token ->
  JWTService.ValidateToken jwtService now (parse_token token) = inr claims ->
  let out roles :=
    run [AuthMiddleware jwtService now; RequireRole roles] c in
  Aborted (out requiredRoles)
  = negb (existsb (middleware.hasRolePermission (utils.Role claims))
            requiredRoles)
  /\ (Aborted (out requiredRoles) = true ->
      Response (out requiredRoles)
      = Some (StatusForbidden, "Insufficient permissions"))
  /\ Aborted (run [AuthMiddleware jwtService now; RequireAdmin] c)
     = negb (String.eqb (utils.Role claims) models.RoleAdmin)
  /\ Aborted (run [AuthMiddleware jwtService now; RequireModerator] c)
     = negb (String.eqb (utils.Role claims) models.RoleAdmin
             || String.eqb (utils.Role claims) models.RoleModerator)
  /\ Aborted (out []) = true.
Proof.
  intros Hfresh Hh Hv out.
  assert (Hrun : forall roles,
            out roles
            = RequireRole roles (AuthMiddleware jwtService now c)).
  { intro roles. unfold out. cbn [run].
    rewrite (AuthMiddleware_accepts _ _ _ _ _ Hh Hv).
    cbn [Set_ Aborted]. rewrite Hfresh.
    destruct (Aborted (RequireRole roles _)); reflexivity. }
  assert (Hdec : forall roles,
            out roles
            = if existsb (middleware.hasRolePermission (utils.Role claims))
                   roles
              then AuthMiddleware jwtService now c
              else Abort (JSON StatusForbidden "Insufficient permissions"
                            (AuthMiddleware jwtService now c))).
  { intro roles. rewrite Hrun.
    rewrite (AuthMiddleware_accepts _ _ _ _ _ Hh Hv).
    unfold RequireRole. reflexivity. }
  assert (Hok : Aborted (AuthMiddleware jwtService now c) = false).
  { rewrite (AuthMiddleware_accepts _ _ _ _ _ Hh Hv). exact Hfresh. }
  assert (Hab : forall roles,
            Aborted (out roles)
            = negb (existsb (middleware.hasRolePermission (utils.Role claims))
                      roles)).
  { intro roles. rewrite Hdec.
    destruct (existsb _ roles); [exact Hok | reflexivity]. }
  split; [apply Hab |]. split.
  - rewrite Hdec.
    destruct (existsb _ requiredRoles); [rewrite Hok; discriminate |].
    reflexivity.
  - split; [| split].
    + change (run [AuthMiddleware jwtService now; RequireAdmin] c)
        with (out [models.RoleAdmin]).
      rewrite Hab. cbn [existsb]. rewrite orb_false_r.
      reflexivity.
    + change (run [AuthMiddleware jwtService now; RequireModerator] c)
        with (out [models.RoleAdmin; models.RoleModerator]).
      rewrite Hab. cbn [existsb]. rewrite orb_false_r.
      change (middleware.hasRolePermission (utils.Role claims) models.RoleAdmin)
        with (String.eqb (utils.Role claims) models.RoleAdmin).
      change (middleware.hasRolePermission (utils.Role claims)
                models.RoleModerator)
        with (String.eqb (utils.Role claims) models.RoleAdmin
              || String.eqb (utils.Role claims) models.RoleModerator).
      destruct (String.eqb (utils.Role claims) models.RoleAdmin);
        reflexivity.
    + rewrite Hab. reflexivity.
Qed.

(** X11.  Behind AuthMiddleware, RequireOwnerOrAdmin lets a request
    through exactly when the role claim is admin or the user ID of the
    claims is the ID read from the :id path parameter, which is what
    CanAccessResource answers for that user; every other request is
    answered 403.  A parameter that is not a number is read as ID 0. *)
Theorem RequireOwnerOrAdmin_behind_AuthMiddleware
    (jwtService : utils.JWTService) (now : time.Time) (c : Context)
    (token : string) (claims : utils.JWTClaims) (u : User.t) :
  Aborted c = false ->
  GetHeader c "Authorization" = "Bearer " ++ token ->
  JWTService.ValidateToken jwtService now (parse_token token) = inr claims ->
  let out :=
    run [AuthMiddleware jwtService now;
         RequireOwnerOrAdmin handlers.GetUserIDFromParam] c in
  Aborted out
  = negb (String.eqb (utils.Role claims) models.RoleAdmin
          || (utils.UserID claims =? handlers.GetUserIDFromParam c))
  /\ (Aborted out = true ->
      exists msg, Response out = Some (StatusForbidden, msg))
  /\ (User.ID u = utils.UserID claims ->
      User.Role u = utils.Role claims ->
      Aborted out
      = negb (User.CanAccessResource u (handlers.GetUserIDFromParam c)))
  /\ (handlers.ParseUint32 (Param c "id") = None ->
      handlers.GetUserIDFromParam c = 0).
Proof.
  intros Hfresh Hh Hv out.
  assert (Hout : out
            = if String.eqb (utils.Role claims) models.RoleAdmin
              then AuthMiddleware jwtService now c
              else if utils.UserID claims =? handlers.GetUserIDFromParam c
              then AuthMiddleware jwtService now c
              else Abort (JSON StatusForbidden
                     "Access denied: you can only access your own resources"
                     (AuthMiddleware jwtService now c))).
  { assert (Hok0 : Aborted (AuthMiddleware jwtService now c) = false).
    { rewrite (AuthMiddleware_accepts _ _ _ _ _ Hh Hv). exact Hfresh. }
    assert (Hrun : out
              = RequireOwnerOrAdmin handlers.GetUserIDFromParam
                  (AuthMiddleware jwtService now c)).
    { unfold out. cbn [run]. rewrite Hok0.
      destruct (Aborted (RequireOwnerOrAdmin _ _)); reflexivity. }
    rewrite Hrun. rewrite (AuthMiddleware_accepts _ _ _ _ _ Hh Hv).
    unfold RequireOwnerOrAdmin.
    cbn [Get Keys Set_ assoc String.eqb Ascii.eqb Bool.eqb].
    match goal with
    | |- context [handlers.GetUserIDFromParam ?ctx] =>
        change (handlers.GetUserIDFromParam ctx)
          with (handlers.GetUserIDFromParam c)
    end.
    destruct (String.eqb (utils.Role claims) models.RoleAdmin);
      [reflexivity |].
    destruct (utils.UserID claims =? handlers.GetUserIDFromParam c);
      reflexivity. }
  assert (Hok : Aborted (AuthMiddleware jwtService now c) = false).
  { rewrite (AuthMiddleware_accepts _ _ _ _ _ Hh Hv). exact Hfresh. }
  assert (Hab : Aborted out
            = negb (String.eqb (utils.Role claims) models.RoleAdmin
                    || (utils.UserID claims =? handlers.GetUserIDFromParam c))).
  { rewrite Hout.
    destruct (String.eqb (utils.Role claims) models.RoleAdmin);
      [exact Hok |].
    destruct (utils.UserID claims =? handlers.GetUserIDFromParam c);
      [exact Hok | reflexivity]. }
  split; [exact Hab |]. split; [| split].
  - rewrite Hout.
    destruct (String.eqb (utils.Role claims) models.RoleAdmin);
      [rewrite Hok; discriminate |].
    destruct (utils.UserID claims =? handlers.GetUserIDFromParam c);
      [rewrite Hok; discriminate |].
    intros _. eexists. reflexivity.
  - intros Hid Hrole. rewrite Hab.
    unfold User.CanAccessResource, User.IsAdmin. rewrite Hid, Hrole.
    destruct (String.eqb (utils.Role claims) models.RoleAdmin); reflexivity.
  - intro Hp. unfold handlers.GetUserIDFromParam. rewrite Hp. reflexivity.
Qed.

End Middleware.

Lemma AuthMiddleware_bearer_only_witness :
  let c := Example2.request "bearer alice-token" "1" in
  let c' := @auth.AuthMiddleware Example.plain_hmac Example2.plain_codec
              (services.jwtService Example.svc) Example.t0 c in
  (exists msg, gin.Response c' = Some (auth.StatusUnauthorized, msg))
  /\ gin.Keys c' = [].
Proof.
  intros c c'.
  destruct (@AuthMiddleware_bearer_only Example.plain_hmac Example2.plain_codec
              (services.jwtService Example.svc) Example.t0 c eq_refl)
    as [_ Hrej].
  apply Hrej. reflexivity.
Defined.

Lemma RequireRole_behind_AuthMiddleware_witness :
  let c := Example2.request "Bearer alice-token" "1" in
  gin.Aborted
    (gin.run [@auth.AuthMiddleware Example.plain_hmac Example2.plain_codec
                (services.jwtService Example.svc) Example.t0;
              auth.RequireAdmin] c) = true
  /\ gin.Aborted
       (gin.run [@auth.AuthMiddleware Example.plain_hmac Example2.plain_codec
                   (services.jwtService Example.svc) Example.t0;
                 auth.RequireRole [models.RoleUser]] c) = false.
Proof.
  intro c.
  assert (Hv : @JWTService.ValidateToken Example.plain_hmac
                 (services.jwtService Example.svc) Example.t0
                 (@parse_token Example2.plain_codec "alice-token")
               = inr (utils.mkClaims 1 "a@x.com" "alice" models.RoleUser
                        (jwt.mkRegistered "go-backend" "user:1"
                           (Some (Example.t0 + 24 * time.Hour))
                           (Some Example.t0) (Some Example.t0))))
    by (vm_compute; reflexivity).
  destruct (@RequireRole_behind_AuthMiddleware Example.plain_hmac
              Example2.plain_codec (services.jwtService Example.svc)
              Example.t0 c "alice-token" _ [models.RoleUser]
              eq_refl eq_refl Hv)
    as [Huser [_ [Hadmin _]]].
  split; [rewrite Hadmin | rewrite Huser]; reflexivity.
Defined.

Lemma RequireOwnerOrAdmin_behind_AuthMiddleware_witness :
  let chain :=
    [@auth.AuthMiddleware Example.plain_hmac Example2.plain_codec
       (services.jwtService Example.svc) Example.t0;
     auth.RequireOwnerOrAdmin handlers.GetUserIDFromParam] in
  gin.Aborted (gin.run chain (Example2.request "Bearer alice-token" "1"))
    = false
  /\ gin.Aborted (gin.run chain (Example2.request "Bearer alice-token" "2"))
     = true.
Proof.
  intro chain.
  assert (Hv : @JWTService.ValidateToken Example.plain_hmac
                 (services.jwtService Example.svc) Example.t0
                 (@parse_token Example2.plain_codec "alice-token")
               = inr (utils.mkClaims 1 "a@x.com" "alice" models.RoleUser
                        (jwt.mkRegistered "go-backend" "user:1"
                           (Some (Example.t0 + 24 * time.Hour))
                           (Some Example.t0) (Some Example.t0))))
    by (vm_compute; reflexivity).
  split.
  - destruct (@RequireOwnerOrAdmin_behind_AuthMiddleware Example.plain_hmac
                Example2.plain_codec (services.jwtService Example.svc)
                Example.t0 (Example2.request "Bearer alice-token" "1")
                "alice-token" _ Example.alice eq_refl eq_refl Hv)
      as [Hab _].
    unfold chain. rewrite Hab. reflexivity.
  - destruct (@RequireOwnerOrAdmin_behind_AuthMiddleware Example.plain_hmac
                Example2.plain_codec (services.jwtService Example.svc)
                Example.t0 (Example2.request "Bearer alice-token" "2")
                "alice-token" _ Example.alice eq_refl eq_refl Hv)
      as [Hab _].
    unfold chain. rewrite Hab. reflexivity.
Defined.

(* ------------------------------------------------------------------ *)
(** * Register, Login, DeleteUser, UpdateUser and ChangePassword together *)

Section UserLifecycle.
Import services gorm UserAdmin.
Context `{Bcrypt} `{HMAC}.

Lemma existsb_none {A : Type} (p : A -> bool) (l : list A) :
  existsb p l = false <-> forall x, In x l -> p x = false.
Proof.
  split.
  - intros E x Hx. destruct (p x) eqn:Hp; [| reflexivity].
    assert (existsb p l = true) by (apply existsb_exists; eauto).
    congruence.
  - intro Hall. destruct (existsb p l) eqn:E; [| reflexivity].
    apply existsb_exists in E. destruct E as [x [Hx Hp]].
    rewrite (Hall x Hx) in Hp. discriminate.
Qed.

(** A query over rows an UPDATE has rewritten sees what it saw before,
    when the rewritten rows are outside the query before and after. *)
Lemma filter_map_fix {A : Type} (p : A -> bool) (f : A -> A) (l : list A) :
  (forall r, In r l -> f r = r \/ (p r = false /\ p (f r) = false)) ->
  filter p (map f l) = filter p l.
Proof.
  induction l as [| r rest IH]; intro Hall; [reflexivity |].
  cbn [map filter].
  rewrite IH by (intros x Hx; apply Hall; right; exact Hx).
  destruct (Hall r (or_introl eq_refl)) as [-> | [-> ->]]; reflexivity.
Qed.

Lemma FirstUser_None (db : DB) (cond : User.t -> bool) :
  FirstUser db cond = None <->
  forall u, In u (users db) -> User.DeletedAt u = None -> cond u = false.
Proof.
  unfold FirstUser. rewrite first_by_nil_iff, filter_nil_iff. split.
  - intros Hall u Hin Hlive. specialize (Hall u Hin).
    rewrite Hlive in Hall. exact Hall.
  - intros Hall u Hin. destruct (User.DeletedAt u) eqn:Hd; [reflexivity |].
    cbn. apply Hall; assumption.
Qed.

Lemma FirstUser_exists (db : DB) (cond : User.t -> bool) (u : User.t) :
  In u (users db) -> User.DeletedAt u = None -> cond u = true ->
  exists v, FirstUser db cond = Some v.
Proof.
  intros Hin Hlive Hc. destruct (FirstUser db cond) as [v |] eqn:E; [eauto |].
  rewrite FirstUser_None in E. rewrite (E u Hin Hlive) in Hc. discriminate.
Qed.

Lemma BeforeCreate_fields (salt : string) (u u1 : User.t) :
  User.BeforeCreate salt u = Some u1 ->
  User.ID u1 = User.ID u
  /\ User.Email u1 = User.Email u
  /\ User.Username u1 = User.Username u
  /\ User.IsActive u1 = User.IsActive u
  /\ User.PhoneNumber u1 = User.PhoneNumber u
  /\ User.DeletedAt u1 = User.DeletedAt u
  /\ (User.Password u <> "" ->
      bcrypt_generate salt (User.Password u) = Some (User.Password u1)).
Proof.
  unfold User.BeforeCreate.
  destruct (String.eqb (User.Password u) "") eqn:Hpw.
  - apply String.eqb_eq in Hpw.
    destruct (String.eqb (User.Role u) ""); intro E; inversion E; subst;
      cbn; repeat split; try reflexivity; intro Hne; contradiction.
  - destruct (bcrypt_generate salt (User.Password u)) as [h |];
      [| discriminate].
    cbn [User.with_Password User.Role].
    destruct (String.eqb (User.Role u) ""); intro E; inversion E; subst;
      cbn; repeat split; reflexivity.
Qed.

(** What a successful Register has done. *)
Lemma Register_inversion (s : UserService) (db db' : DB) (now : time.Time)
    (salt : string) (req : UserCreateRequest) (resp : LoginResponse) :
  Register s db now salt req = (inr resp, db') ->
  exists user,
    users db' = (users db ++ [user])%list
    /\ resp = mkLoginResponse
                (JWTService.GenerateToken (jwtService s) now user)
                (ToResponse user)
    /\ User.Email user = req_Email req
    /\ User.Username user = req_Username req
    /\ User.IsActive user = true
    /\ User.DeletedAt user = None
    /\ User.PhoneNumber user = ""
    /\ (req_Password req <> "" ->
        bcrypt_generate salt (req_Password req) = Some (User.Password user))
    /\ (forall u, In u (users db) -> User.DeletedAt u = None ->
        String.eqb (User.Email u) (req_Email req) = false).
Proof.
  unfold Register.
  destruct (FirstUser db _) as [existing |] eqn:Hfind.
  { destruct (String.eqb (User.Email existing) (req_Email req)); discriminate. }
  unfold CreateUser.
  destruct (User.BeforeCreate salt _) as [u1 |] eqn:Hhook; [| discriminate].
  apply BeforeCreate_fields in Hhook.
  cbn [User.ID User.Email User.Username User.IsActive User.PhoneNumber
       User.DeletedAt User.Password] in Hhook.
  destruct Hhook as (Hid & He & Hu & Ha & Hp & Hd & Hpw).
  match goal with
  | |- context [duplicated_column db ?u] =>
      set (u3 := u); destruct (duplicated_column db u3); [discriminate |]
  end.
  intro E. inversion E. subst resp db'. clear E.
  exists u3. cbn [users with_users].
  assert (Hu3 : User.Email u3 = User.Email u1
                /\ User.Username u3 = User.Username u1
                /\ User.IsActive u3 = User.IsActive u1
                /\ User.DeletedAt u3 = User.DeletedAt u1
                /\ User.PhoneNumber u3 = User.PhoneNumber u1
                /\ User.Password u3 = User.Password u1).
  { unfold u3. destruct (User.ID (User.with_stamps now now u1) =? 0);
      cbn; repeat split; reflexivity. }
  destruct Hu3 as (He3 & Hu3 & Ha3 & Hd3 & Hp3 & Hpw3).
  split; [reflexivity |]. split; [reflexivity |].
  split; [congruence |]. split; [congruence |]. split; [congruence |].
  split; [congruence |]. split; [congruence |].
  split; [intro Hne; rewrite Hpw3; apply Hpw; exact Hne |].
  intros u Hin Hlive. rewrite FirstUser_None in Hfind.
  specialize (Hfind u Hin Hlive). apply orb_false_iff in Hfind.
  apply Hfind.
Qed.

(** X12.  Register and Login fit together: after a successful Register
    with a non-empty password, Login with the e-mail and the password of
    the request succeeds at any later time, answers with the identity
    Register answered with, and writes nothing. *)
Theorem Register_then_Login (s : UserService) (db db' : DB)
    (now now' : time.Time) (salt : string) (req : UserCreateRequest)
    (resp : LoginResponse) :
  bcrypt_sound ->
  req_Password req <> "" ->
  Register s db now salt req = (inr resp, db') ->
  exists resp',
    Login s db' now' (mkLoginRequest (req_Email req) (req_Password req))
    = (inr resp', db')
    /\ User_ resp' = User_ resp
    /\ resp_Email (User_ resp') = req_Email req
    /\ resp_IsActive (User_ resp') = true.
Proof.
  intros Hsound Hpw Hreg.
  apply Register_inversion in Hreg.
  destruct Hreg as (user & Hrows & Hresp & He & _ & Ha & Hd & _ & Hhash & Hfree).
  specialize (Hhash Hpw).
  assert (Hfind : FirstUser db'
            (fun u => String.eqb (User.Email u) (req_Email req)) = Some user).
  { unfold FirstUser. rewrite Hrows, filter_app.
    replace (filter _ (users db)) with (@nil User.t).
    2:{ symmetry. apply filter_nil_iff. intros x Hx.
        destruct (User.DeletedAt x) eqn:Hdx; [reflexivity |].
        cbn. apply Hfree; assumption. }
    cbn. rewrite Hd, He, String.eqb_refl. reflexivity. }
  unfold Login. cbn [login_Email login_Password]. rewrite Hfind, Ha.
  cbn [negb]. unfold User.CheckPassword.
  rewrite (Hsound salt (req_Password req) (User.Password user) Hhash).
  cbn [negb]. eexists. split; [reflexivity |].
  subst resp. cbn [User_ ToResponse resp_Email resp_IsActive].
  split; [reflexivity |]. split; [exact He | exact Ha].
Qed.

(** X13.  Register refuses an e-mail or a user name that a stored (not
    deleted) user holds, with one of two messages, and writes nothing;
    the message names the e-mail whenever a stored user holds the e-mail
    and none holds the user name under another e-mail. *)
Theorem Register_rejects_duplicates (s : UserService) (db : DB)
    (now : time.Time) (salt : string) (req : UserCreateRequest) (u : User.t) :
  In u (users db) ->
  User.DeletedAt u = None ->
  User.Email u = req_Email req \/ User.Username u = req_Username req ->
  (Register s db now salt req
   = (inl (errors_New "user with this email already exists"), db)
   \/ Register s db now salt req
      = (inl (errors_New "user with this username already exists"), db))
  /\ ((forall v, In v (users db) -> User.DeletedAt v = None ->
         User.Username v = req_Username req -> User.Email v = req_Email req) ->
      Register s db now salt req
      = (inl (errors_New "user with this email already exists"), db))
  /\ ((forall v, In v (users db) -> User.DeletedAt v = None ->
         User.Email v <> req_Email req) ->
      Register s db now salt req
      = (inl (errors_New "user with this username already exists"), db)).
Proof.
  intros Hin Hlive Hmatch.
  destruct (FirstUser_exists db
              (fun u => String.eqb (User.Email u) (req_Email req)
                        || String.eqb (User.Username u) (req_Username req))
              u Hin Hlive) as [v Hv].
  { destruct Hmatch as [-> | ->]; rewrite String.eqb_refl;
      [reflexivity | apply orb_true_r]. }
  unfold Register. rewrite Hv.
  apply FirstUser_Some in Hv. destruct Hv as (Hvin & Hvlive & Hvc).
  split; [| split].
  - destruct (String.eqb (User.Email v) (req_Email req)); auto.
  - intro Honly. apply orb_true_iff in Hvc. destruct Hvc as [E | E].
    + rewrite E. reflexivity.
    + apply String.eqb_eq in E. rewrite (Honly v Hvin Hvlive E).
      rewrite String.eqb_refl. reflexivity.
  - intro Hnone. specialize (Hnone v Hvin Hvlive).
    apply String.eqb_neq in Hnone. rewrite Hnone. reflexivity.
Qed.

(** Register leaves the phone number empty, and the phone number column
    carries a unique index: a table that holds a row with an empty phone
    number takes no further row from Register. *)
Lemma Register_blocked_by_empty_phone (s : UserService) (db : DB)
    (now : time.Time) (salt : string) (req : UserCreateRequest) (u : User.t) :
  In u (users db) -> User.PhoneNumber u = "" ->
  exists e, Register s db now salt req = (inl e, db).
Proof.
  intros Hin Hphone. unfold Register.
  destruct (FirstUser db _) as [existing |].
  { destruct (String.eqb (User.Email existing) (req_Email req)); eauto. }
  unfold CreateUser.
  destruct (User.BeforeCreate salt _) as [u1 |] eqn:Hhook; [| eauto].
  apply BeforeCreate_fields in Hhook.
  cbn [User.PhoneNumber] in Hhook.
  destruct Hhook as (_ & _ & _ & _ & Hp & _).
  match goal with
  | |- context [duplicated_column db ?u] => set (u3 := u)
  end.
  assert (Hp3 : User.PhoneNumber u3 = "").
  { unfold u3. destruct (User.ID (User.with_stamps now now u1) =? 0);
      cbn; exact Hp. }
  assert (Hdup : exists column, duplicated_column db u3 = Some column).
  { unfold duplicated_column.
    destruct (existsb _ (users db)); [eauto |].
    destruct (existsb _ (users db)); [eauto |].
    destruct (existsb _ (users db)); [eauto |].
    replace (existsb _ (users db)) with true; [eauto |].
    symmetry. apply existsb_exists. exists u. split; [exact Hin |].
    rewrite Hphone, Hp3. reflexivity. }
  destruct Hdup as [column ->]. eauto.
Qed.

(** X14.  Once Register has succeeded, no later Register on that store
    succeeds, whatever the request: every later call returns an error and
    writes nothing.  The row Register inserted has an empty phone number,
    the next insert would carry an empty phone number too, and the column
    has a unique index. *)
Theorem Register_succeeds_once (s : UserService) (db db' : DB)
    (now : time.Time) (salt : string) (req : UserCreateRequest)
    (resp : LoginResponse) :
  Register s db now salt req = (inr resp, db') ->
  forall (now2 : time.Time) (salt2 : string) (req2 : UserCreateRequest),
    exists e, Register s db' now2 salt2 req2 = (inl e, db').
Proof.
  intros Hreg now2 salt2 req2.
  apply Register_inversion in Hreg.
  destruct Hreg as (user & Hrows & _ & _ & _ & _ & _ & Hphone & _).
  apply (Register_blocked_by_empty_phone s db' now2 salt2 req2 user).
  - rewrite Hrows. apply in_or_app. right. left. reflexivity.
  - exact Hphone.
Qed.

End UserLifecycle.

Section UserRemoval.
Import services gorm UserAdmin.
Context `{Bcrypt} `{HMAC}.

(** The rows of the table after the soft delete of [user]. *)
Lemma SoftDeleteUser_rows (db : DB) (now : time.Time) (user : User.t)
    (v : User.t) :
  In v (users (SoftDeleteUser db now user)) ->
  User.DeletedAt v = None ->
  In v (users db) /\ User.ID v <> User.ID user.
Proof.
  unfold SoftDeleteUser. cbn [users with_users]. intros Hin Hlive.
  apply in_map_iff in Hin. destruct Hin as [r [Hr Hin]].
  destruct (is_null (User.DeletedAt r) && (User.ID r =? User.ID user)) eqn:E.
  - subst v. cbn in Hlive. discriminate.
  - subst v. split; [exact Hin |]. rewrite Hlive in E. cbn in E.
    apply Z.eqb_neq. exact E.
Qed.

(** X15.  DeleteUser is a soft delete: the row stays in the table, and
    afterwards the user cannot be read by ID, cannot be deleted a second
    time and cannot log in; every other user is read as before. *)
Theorem DeleteUser_hides_the_user (s : UserService) (db db' : DB)
    (now : time.Time) (id : Z) :
  DeleteUser db now id = (None, db') ->
  GetUserByID db' id = inl (errors_New "user not found")
  /\ (forall now', DeleteUser db' now' id
                   = (Some (errors_New "user not found"), db'))
  /\ (forall now' req,
        (forall u, In u (users db) -> User.DeletedAt u = None ->
           User.Email u = login_Email req -> User.ID u = id) ->
        Login s db' now' req
        = (inl (errors_New "invalid email or password"), db'))
  /\ (forall id', id' <> id -> GetUserByID db' id' = GetUserByID db id')
  /\ List.length (users db') = List.length (users db).
Proof.
  unfold DeleteUser.
  destruct (FirstUser db (fun u => User.ID u =? id)) as [user |] eqn:Hfind;
    [| discriminate].
  intro E. inversion E. subst db'. clear E.
  apply FirstUser_Some in Hfind. destruct Hfind as (Hin & Hlive & Hid).
  apply Z.eqb_eq in Hid.
  assert (Hgone : FirstUser (SoftDeleteUser db now user)
                    (fun u => User.ID u =? id) = None).
  { apply FirstUser_None. intros v Hv Hvlive.
    destruct (SoftDeleteUser_rows db now user v Hv Hvlive) as [_ Hne].
    apply Z.eqb_neq. congruence. }
  split; [unfold GetUserByID; rewrite Hgone; reflexivity |].
  split; [intro now'; rewrite Hgone; reflexivity |].
  split; [| split].
  - intros now' req Honly. unfold Login.
    replace (FirstUser (SoftDeleteUser db now user) _) with (@None User.t);
      [reflexivity |].
    symmetry. apply FirstUser_None. intros v Hv Hvlive.
    destruct (SoftDeleteUser_rows db now user v Hv Hvlive) as [Hvin Hne].
    destruct (String.eqb (User.Email v) (login_Email req)) eqn:Em;
      [| reflexivity].
    apply String.eqb_eq in Em. elim Hne.
    rewrite (Honly v Hvin Hvlive Em). symmetry. exact Hid.
  - intros id' Hne. unfold GetUserByID, FirstUser, SoftDeleteUser.
    cbn [users with_users]. rewrite filter_map_fix; [reflexivity |].
    intros r _.
    destruct (is_null (User.DeletedAt r) && (User.ID r =? User.ID user))
      eqn:Er; [| left; reflexivity].
    right. apply andb_true_iff in Er. destruct Er as [_ Er].
    apply Z.eqb_eq in Er. cbn [UserMore.with_DeletedAt User.ID User.DeletedAt].
    assert (En : (User.ID r =? id') = false)
      by (apply Z.eqb_neq; congruence).
    rewrite En. split; [apply andb_false_r | reflexivity].
  - unfold SoftDeleteUser. cbn [users with_users]. apply length_map.
Qed.

(** X16.  The e-mail of a deleted user stays taken.  Register with that
    e-mail passes the check for an existing user, which looks at stored
    users only, and then fails at the insert, the unique indexes counting
    deleted rows too: the caller gets "failed to create user", not
    "user with this email already exists", and nothing is written. *)
Theorem Register_after_DeleteUser (s : UserService) (db db' : DB)
    (now now2 : time.Time) (salt2 : string) (id : Z) (user : User.t)
    (req : UserCreateRequest) :
  FirstUser db (fun u => User.ID u =? id) = Some user ->
  DeleteUser db now id = (None, db') ->
  req_Email req = User.Email user ->
  (forall u, In u (users db) -> User.DeletedAt u = None -> User.ID u <> id ->
     User.Email u <> req_Email req /\ User.Username u <> req_Username req) ->
  exists cause,
    Register s db' now2 salt2 req
    = (inl (fmt_Errorf "failed to create user" cause), db').
Proof.
  intros Hfind Hdel Hemail Hfree. unfold DeleteUser in Hdel.
  rewrite Hfind in Hdel. inversion Hdel. subst db'. clear Hdel.
  apply FirstUser_Some in Hfind. destruct Hfind as (Hin & Hlive & Hid).
  apply Z.eqb_eq in Hid.
  unfold Register.
  replace (FirstUser (SoftDeleteUser db now user) _) with (@None User.t).
  2:{ symmetry. apply FirstUser_None. intros v Hv Hvlive.
      destruct (SoftDeleteUser_rows db now user v Hv Hvlive) as [Hvin Hne].
      rewrite Hid in Hne.
      destruct (Hfree v Hvin Hvlive Hne) as [He Hu].
      apply String.eqb_neq in He. apply String.eqb_neq in Hu.
      rewrite He, Hu. reflexivity. }
  unfold CreateUser.
  destruct (User.BeforeCreate salt2 _) as [u1 |] eqn:Hhook; [| eauto].
  apply BeforeCreate_fields in Hhook. cbn [User.Email] in Hhook.
  destruct Hhook as (_ & He & _).
  match goal with
  | |- context [duplicated_column ?d ?u] => set (u3 := u)
  end.
  assert (He3 : User.Email u3 = User.Email user).
  { unfold u3. destruct (User.ID (User.with_stamps now2 now2 u1) =? 0);
      cbn; congruence. }
  assert (Hdup : exists column,
            duplicated_column (SoftDeleteUser db now user) u3 = Some column).
  { unfold duplicated_column.
    destruct (existsb _ (users _)); [eauto |].
    replace (existsb _ (users (SoftDeleteUser db now user))) with true;
      [eauto |].
    symmetry. apply existsb_exists.
    exists (UserMore.with_DeletedAt (Some now) user). split.
    - unfold SoftDeleteUser. cbn [users with_users]. apply in_map_iff.
      exists user. split; [| exact Hin].
      rewrite Hlive, Z.eqb_refl. reflexivity.
    - cbn [UserMore.with_DeletedAt User.Email]. rewrite He3.
      apply String.eqb_refl. }
  destruct Hdup as [column ->]. eauto.
Qed.

(** X17.  After a successful ChangePassword nobody logs in to the account:
    Login with its e-mail fails for every password, the old one and the
    new one included, the stored string being no hash (the new password
    is taken not to have the shape of one).  The e-mail is taken to be
    held by that account only. *)
Theorem ChangePassword_locks_the_account_out (s : UserService) (db db' : DB)
    (now now' : time.Time) (id : Z) (user : User.t)
    (oldPassword newPassword password : string) :
  FirstUser db (fun u => User.ID u =? id) = Some user ->
  ChangePassword s db now id oldPassword newPassword = (None, db') ->
  bcrypt.hashShaped newPassword = false ->
  (forall u, In u (users db) -> User.DeletedAt u = None ->
     User.Email u = User.Email user -> User.ID u = id) ->
  Login s db' now' (mkLoginRequest (User.Email user) password)
  = (inl (errors_New (if User.IsActive user
                      then "invalid email or password"
                      else "account is deactivated")), db').
Proof.
  intros Hfind Hchg Hshape Honly. unfold ChangePassword in Hchg.
  rewrite Hfind in Hchg.
  destruct (User.CheckPassword user oldPassword); cbn [negb] in Hchg;
    [| discriminate].
  inversion Hchg. subst db'. clear Hchg.
  apply FirstUser_Some in Hfind. destruct Hfind as (Hin & Hlive & Hid).
  apply Z.eqb_eq in Hid.
  set (changed := User.with_Password newPassword user).
  set (row := User.with_stamps (User.CreatedAt changed) now changed).
  assert (Hrow : FirstUser (SaveUser db now changed)
                   (fun u => String.eqb (User.Email u) (User.Email user))
                 = Some row).
  { unfold FirstUser, SaveUser. cbn [users with_users]. fold row.
    apply first_by_all_eq.
    - intros x Hx. apply filter_In in Hx. destruct Hx as [Hx Hc].
      apply in_map_iff in Hx. destruct Hx as [y [Hy Hyin]].
      destruct (is_null (User.DeletedAt y) && (User.ID y =? User.ID changed))
        eqn:Hy'; [symmetry; exact Hy |].
      subst x. apply andb_true_iff in Hc. destruct Hc as [Hd He].
      apply String.eqb_eq in He.
      assert (Hyl : User.DeletedAt y = None)
        by (destruct (User.DeletedAt y); [discriminate | reflexivity]).
      rewrite (Honly y Hyin Hyl He) in Hy'.
      unfold changed in Hy'. cbn [User.with_Password User.ID] in Hy'.
      rewrite Hid, Z.eqb_refl, Hd in Hy'. discriminate.
    - intro Hnil.
      assert (Hr : In row (filter
                (fun u => is_null (User.DeletedAt u)
                          && String.eqb (User.Email u) (User.Email user))
                (map (fun r => if is_null (User.DeletedAt r)
                                  && (User.ID r =? User.ID changed)
                               then row else r) (users db)))).
      { apply filter_In. split.
        - apply in_map_iff. exists user. split; [| exact Hin].
          unfold changed. cbn [User.with_Password User.ID].
          rewrite Hlive, Z.eqb_refl. reflexivity.
        - unfold row, changed. cbn. rewrite Hlive, String.eqb_refl.
          reflexivity. }
      rewrite Hnil in Hr. exact Hr. }
  unfold Login. cbn [login_Email login_Password]. rewrite Hrow.
  assert (Hact : User.IsActive row = User.IsActive user) by reflexivity.
  rewrite Hact. destruct (User.IsActive user); cbn [negb]; [| reflexivity].
  unfold User.CheckPassword, bcrypt.CompareHashAndPassword.
  assert (Hpw : User.Password row = newPassword) by reflexivity.
  rewrite Hpw, Hshape. reflexivity.
Qed.

End UserRemoval.

Section UserUpdate.
Import services gorm UserAdmin.
Context `{Bcrypt} `{HMAC}.

(** The row UpdateUser reads back, the key being held by one stored user. *)
Lemma UpdatesUser_row (db : DB) (now : time.Time) (user : User.t)
    (req : UserUpdateRequest) (cond : User.t -> bool) :
  In user (users db) -> User.DeletedAt user = None ->
  cond (apply_updates req now user) = true ->
  (forall u, In u (users db) -> User.DeletedAt u = None ->
     User.ID u = User.ID user \/ cond u = true -> u = user) ->
  FirstUser
    (with_users
       (map (fun r => if is_null (User.DeletedAt r)
                         && (User.ID r =? User.ID user)
                      then apply_updates req now r else r) (users db))
       (users_seq db) db) cond
  = Some (apply_updates req now user).
Proof.
  intros Hin Hlive Hc Honly. unfold FirstUser. cbn [users with_users].
  apply first_by_all_eq.
  - intros x Hx. apply filter_In in Hx. destruct Hx as [Hx Hcx].
    apply in_map_iff in Hx. destruct Hx as [y [Hy Hyin]].
    apply andb_true_iff in Hcx. destruct Hcx as [Hd Hcx].
    destruct (is_null (User.DeletedAt y) && (User.ID y =? User.ID user))
      eqn:Hy'.
    + apply andb_true_iff in Hy'. destruct Hy' as [Hyl Hyid].
      apply Z.eqb_eq in Hyid.
      assert (Hyl' : User.DeletedAt y = None)
        by (destruct (User.DeletedAt y); [discriminate | reflexivity]).
      rewrite (Honly y Hyin Hyl' (or_introl Hyid)) in Hy.
      symmetry. exact Hy.
    + subst x.
      assert (Hyl' : User.DeletedAt y = None)
        by (destruct (User.DeletedAt y); [discriminate | reflexivity]).
      rewrite (Honly y Hyin Hyl' (or_intror Hcx)) in Hy'.
      rewrite Hlive, Z.eqb_refl in Hy'. discriminate.
  - intro Hnil.
    assert (Hr : In (apply_updates req now user)
              (filter (fun u => is_null (User.DeletedAt u) && cond u)
                 (map (fun r => if is_null (User.DeletedAt r)
                                   && (User.ID r =? User.ID user)
                                then apply_updates req now r else r)
                    (users db)))).
    { apply filter_In. split.
      - apply in_map_iff. exists user. split; [| exact Hin].
        rewrite Hlive, Z.eqb_refl. reflexivity.
      - rewrite Hc. cbn. rewrite Hlive. reflexivity. }
    rewrite Hnil in Hr. exact Hr.
Qed.

(** X18.  UpdateUser writes the role and the active flag of the request
    as they come, and the next Login goes by them.  For a request that
    leaves e-mail and user name alone, UpdateUser returns the updated row;
    a Login with the right password then fails with "account is
    deactivated" when the flag was set to false, and otherwise returns an
    HS256 token whose role claim is the role of the request.  UpdateUser
    takes no argument that says who is calling. *)
Theorem UpdateUser_then_Login (s : UserService) (db : DB)
    (now now' : time.Time) (id : Z) (user : User.t)
    (req : UserUpdateRequest) (password : string) :
  FirstUser db (fun u => User.ID u =? id) = Some user ->
  upd_Email req = None ->
  upd_Username req = None ->
  (forall u, In u (users db) -> User.DeletedAt u = None ->
     User.ID u = id \/ User.Email u = User.Email user -> u = user) ->
  User.CheckPassword user password = true ->
  let r := UpdateUser db now id req in
  let login := Login s (snd r) now' (mkLoginRequest (User.Email user) password) in
  fst r = inr (apply_updates req now user)
  /\ User.Role (apply_updates req now user)
     = or_else (upd_Role req) (User.Role user)
  /\ (or_else (upd_IsActive req) (User.IsActive user) = false ->
      login = (inl (errors_New "account is deactivated"), snd r))
  /\ (or_else (upd_IsActive req) (User.IsActive user) = true ->
      exists claims signature,
        login = (inr (mkLoginResponse
                        (utils.Compact (Some "HS256") claims signature)
                        (ToResponse (apply_updates req now user))), snd r)
        /\ utils.Role claims = or_else (upd_Role req) (User.Role user)
        /\ utils.UserID claims = id).
Proof.
  intros Hfind Hemail Hname Honly Hpw r login.
  pose proof (FirstUser_Some _ _ _ Hfind) as (Hin & Hlive & Hid).
  apply Z.eqb_eq in Hid.
  set (db' := with_users
                (map (fun r => if is_null (User.DeletedAt r)
                                  && (User.ID r =? User.ID user)
                               then apply_updates req now r else r) (users db))
                (users_seq db) db).
  assert (Hback : FirstUser db' (fun u => User.ID u =? id)
                  = Some (apply_updates req now user)).
  { apply UpdatesUser_row; try assumption.
    - cbn. apply Z.eqb_eq. exact Hid.
    - intros u Hu Hul [E | E]; apply (Honly u Hu Hul); left;
        [congruence | apply Z.eqb_eq; exact E]. }
  assert (Hr : r = (inr (apply_updates req now user), db')).
  { unfold r, UpdateUser. rewrite Hfind, Hemail, Hname.
    unfold UpdatesUser, update_conflict. rewrite Hemail, Hname.
    fold db'. rewrite Hback. reflexivity. }
  assert (Hmail : FirstUser db'
                    (fun u => String.eqb (User.Email u) (User.Email user))
                  = Some (apply_updates req now user)).
  { apply UpdatesUser_row; try assumption.
    - cbn. rewrite Hemail. cbn. apply String.eqb_refl.
    - intros u Hu Hul [E | E]; apply (Honly u Hu Hul);
        [left; congruence | right; apply String.eqb_eq; exact E]. }
  assert (Hlogin : login
                   = Login s db' now' (mkLoginRequest (User.Email user) password))
    by (unfold login; rewrite Hr; reflexivity).
  rewrite Hr. cbn [fst snd].
  split; [reflexivity |]. split; [reflexivity |].
  rewrite Hlogin. unfold Login. cbn [login_Email login_Password].
  rewrite Hmail.
  assert (Hact : User.IsActive (apply_updates req now user)
                 = or_else (upd_IsActive req) (User.IsActive user))
    by reflexivity.
  assert (Hsame : User.CheckPassword (apply_updates req now user) password
                  = User.CheckPassword user password) by reflexivity.
  rewrite Hact, Hsame, Hpw. split.
  - intros ->. reflexivity.
  - intros ->. cbn [negb].
    unfold JWTService.GenerateToken, JWTService.SignedString.
    eexists. eexists. split; [reflexivity |].
    split; [reflexivity | exact Hid].
Qed.

(** X19.  UpdateUser and an e-mail another user holds.  When the holder is
    a stored user the call answers "email already taken"; when the holder
    is a deleted user the check passes, the update runs into the unique
    index and the call answers "failed to update user".  Nothing is
    written in either case. *)
Theorem UpdateUser_email_conflict (db : DB) (now : time.Time) (id : Z)
    (user other : User.t) (req : UserUpdateRequest) (email : string) :
  FirstUser db (fun u => User.ID u =? id) = Some user ->
  upd_Email req = Some email ->
  In other (users db) ->
  User.ID other <> id ->
  User.Email other = email ->
  (User.DeletedAt other = None ->
   UpdateUser db now id req = (inl (errors_New "email already taken"), db))
  /\ ((forall u, In u (users db) -> User.DeletedAt u = None ->
         User.ID u <> id ->
         User.Email u <> email
         /\ (forall username, upd_Username req = Some username ->
               User.Username u <> username)) ->
      UpdateUser db now id req
      = (inl (fmt_Errorf "failed to update user" (ErrDuplicatedKey "email")),
         db)).
Proof.
  intros Hfind Hemail Hin Hne He.
  pose proof (FirstUser_Some _ _ _ Hfind) as (_ & _ & Hid).
  apply Z.eqb_eq in Hid.
  unfold UpdateUser. rewrite Hfind, Hemail. split.
  - intro Hlive.
    destruct (FirstUser_exists db
                (fun u => String.eqb (User.Email u) email
                          && negb (User.ID u =? id)) other Hin Hlive)
      as [v ->].
    + rewrite He, String.eqb_refl. cbn.
      apply negb_true_iff. apply Z.eqb_neq. exact Hne.
    + reflexivity.
  - intro Hfree.
    replace (FirstUser db (fun u => String.eqb (User.Email u) email
                                    && negb (User.ID u =? id)))
      with (@None User.t).
    2:{ symmetry. apply FirstUser_None. intros u Hu Hul.
        destruct (User.ID u =? id) eqn:E; [apply andb_false_r |].
        apply Z.eqb_neq in E. destruct (Hfree u Hu Hul E) as [Hue _].
        apply String.eqb_neq in Hue. rewrite Hue. reflexivity. }
    cbn [is_null negb].
    assert (Hname : match upd_Username req with
                    | Some username =>
                        negb (is_null
                                (FirstUser db
                                   (fun u => String.eqb (User.Username u) username
                                             && negb (User.ID u =? id))))
                    | None => false
                    end = false).
    { destruct (upd_Username req) as [username |] eqn:Hu; [| reflexivity].
      replace (FirstUser db _) with (@None User.t); [reflexivity |].
      symmetry. apply FirstUser_None. intros u Hu' Hul.
      destruct (User.ID u =? id) eqn:E; [apply andb_false_r |].
      apply Z.eqb_neq in E. destruct (Hfree u Hu' Hul E) as [_ Hun].
      specialize (Hun username eq_refl).
      apply String.eqb_neq in Hun. rewrite Hun. reflexivity. }
    rewrite Hname.
    unfold UpdatesUser, update_conflict. rewrite Hemail.
    replace (existsb _ (users db)) with true; [reflexivity |].
    symmetry. apply existsb_exists. exists other. split; [exact Hin |].
    rewrite Hid, He, String.eqb_refl.
    assert (En : (User.ID other =? id) = false) by (apply Z.eqb_neq; exact Hne).
    rewrite En. reflexivity.
Qed.

End UserUpdate.

Lemma Register_then_Login_witness :
  exists resp',
    @services.Login Example.plain_bcrypt Example.plain_hmac Example.svc
      (snd Example2.registered) (Example.t0 + time.Hour)
      (services.mkLoginRequest "root@x.com" "pw123456")
    = (inr resp', snd Example2.registered)
    /\ services.resp_Email (services.User_ resp') = "root@x.com".
Proof.
  destruct (@Register_then_Login Example.plain_bcrypt Example.plain_hmac
              Example.svc Example.db_empty (snd Example2.registered)
              Example.t0 (Example.t0 + time.Hour) "salt"
              Example.admin_request Example2.registered_resp
              plain_bcrypt_sound)
    as [resp' [E [_ [He _]]]]; [discriminate | reflexivity |].
  exists resp'. split; [exact E | exact He].
Defined.

Lemma Register_rejects_duplicates_witness :
  let req := services.mkUserCreateRequest "b@x.com" "newname" "pw999999"
               "B" "B" models.RoleUser in
  @services.Register Example.plain_bcrypt Example.plain_hmac Example.svc
    Example2.db_carol Example.t0 "salt" req
  = (inl (services.errors_New "user with this email already exists"),
     Example2.db_carol).
Proof.
  intro req.
  destruct (@Register_rejects_duplicates Example.plain_bcrypt
              Example.plain_hmac Example.svc Example2.db_carol Example.t0
              "salt" req Example.bob)
    as [_ [Hemail _]];
    [left; reflexivity | reflexivity | left; reflexivity |].
  apply Hemail.
  intros v [<- | [<- | []]] _ E; [reflexivity | discriminate E].
Defined.

Lemma Register_succeeds_once_witness :
  exists e,
    @services.Register Example.plain_bcrypt Example.plain_hmac Example.svc
      (snd Example2.registered) (Example.t0 + time.Hour) "salt2"
      Example2.second_request
    = (inl e, snd Example2.registered).
Proof.
  apply (@Register_succeeds_once Example.plain_bcrypt Example.plain_hmac
           Example.svc Example.db_empty (snd Example2.registered) Example.t0
           "salt" Example.admin_request Example2.registered_resp).
  reflexivity.
Defined.

Lemma DeleteUser_hides_the_user_witness :
  let db' := snd (UserAdmin.DeleteUser Example2.db_carol
                    (Example.t0 + time.Minute) 3) in
  UserAdmin.GetUserByID db' 3 = inl (services.errors_New "user not found")
  /\ @services.Login Example.plain_bcrypt Example.plain_hmac Example.svc db'
       (Example.t0 + time.Hour) (services.mkLoginRequest "c@x.com" "secret99")
     = (inl (services.errors_New "invalid email or password"), db').
Proof.
  intro db'.
  destruct (@DeleteUser_hides_the_user Example.plain_bcrypt Example.plain_hmac
              Example.svc Example2.db_carol db' (Example.t0 + time.Minute) 3
              eq_refl)
    as [Hget [_ [Hlogin _]]].
  split; [exact Hget |].
  apply Hlogin.
  intros u [<- | [<- | []]] _ E; [discriminate E | reflexivity].
Defined.

Lemma Register_after_DeleteUser_witness :
  let db' := snd (UserAdmin.DeleteUser Example2.db_carol
                    (Example.t0 + time.Minute) 3) in
  let req := services.mkUserCreateRequest "c@x.com" "carol2" "pw999999"
               "Carol" "C" models.RoleUser in
  exists cause,
    @services.Register Example.plain_bcrypt Example.plain_hmac Example.svc
      db' (Example.t0 + time.Hour) "salt" req
    = (inl (services.fmt_Errorf "failed to create user" cause), db').
Proof.
  intros db' req.
  apply (@Register_after_DeleteUser Example.plain_bcrypt Example.plain_hmac
           Example.svc Example2.db_carol db' (Example.t0 + time.Minute)
           (Example.t0 + time.Hour) "salt" 3 Example2.carol req
           eq_refl eq_refl eq_refl).
  intros u [<- | [<- | []]] _ Hne;
    [split; discriminate | elim Hne; reflexivity].
Defined.

Lemma ChangePassword_locks_the_account_out_witness :
  let db' := snd (@services.ChangePassword Example.plain_bcrypt Example.svc
                    Example2.db_carol (Example.t0 + time.Minute) 3
                    "secret99" "newpass1") in
  @services.Login Example.plain_bcrypt Example.plain_hmac Example.svc db'
    (Example.t0 + time.Hour) (services.mkLoginRequest "c@x.com" "newpass1")
  = (inl (services.errors_New "invalid email or password"), db').
Proof.
  intro db'.
  apply (@ChangePassword_locks_the_account_out Example.plain_bcrypt
           Example.plain_hmac Example.svc Example2.db_carol db'
           (Example.t0 + time.Minute) (Example.t0 + time.Hour) 3
           Example2.carol "secret99" "newpass1" "newpass1"
           eq_refl eq_refl eq_refl).
  intros u [<- | [<- | []]] _ E; [discriminate E | reflexivity].
Defined.

Lemma UpdateUser_then_Login_witness :
  let r := UserAdmin.UpdateUser Example2.db_carol (Example.t0 + time.Minute) 3
             Example2.promote in
  exists claims signature,
    @services.Login Example.plain_bcrypt Example.plain_hmac Example.svc
      (snd r) (Example.t0 + time.Hour)
      (services.mkLoginRequest "c@x.com" "secret99")
    = (inr (services.mkLoginResponse
              (utils.Compact (Some "HS256") claims signature)
              (services.ToResponse
                 (UserAdmin.apply_updates Example2.promote
                    (Example.t0 + time.Minute) Example2.carol))), snd r)
    /\ utils.Role claims = models.RoleAdmin.
Proof.
  intro r.
  destruct (@UpdateUser_then_Login Example.plain_bcrypt Example.plain_hmac
              Example.svc Example2.db_carol (Example.t0 + time.Minute)
              (Example.t0 + time.Hour) 3 Example2.carol Example2.promote
              "secret99" eq_refl eq_refl eq_refl)
    as [_ [_ [_ Hlogin]]].
  - intros u [<- | [<- | []]] _ [E | E];
      try reflexivity; discriminate E.
  - reflexivity.
  - destruct (Hlogin eq_refl) as [claims [signature [E [Hrole _]]]].
    exists claims, signature. split; [exact E | exact Hrole].
Defined.

Lemma UpdateUser_email_conflict_witness :
  UserAdmin.UpdateUser Example2.db_dave (Example.t0 + time.Minute) 3
    (Example2.take_email "b@x.com")
  = (inl (services.errors_New "email already taken"), Example2.db_dave)
  /\ UserAdmin.UpdateUser Example2.db_dave (Example.t0 + time.Minute) 3
       (Example2.take_email "d@x.com")
     = (inl (services.fmt_Errorf "failed to update user"
               (gorm.ErrDuplicatedKey "email")), Example2.db_dave).
Proof.
  split.
  - destruct (UpdateUser_email_conflict Example2.db_dave
                (Example.t0 + time.Minute) 3 Example2.carol Example.bob
                (Example2.take_email "b@x.com") "b@x.com" eq_refl eq_refl)
      as [Hlive _];
      [left; reflexivity | discriminate | reflexivity |].
    apply Hlive. reflexivity.
  - destruct (UpdateUser_email_conflict Example2.db_dave
                (Example.t0 + time.Minute) 3 Example2.carol Example2.dave
                (Example2.take_email "d@x.com") "d@x.com" eq_refl eq_refl)
      as [_ Hdeleted];
      [right; right; left; reflexivity | discriminate | reflexivity |].
    apply Hdeleted.
    intros u [<- | [<- | [<- | []]]] Hlive Hne.
    + split; [discriminate | intros username E; discriminate E].
    + elim Hne. reflexivity.
    + discriminate Hlive.
Defined.

(* ------------------------------------------------------------------ *)
(** * One-time codes: the queries beside VerifyOTP *)

Section CodeQueries.
Import services gorm OTP.

Lemma otp_matches_outstanding (now : time.Time) (userID : Z)
    (method : TwoFactorMethod) (providedOTP : string)
    (v : EmailVerification.t) :
  otp_matches now userID (verificationTypes method) providedOTP v = true ->
  otp_outstanding now userID v = true.
Proof.
  unfold otp_matches, otp_outstanding, verificationTypes.
  rewrite !andb_true_iff. intros [[[[[Hd Hu] Ht] _] He] Hn].
  repeat split; try assumption.
  destruct (String.eqb method TwoFactorMethodSMS); cbn in Ht;
    rewrite orb_false_r in Ht; rewrite Ht;
    [apply orb_true_r | reflexivity].
Qed.

Lemma IsOTPValid_false (db : DB) (now : time.Time) (userID : Z) :
  IsOTPValid db now userID = false <->
  filter (otp_outstanding now userID) (email_verifications db) = [].
Proof.
  unfold IsOTPValid.
  destruct (filter _ (email_verifications db)) as [| v rest].
  - split; reflexivity.
  - split; [| discriminate]. intro E. apply Z.ltb_ge in E.
    cbn [List.length] in E. lia.
Qed.

(** X20.  IsOTPValid, GetOTPExpiryTime and VerifyOTP look at the same
    rows.  IsOTPValid answers false exactly when GetOTPExpiryTime finds
    nothing; then VerifyOTP fails for every code and every method, and
    counts the failure.  A VerifyOTP that succeeds was preceded by an
    outstanding code: IsOTPValid answers true and GetOTPExpiryTime an
    expiry in the future. *)
Theorem OTP_queries_agree (db : DB) (now : time.Time) (userID : Z) :
  (IsOTPValid db now userID = false <->
   GetOTPExpiryTime db now userID = inl ErrRecordNotFound)
  /\ (IsOTPValid db now userID = false ->
      forall providedOTP method,
        VerifyOTP db now userID providedOTP method
        = ((false, Some ErrRecordNotFound),
           incrementFailedAttempts db now userID))
  /\ (forall providedOTP method,
        fst (fst (VerifyOTP db now userID providedOTP method)) = true ->
        IsOTPValid db now userID = true
        /\ exists expiry,
             GetOTPExpiryTime db now userID = inr expiry /\ now < expiry).
Proof.
  assert (Hfail : IsOTPValid db now userID = false ->
                  forall providedOTP method,
                    findOTP db now userID providedOTP method = None).
  { intros Hno providedOTP method. apply IsOTPValid_false in Hno.
    unfold findOTP. apply first_by_nil_iff. apply filter_nil_iff.
    intros v Hv.
    destruct (otp_matches now userID (verificationTypes method) providedOTP v)
      eqn:E; [| reflexivity].
    apply otp_matches_outstanding in E.
    rewrite filter_nil_iff in Hno. rewrite (Hno v Hv) in E. discriminate. }
  assert (Hexp : IsOTPValid db now userID = false <->
                 GetOTPExpiryTime db now userID = inl ErrRecordNotFound).
  { rewrite IsOTPValid_false. unfold GetOTPExpiryTime. split.
    - intros ->. reflexivity.
    - destruct (first_by otp_order _) as [v |] eqn:E; [discriminate |].
      intros _. apply first_by_nil_iff in E. exact E. }
  split; [exact Hexp |]. split.
  - intros Hno providedOTP method. unfold VerifyOTP.
    rewrite (Hfail Hno providedOTP method). reflexivity.
  - intros providedOTP method Hok.
    destruct (IsOTPValid db now userID) eqn:Hvalid.
    + split; [reflexivity |]. unfold GetOTPExpiryTime.
      destruct (first_by otp_order _) as [v |] eqn:E.
      * exists (EmailVerification.ExpiresAt v). split; [reflexivity |].
        apply first_by_filter in E. destruct E as [_ E].
        unfold otp_outstanding in E. rewrite !andb_true_iff in E.
        destruct E as [[_ E] _]. apply Z.ltb_lt. exact E.
      * apply first_by_nil_iff in E. apply IsOTPValid_false in E.
        congruence.
    + unfold VerifyOTP in Hok.
      rewrite (Hfail eq_refl providedOTP method) in Hok. discriminate.
Qed.

(** X21.  Which rows a method is checked against.  Every method other
    than "sms" (the e-mail method, "totp", any other string) is checked
    against the e-mail codes, exactly as the e-mail method is; a code that
    was stored for the other channel only is refused. *)
Theorem VerifyOTP_method_dispatch (db : DB) (now : time.Time) (userID : Z)
    (providedOTP : string) (method : TwoFactorMethod) :
  method <> TwoFactorMethodSMS ->
  VerifyOTP db now userID providedOTP method
  = VerifyOTP db now userID providedOTP TwoFactorMethodEmail
  /\ ((forall v, In v (email_verifications db) ->
         EmailVerification.UserID v = userID ->
         EmailVerification.Code v = providedOTP ->
         EmailVerification.Type_ v <> "otp") ->
      VerifyOTP db now userID providedOTP method
      = ((false, Some ErrRecordNotFound),
         incrementFailedAttempts db now userID))
  /\ ((forall v, In v (email_verifications db) ->
         EmailVerification.UserID v = userID ->
         EmailVerification.Code v = providedOTP ->
         EmailVerification.Type_ v <> "sms_otp") ->
      VerifyOTP db now userID providedOTP TwoFactorMethodSMS
      = ((false, Some ErrRecordNotFound),
         incrementFailedAttempts db now userID)).
Proof.
  intro Hm. apply String.eqb_neq in Hm.
  assert (Hnone : forall m ty,
            verificationTypes m = [ty] ->
            (forall v, In v (email_verifications db) ->
               EmailVerification.UserID v = userID ->
               EmailVerification.Code v = providedOTP ->
               EmailVerification.Type_ v <> ty) ->
            VerifyOTP db now userID providedOTP m
            = ((false, Some ErrRecordNotFound),
               incrementFailedAttempts db now userID)).
  { intros m ty Hty Hother. unfold VerifyOTP, findOTP. rewrite Hty.
    replace (filter _ (email_verifications db))
      with (@nil EmailVerification.t); [reflexivity |].
    symmetry. apply filter_nil_iff. intros v Hv.
    destruct (otp_matches now userID [ty] providedOTP v) eqn:E;
      [| reflexivity].
    pose proof (otp_matches_live _ _ _ _ _ E) as (_ & _ & Hu & Hc).
    unfold otp_matches in E. rewrite !andb_true_iff in E.
    destruct E as [[[[[_ _] Ht] _] _] _]. cbn in Ht.
    rewrite orb_false_r in Ht. apply String.eqb_eq in Ht.
    elim (Hother v Hv Hu Hc Ht). }
  split; [| split].
  - unfold VerifyOTP, findOTP, verificationTypes. rewrite Hm. reflexivity.
  - apply Hnone. unfold verificationTypes. rewrite Hm. reflexivity.
  - apply Hnone. reflexivity.
Qed.

(** X22.  ClearExpiredOTPs changes no answer.  At the time of the sweep
    and at any later time, VerifyOTP, IsOTPValid and GetOTPExpiryTime
    answer after the sweep what they answer without it; the swept rows
    stay in the table, marked deleted. *)
Theorem ClearExpiredOTPs_changes_no_answer (db : DB) (now t : time.Time)
    (userID : Z) (providedOTP : string) (method : TwoFactorMethod) :
  now <= t ->
  let db' := ClearExpiredOTPs db now in
  fst (VerifyOTP db' t userID providedOTP method)
  = fst (VerifyOTP db t userID providedOTP method)
  /\ findOTP db' t userID providedOTP method
     = findOTP db t userID providedOTP method
  /\ IsOTPValid db' t userID = IsOTPValid db t userID
  /\ GetOTPExpiryTime db' t userID = GetOTPExpiryTime db t userID
  /\ List.length (email_verifications db')
     = List.length (email_verifications db)
  /\ users db' = users db.
Proof.
  intros Hle db'.
  assert (Hfix : forall p : EmailVerification.t -> bool,
            (forall v, p v = true ->
               is_null (EmailVerification.DeletedAt v) = true
               /\ (t <? EmailVerification.ExpiresAt v) = true) ->
            filter p (email_verifications db')
            = filter p (email_verifications db)).
  { intros p Hp. unfold db', ClearExpiredOTPs.
    cbn [email_verifications with_email_verifications].
    apply filter_map_fix. intros r _.
    destruct (is_null (EmailVerification.DeletedAt r)
              && (String.eqb (EmailVerification.Type_ r) "otp"
                  || String.eqb (EmailVerification.Type_ r) "sms_otp")
              && (EmailVerification.ExpiresAt r <? now)) eqn:E;
      [| left; reflexivity].
    right. rewrite !andb_true_iff in E. destruct E as [_ E].
    apply Z.ltb_lt in E. split.
    - destruct (p r) eqn:Hr; [| reflexivity].
      destruct (Hp r Hr) as [_ Ht]. apply Z.ltb_lt in Ht. lia.
    - destruct (p (OTP.with_DeletedAt (Some now) r)) eqn:Hr; [| reflexivity].
      destruct (Hp _ Hr) as [Hd _]. discriminate Hd. }
  assert (Hfind : findOTP db' t userID providedOTP method
                  = findOTP db t userID providedOTP method).
  { unfold findOTP. rewrite Hfix; [reflexivity |].
    intros v Hv. unfold otp_matches in Hv. rewrite !andb_true_iff in Hv.
    destruct Hv as [[[[[Hd _] _] _] He] _]. split; assumption. }
  assert (Hout : filter (otp_outstanding t userID) (email_verifications db')
                 = filter (otp_outstanding t userID) (email_verifications db)).
  { apply Hfix. intros v Hv. unfold otp_outstanding in Hv.
    rewrite !andb_true_iff in Hv.
    destruct Hv as [[[[Hd _] _] He] _]. split; assumption. }
  split; [| split; [exact Hfind |]].
  - unfold VerifyOTP. rewrite Hfind.
    destruct (findOTP db t userID providedOTP method); reflexivity.
  - split; [unfold IsOTPValid; rewrite Hout; reflexivity |].
    split; [unfold GetOTPExpiryTime; rewrite Hout; reflexivity |].
    split; [| reflexivity].
    unfold db', ClearExpiredOTPs.
    cbn [email_verifications with_email_verifications]. apply length_map.
Qed.

End CodeQueries.

(* ------------------------------------------------------------------ *)
(** * The digits of a one-time code *)

Section CodeDigits.
Import OTP handlers.

Lemma string_length_app (s1 s2 : string) :
  String.length (s1 ++ s2) = (String.length s1 + String.length s2)%nat.
Proof.
  induction s1 as [| ch s1 IH]; cbn; [reflexivity | rewrite IH; reflexivity].
Qed.

Lemma parse_digits_app (s1 s2 : string) (acc : Z) :
  parse_digits acc (s1 ++ s2)
  = match parse_digits acc s1 with
    | Some a => parse_digits a s2
    | None => None
    end.
Proof.
  revert acc. induction s1 as [| ch s1 IH]; intro acc; cbn; [reflexivity |].
  destruct (is_digit ch); [apply IH | reflexivity].
Qed.

Lemma digit_parses (d acc : Z) :
  0 <= d < 10 ->
  parse_digits acc (String (digit d) EmptyString) = Some (10 * acc + d).
Proof.
  intro Hd.
  assert (E : d = 0 \/ d = 1 \/ d = 2 \/ d = 3 \/ d = 4 \/ d = 5 \/ d = 6
              \/ d = 7 \/ d = 8 \/ d = 9) by lia.
  assert (Hdigit : is_digit (digit d) = true
                   /\ Z.of_nat (nat_of_ascii (digit d)) = d + 48).
  { destruct E
      as [-> | [-> | [-> | [-> | [-> | [-> | [-> | [-> | [-> | ->]]]]]]]]];
      vm_compute; split; reflexivity. }
  destruct Hdigit as [Hd1 Hd2].
  cbn [parse_digits]. rewrite Hd1, Hd2. f_equal. lia.
Qed.

Lemma digits_parse (fuel : nat) :
  forall n acc,
    0 <= n < 10 ^ Z.of_nat fuel -> (0 < fuel)%nat ->
    parse_digits acc (digits fuel n)
    = Some (acc * 10 ^ Z.of_nat (String.length (digits fuel n)) + n).
Proof.
  induction fuel as [| fuel IH]; intros n acc Hn Hfuel; [lia |].
  cbn [digits]. destruct (n <? 10) eqn:E.
  - apply Z.ltb_lt in E. rewrite Z.mod_small by lia.
    rewrite digit_parses by lia. cbn [String.length]. f_equal.
    change (Z.of_nat 1) with 1. lia.
  - apply Z.ltb_ge in E.
    assert (Hfuel' : (0 < fuel)%nat).
    { destruct fuel; [cbn in Hn; lia | lia]. }
    assert (Hpow : 10 ^ Z.of_nat (S fuel) = 10 * 10 ^ Z.of_nat fuel).
    { rewrite Nat2Z.inj_succ, Z.pow_succ_r by lia. reflexivity. }
    assert (Hdiv : 0 <= n / 10 < 10 ^ Z.of_nat fuel).
    { split; [apply Z.div_pos; lia |].
      apply Z.div_lt_upper_bound; lia. }
    rewrite parse_digits_app, (IH (n / 10) acc Hdiv Hfuel').
    rewrite digit_parses by (apply Z.mod_pos_bound; lia).
    f_equal. rewrite string_length_app. cbn [String.length].
    rewrite Nat2Z.inj_add. change (Z.of_nat 1) with 1.
    rewrite Z.pow_add_r by lia. rewrite Z.pow_1_r.
    pose proof (Z.div_mod n 10 ltac:(lia)) as Hdm.
    set (k := 10 ^ Z.of_nat (String.length (digits fuel (n / 10)))).
    lia.
Qed.

Lemma digits_length (fuel : nat) :
  forall n width,
    0 <= n < 10 ^ Z.of_nat fuel -> (0 < fuel)%nat ->
    n < 10 ^ Z.of_nat width -> (0 < width)%nat ->
    (String.length (digits fuel n) <= width)%nat.
Proof.
  induction fuel as [| fuel IH]; intros n width Hn Hfuel Hw Hwidth; [lia |].
  cbn [digits]. destruct (n <? 10) eqn:E.
  - cbn [String.length]. lia.
  - apply Z.ltb_ge in E.
    assert (Hfuel' : (0 < fuel)%nat).
    { destruct fuel; [cbn in Hn; lia | lia]. }
    destruct width as [| width]; [lia |].
    assert (Hwidth' : (0 < width)%nat).
    { destruct width; [cbn in Hw; lia | lia]. }
    rewrite Nat2Z.inj_succ, Z.pow_succ_r in Hn, Hw by lia.
    rewrite string_length_app. cbn [String.length].
    assert (Hlen : (String.length (digits fuel (n / 10)) <= width)%nat).
    { apply IH; try assumption.
      - split; [apply Z.div_pos; lia | apply Z.div_lt_upper_bound; lia].
      - apply Z.div_lt_upper_bound; lia. }
    lia.
Qed.

Lemma decimal_fuel (n : Z) :
  0 <= n -> n < 10 ^ Z.of_nat (S (Z.to_nat (Z.log2 n))).
Proof.
  intro Hn. rewrite Nat2Z.inj_succ, Z2Nat.id by apply Z.log2_nonneg.
  destruct (Z.eq_dec n 0) as [-> | Hne]; [cbn; lia |].
  pose proof (Z.log2_spec n ltac:(lia)) as [_ Hup].
  apply Z.lt_le_trans with (2 ^ Z.succ (Z.log2 n)); [exact Hup |].
  apply Z.pow_le_mono_l. lia.
Qed.

Lemma repeat_char_length (ch : ascii) (k : nat) :
  String.length (repeat_char ch k) = k.
Proof.
  induction k as [| k IH]; cbn; [reflexivity | rewrite IH; reflexivity].
Qed.

Lemma zeros_parse (k : nat) (s : string) :
  parse_digits 0 (repeat_char "0" k ++ s) = parse_digits 0 s.
Proof.
  induction k as [| k IH]; [reflexivity |].
  cbn [repeat_char append parse_digits]. exact IH.
Qed.

(** X23.  The one-time code generateOTP returns for a draw below
    10^length has exactly [length] characters, all of them decimal
    digits, and reads back as the number drawn: short draws are padded
    with zeros on the left, none is cut. *)
Theorem generateOTP_format (length n : Z) :
  1 <= length ->
  0 <= n < 10 ^ length ->
  Z.of_nat (String.length (generateOTP length n)) = length
  /\ parse_digits 0 (generateOTP length n) = Some n.
Proof.
  intros Hlen Hn. unfold generateOTP, Sprintf_0star_d.
  assert (Hneg : (length <? 0) = false) by (apply Z.ltb_ge; lia).
  rewrite Hneg.
  pose proof (decimal_fuel n ltac:(lia)) as Hfuel.
  assert (Hshort : (String.length (decimal n) <= Z.to_nat length)%nat).
  { unfold decimal. apply digits_length; try lia.
    rewrite Z2Nat.id by lia. lia. }
  split.
  - rewrite string_length_app, repeat_char_length. lia.
  - rewrite zeros_parse. unfold decimal.
    rewrite digits_parse by lia. reflexivity.
Qed.

End CodeDigits.

Lemma generateOTP_format_witness :
  OTP.generateOTP 6 42 = "000042"
  /\ Z.of_nat (String.length (OTP.generateOTP 6 42)) = 6
  /\ handlers.parse_digits 0 (OTP.generateOTP 6 42) = Some 42.
Proof.
  split; [reflexivity |].
  apply (generateOTP_format 6 42); [lia | split; [lia | reflexivity]].
Defined.

(* ------------------------------------------------------------------ *)
(** * Sessions: creation, refresh, invalidation and cleanup *)

Section SessionLifecycle.
Import services gorm Sessions.

Lemma is_null_None {A : Type} (o : option A) : is_null o = true -> o = None.
Proof. destruct o; [discriminate | reflexivity]. Qed.

(** ValidateSession answers by the rows its WHERE clause accepts. *)
Lemma ValidateSession_fst (db db' : DB) (t : time.Time) (token : string) :
  filter (fun s => is_null (UserSession.DeletedAt s)
                   && String.eqb (UserSession.Token s) token
                   && Bool.eqb (UserSession.IsActive s) true
                   && (t <? UserSession.ExpiresAt s)) (user_sessions db')
  = filter (fun s => is_null (UserSession.DeletedAt s)
                     && String.eqb (UserSession.Token s) token
                     && Bool.eqb (UserSession.IsActive s) true
                     && (t <? UserSession.ExpiresAt s)) (user_sessions db) ->
  fst (ValidateSession db' t token) = fst (ValidateSession db t token).
Proof.
  intro E. unfold ValidateSession. rewrite E.
  destruct (first_by session_by_id _); reflexivity.
Qed.

(** The row Save writes for a stored session is in the table afterwards. *)
Lemma SaveUserSession_In (db : DB) (t : time.Time) (s : UserSession.t) :
  In s (user_sessions db) ->
  UserSession.DeletedAt s = None ->
  In (UserSession.with_UpdatedAt t s)
     (user_sessions (SaveUserSession db t (UserSession.with_UpdatedAt t s))).
Proof.
  intros Hin Hlive. unfold SaveUserSession.
  cbn [user_sessions with_user_sessions]. apply in_map_iff.
  exists s. split; [| exact Hin].
  cbn [UserSession.with_UpdatedAt UserSession.ID].
  rewrite Hlive, String.eqb_refl. reflexivity.
Qed.

(** X24.  A session CreateSession has made, under a token no row holds
    yet, validates under that token for 24 hours and not a moment longer:
    at every time before creation plus 24 hours ValidateSession returns
    it, with updated-at set to the time of the call and the other columns
    as created, and the table then holds that updated row; from creation
    plus 24 hours on it returns the not-found error. *)
Theorem CreateSession_then_ValidateSession (db db' : DB) (now t : time.Time)
    (id token userID ipAddress userAgent : string) (session : UserSession.t) :
  CreateSession db now id (Some token) userID ipAddress userAgent
  = (inr session, db') ->
  (forall r, In r (user_sessions db) -> UserSession.Token r <> token) ->
  UserSession.UserID session = userID
  /\ UserSession.ExpiresAt session = now + 24 * time.Hour
  /\ (t < now + 24 * time.Hour ->
      exists validated db'',
        ValidateSession db' t token = (inr validated, db'')
        /\ UserSession.UpdatedAt validated = t
        /\ UserSession.ID validated = id
        /\ UserSession.UserID validated = userID
        /\ UserSession.Token validated = token
        /\ UserSession.IsActive validated = true
        /\ UserSession.CreatedAt validated = now
        /\ UserSession.ExpiresAt validated = now + 24 * time.Hour
        /\ UserSession.LastSeen validated = UserSession.LastSeen session
        /\ In validated (user_sessions db''))
  /\ (now + 24 * time.Hour <= t ->
      ValidateSession db' t token = (inl ErrRecordNotFound, db'))
  /\ IsUserSessionActive db' now userID = true.
Proof.
  unfold CreateSession.
  destruct (existsb _ (user_sessions db)); [discriminate |].
  intros E Hfresh.
  set (s := UserSession.mk id userID token ipAddress userAgent true 0 now
              now (time.Add now (24 * time.Hour)) None) in *.
  assert (Es : session = s) by congruence.
  assert (Edb : db' = with_user_sessions (user_sessions db ++ [s]) db)
    by congruence.
  subst session db'. clear E.
  assert (Hold : forall (p : UserSession.t -> bool),
            (forall r, p r = true ->
               String.eqb (UserSession.Token r) token = true) ->
            filter p (user_sessions db) = []).
  { intros p Hp. apply filter_nil_iff. intros r Hr.
    destruct (p r) eqn:Hpr; [| reflexivity].
    apply Hp in Hpr. apply String.eqb_eq in Hpr.
    elim (Hfresh r Hr Hpr). }
  assert (Hd : UserSession.DeletedAt s = None) by reflexivity.
  assert (Htok : UserSession.Token s = token) by reflexivity.
  assert (Ha : UserSession.IsActive s = true) by reflexivity.
  assert (Hu : UserSession.UserID s = userID) by reflexivity.
  assert (Hi : UserSession.ID s = id) by reflexivity.
  assert (Hc : UserSession.CreatedAt s = now) by reflexivity.
  assert (He : UserSession.ExpiresAt s = now + 24 * time.Hour)
    by reflexivity.
  clearbody s.
  split; [exact Hu |]. split; [exact He |].
  split; [| split].
  - intro Ht.
    exists (UserSession.with_UpdatedAt t s),
      (SaveUserSession
         (with_user_sessions (user_sessions db ++ [s])%list db) t
         (UserSession.with_UpdatedAt t s)).
    pose proof (with_UpdatedAt_fields t s) as Hf. cbv zeta in Hf.
    destruct Hf as (Hfu & Hfl & Hfi & Hfuid & Hft & _ & _ & Hfa & Hfc
                    & Hfe & _).
    split.
    { unfold ValidateSession.
      cbn [user_sessions with_user_sessions]. rewrite filter_app, Hold.
      2:{ intros r Hr. rewrite !andb_true_iff in Hr. apply Hr. }
      cbn [filter app]. rewrite Hd, Htok, Ha, He, String.eqb_refl.
      apply Z.ltb_lt in Ht. rewrite Ht. reflexivity. }
    split; [exact Hfu |]. split; [congruence |]. split; [congruence |].
    split; [congruence |]. split; [congruence |]. split; [congruence |].
    split; [congruence |]. split; [exact Hfl |].
    apply SaveUserSession_In; [| exact Hd].
    cbn [user_sessions with_user_sessions]. apply in_or_app.
    right. left. reflexivity.
  - intro Ht. apply ValidateSession_not_found.
    cbn [user_sessions with_user_sessions]. intros x Hx.
    apply in_app_or in Hx. destruct Hx as [Hx | [<- | []]].
    + pose proof (Hfresh x Hx) as Hx'. apply String.eqb_neq in Hx'.
      rewrite Hx'. rewrite andb_false_r. reflexivity.
    + rewrite He. apply Z.ltb_ge in Ht. rewrite Ht. apply andb_false_r.
  - unfold IsUserSessionActive.
    cbn [user_sessions with_user_sessions]. rewrite filter_app, length_app.
    cbn [filter]. rewrite Hd, Hu, Ha, He, String.eqb_refl.
    assert (Hpos : (now <? now + 24 * time.Hour) = true)
      by (apply Z.ltb_lt; unfold time.Hour, time.Minute, time.Second; lia).
    rewrite Hpos. cbn [is_null andb Bool.eqb List.length].
    apply Z.ltb_lt. lia.
Qed.

(** X25.  RefreshSession does not look at the expiry.  A session that has
    run out, and that ValidateSession refuses, validates again after a
    RefreshSession on its token, for another 24 hours from the refresh.
    The session is taken to be active and its token to be its own. *)
Theorem RefreshSession_revives_expired (db : DB) (now t : time.Time)
    (s : UserSession.t) :
  In s (user_sessions db) ->
  UserSession.DeletedAt s = None ->
  UserSession.IsActive s = true ->
  (forall s', In s' (user_sessions db) ->
     UserSession.Token s' = UserSession.Token s -> s' = s) ->
  UserSession.ExpiresAt s <= now ->
  t < now + 24 * time.Hour ->
  ValidateSession db now (UserSession.Token s) = (inl ErrRecordNotFound, db)
  /\ fst (ValidateSession (RefreshSession db now (UserSession.Token s)) t
            (UserSession.Token s))
     = inr (UserSession.with_UpdatedAt t
              (UserSession.with_UpdatedAt now
                 (with_ExpiresAt (now + 24 * time.Hour) s))).
Proof.
  intros Hin Hlive Hact Honly Hexp Ht. split.
  - apply ValidateSession_not_found. intros x Hx.
    destruct (String.eqb (UserSession.Token x) (UserSession.Token s)) eqn:E.
    + apply String.eqb_eq in E. rewrite (Honly x Hx E).
      assert (Hno : (now <? UserSession.ExpiresAt s) = false)
        by (apply Z.ltb_ge; exact Hexp).
      rewrite Hno. apply andb_false_r.
    + rewrite andb_false_r. reflexivity.
  - set (row := UserSession.with_UpdatedAt now
                  (with_ExpiresAt (now + 24 * time.Hour) s)).
    unfold ValidateSession.
    replace (first_by session_by_id _) with (Some row); [reflexivity |].
    symmetry. apply first_by_all_eq.
    + intros x Hx. apply filter_In in Hx. destruct Hx as [Hx Hc].
      unfold RefreshSession in Hx. cbn [user_sessions with_user_sessions] in Hx.
      apply in_map_iff in Hx. destruct Hx as [y [Hy Hyin]].
      assert (Hty : UserSession.Token x = UserSession.Token y).
      { destruct (is_null (UserSession.DeletedAt y)
                  && String.eqb (UserSession.Token y) (UserSession.Token s)
                  && Bool.eqb (UserSession.IsActive y) true);
          subst x; reflexivity. }
      rewrite !andb_true_iff in Hc. destruct Hc as [[[_ Htok] _] _].
      apply String.eqb_eq in Htok. rewrite Hty in Htok.
      rewrite (Honly y Hyin Htok) in Hy.
      rewrite Hlive, String.eqb_refl, Hact in Hy. symmetry. exact Hy.
    + intro Hnil.
      assert (Hr : In row
                (filter (fun s0 => is_null (UserSession.DeletedAt s0)
                           && String.eqb (UserSession.Token s0)
                                (UserSession.Token s)
                           && Bool.eqb (UserSession.IsActive s0) true
                           && (t <? UserSession.ExpiresAt s0))
                   (user_sessions
                      (RefreshSession db now (UserSession.Token s))))).
      { apply filter_In. split.
        - unfold RefreshSession. cbn [user_sessions with_user_sessions].
          apply in_map_iff. exists s. split; [| exact Hin].
          rewrite Hlive, String.eqb_refl, Hact. reflexivity.
        - unfold row, UserSession.with_UpdatedAt, with_ExpiresAt.
          cbn [UserSession.DeletedAt UserSession.Token UserSession.IsActive
               UserSession.ExpiresAt].
          rewrite Hlive, String.eqb_refl, Hact.
          apply Z.ltb_lt in Ht. rewrite Ht. reflexivity. }
      rewrite Hnil in Hr. exact Hr.
Qed.

(** X26.  InvalidateSession is final.  After it no ValidateSession on the
    token succeeds, at any time, and a RefreshSession on the token does
    not bring the session back; sessions under other tokens are
    validated as before. *)
Theorem InvalidateSession_is_final (db : DB) (now t1 t2 : time.Time)
    (token other : string) :
  let db' := InvalidateSession db now token in
  ValidateSession db' t2 token = (inl ErrRecordNotFound, db')
  /\ user_sessions (RefreshSession db' t1 token) = user_sessions db'
  /\ ValidateSession (RefreshSession db' t1 token) t2 token
     = (inl ErrRecordNotFound, RefreshSession db' t1 token)
  /\ (other <> token ->
      fst (ValidateSession db' t2 other) = fst (ValidateSession db t2 other)).
Proof.
  intro db'.
  assert (Hdead : forall x, In x (user_sessions db') ->
            is_null (UserSession.DeletedAt x)
            && String.eqb (UserSession.Token x) token
            && Bool.eqb (UserSession.IsActive x) true = false).
  { intros x Hx. unfold db', InvalidateSession in Hx.
    cbn [user_sessions with_user_sessions] in Hx.
    apply in_map_iff in Hx. destruct Hx as [y [Hy _]].
    destruct (is_null (UserSession.DeletedAt y)
              && String.eqb (UserSession.Token y) token) eqn:E.
    - subst x. cbn. apply andb_false_r.
    - subst x. rewrite E. reflexivity. }
  assert (Hsame : RefreshSession db' t1 token
                  = with_user_sessions (user_sessions db') db').
  { unfold RefreshSession. f_equal.
    rewrite <- (map_id (user_sessions db')) at 2.
    apply map_ext_in. intros x Hx. rewrite (Hdead x Hx). reflexivity. }
  split; [| split; [rewrite Hsame; reflexivity | split]].
  - apply ValidateSession_not_found. intros x Hx.
    rewrite (Hdead x Hx). reflexivity.
  - apply ValidateSession_not_found. rewrite Hsame.
    cbn [user_sessions with_user_sessions]. intros x Hx.
    rewrite (Hdead x Hx). reflexivity.
  - intro Hne. apply ValidateSession_fst.
    unfold db', InvalidateSession. cbn [user_sessions with_user_sessions].
    apply filter_map_fix. intros r _.
    destruct (is_null (UserSession.DeletedAt r)
              && String.eqb (UserSession.Token r) token) eqn:E;
      [| left; reflexivity].
    right. rewrite andb_true_iff in E. destruct E as [_ E].
    apply String.eqb_eq in E. cbn. rewrite E.
    assert (En : String.eqb token other = false).
    { apply String.eqb_neq. congruence. }
    rewrite En, !andb_false_r. split; reflexivity.
Qed.

(** X27.  InvalidateUserSessionsExcept ends the other sessions of the
    user and spares the one named: a token other than the excepted one,
    held by sessions of that user only, validates no more; the excepted
    token is validated as before. *)
Theorem InvalidateUserSessionsExcept_spares_one (db : DB) (now t : time.Time)
    (userID exceptToken token : string) :
  token <> exceptToken ->
  (forall r, In r (user_sessions db) -> UserSession.Token r = token ->
     UserSession.UserID r = userID) ->
  let db' := InvalidateUserSessionsExcept db now userID exceptToken in
  ValidateSession db' t token = (inl ErrRecordNotFound, db')
  /\ fst (ValidateSession db' t exceptToken)
     = fst (ValidateSession db t exceptToken).
Proof.
  intros Hne Hown db'. split.
  - apply ValidateSession_not_found. intros x Hx.
    unfold db', InvalidateUserSessionsExcept in Hx.
    cbn [user_sessions with_user_sessions] in Hx.
    apply in_map_iff in Hx. destruct Hx as [y [Hy Hyin]].
    destruct (is_null (UserSession.DeletedAt y)
              && String.eqb (UserSession.UserID y) userID
              && negb (String.eqb (UserSession.Token y) exceptToken)
              && Bool.eqb (UserSession.IsActive y) true) eqn:E.
    + subst x. cbn. rewrite !andb_false_r. reflexivity.
    + subst x.
      destruct (String.eqb (UserSession.Token y) token) eqn:Et;
        [| rewrite !andb_false_r; reflexivity].
      apply String.eqb_eq in Et.
      assert (Eu : String.eqb (UserSession.UserID y) userID = true)
        by (apply String.eqb_eq; apply Hown; assumption).
      assert (Ex : String.eqb (UserSession.Token y) exceptToken = false)
        by (apply String.eqb_neq; congruence).
      rewrite Eu, Ex in E. cbn [negb] in E.
      rewrite !andb_true_r in E.
      destruct (is_null (UserSession.DeletedAt y)); [| reflexivity].
      cbn [andb] in E |- *. rewrite E. reflexivity.
  - apply ValidateSession_fst.
    unfold db', InvalidateUserSessionsExcept.
    cbn [user_sessions with_user_sessions].
    apply filter_map_fix. intros r _.
    destruct (is_null (UserSession.DeletedAt r)
              && String.eqb (UserSession.UserID r) userID
              && negb (String.eqb (UserSession.Token r) exceptToken)
              && Bool.eqb (UserSession.IsActive r) true) eqn:E;
      [| left; reflexivity].
    right. rewrite !andb_true_iff in E. destruct E as [[[_ _] E] _].
    apply negb_true_iff in E. cbn. rewrite E, !andb_false_r.
    split; reflexivity.
Qed.

(** X28.  CleanupExpiredSessions changes no answer.  At the time of the
    sweep and at any later time, ValidateSession and IsUserSessionActive
    answer after the sweep what they answer without it; the swept rows
    stay in the table, marked deleted, and a RefreshSession no longer
    reaches them. *)
Theorem CleanupExpiredSessions_changes_no_answer (db : DB) (now t : time.Time)
    (token userID : string) :
  now <= t ->
  let db' := CleanupExpiredSessions db now in
  fst (ValidateSession db' t token) = fst (ValidateSession db t token)
  /\ IsUserSessionActive db' t userID = IsUserSessionActive db t userID
  /\ List.length (user_sessions db') = List.length (user_sessions db)
  /\ (forall s, In s (user_sessions db) ->
        UserSession.ExpiresAt s < now ->
        (forall s', In s' (user_sessions db) ->
           UserSession.Token s' = UserSession.Token s -> s' = s) ->
        forall t1 t2,
          ValidateSession (RefreshSession db' t1 (UserSession.Token s)) t2
            (UserSession.Token s)
          = (inl ErrRecordNotFound,
             RefreshSession db' t1 (UserSession.Token s))).
Proof.
  intros Hle db'.
  assert (Hfix : forall p : UserSession.t -> bool,
            (forall s, p s = true ->
               is_null (UserSession.DeletedAt s) = true
               /\ Bool.eqb (UserSession.IsActive s) true = true
               /\ (t <? UserSession.ExpiresAt s) = true) ->
            filter p (user_sessions db') = filter p (user_sessions db)).
  { intros p Hp. unfold db', CleanupExpiredSessions.
    cbn [user_sessions with_user_sessions].
    apply filter_map_fix. intros r _.
    destruct (is_null (UserSession.DeletedAt r)
              && ((UserSession.ExpiresAt r <? now)
                  || Bool.eqb (UserSession.IsActive r) false)) eqn:E;
      [| left; reflexivity].
    right. rewrite andb_true_iff, orb_true_iff in E. destruct E as [_ E].
    split.
    - destruct (p r) eqn:Hr; [| reflexivity].
      destruct (Hp r Hr) as (_ & Ha & Ht). apply Z.ltb_lt in Ht.
      destruct E as [E | E].
      + apply Z.ltb_lt in E. lia.
      + destruct (UserSession.IsActive r); discriminate.
    - destruct (p (Sessions.with_DeletedAt (Some now) r)) eqn:Hr;
        [| reflexivity].
      destruct (Hp _ Hr) as (Hd & _). discriminate Hd. }
  split; [| split; [| split]].
  - apply ValidateSession_fst. apply Hfix. intros s Hs.
    rewrite !andb_true_iff in Hs. destruct Hs as [[[Hd _] Ha] Ht].
    repeat split; assumption.
  - unfold IsUserSessionActive. rewrite Hfix; [reflexivity |].
    intros s Hs. rewrite !andb_true_iff in Hs.
    destruct Hs as [[[Hd _] Ha] Ht]. repeat split; assumption.
  - unfold db', CleanupExpiredSessions.
    cbn [user_sessions with_user_sessions]. apply length_map.
  - intros s Hin Hexp Honly t1 t2. apply ValidateSession_not_found.
    intros x Hx. unfold RefreshSession in Hx.
    cbn [user_sessions with_user_sessions] in Hx.
    apply in_map_iff in Hx. destruct Hx as [y [Hy Hyin]].
    unfold db', CleanupExpiredSessions in Hyin.
    cbn [user_sessions with_user_sessions] in Hyin.
    apply in_map_iff in Hyin. destruct Hyin as [z [Hz Hzin]].
    destruct (String.eqb (UserSession.Token z) (UserSession.Token s)) eqn:Et.
    + apply String.eqb_eq in Et. rewrite (Honly z Hzin Et) in Hz.
      assert (Hy' : UserSession.DeletedAt y <> None).
      { apply Z.ltb_lt in Hexp. rewrite Hexp in Hz. cbn [orb] in Hz.
        rewrite andb_true_r in Hz.
        destruct (UserSession.DeletedAt s) eqn:Hd; cbn in Hz; subst y;
          cbn; [rewrite Hd |]; discriminate. }
      assert (Hyd : is_null (UserSession.DeletedAt y) = false)
        by (destruct (UserSession.DeletedAt y); [reflexivity | congruence]).
      rewrite Hyd in Hy. cbn [andb] in Hy. subst x. rewrite Hyd. reflexivity.
    + assert (Hty : UserSession.Token y = UserSession.Token z).
      { destruct (is_null (UserSession.DeletedAt z)
                  && ((UserSession.ExpiresAt z <? now)
                      || Bool.eqb (UserSession.IsActive z) false));
          subst y; reflexivity. }
      assert (Htx : UserSession.Token x = UserSession.Token y).
      { destruct (is_null (UserSession.DeletedAt y)
                  && String.eqb (UserSession.Token y) (UserSession.Token s)
                  && Bool.eqb (UserSession.IsActive y) true);
          subst x; reflexivity. }
      rewrite Htx, Hty, Et, !andb_false_r. reflexivity.
Qed.

(** X29.  After InvalidateUserSessions the user has no active session,
    at any time; the answer for every other user is as before. *)
Theorem InvalidateUserSessions_ends_activity (db : DB) (now t : time.Time)
    (userID other : string) :
  let db' := InvalidateUserSessions db now userID in
  IsUserSessionActive db' t userID = false
  /\ (other <> userID ->
      IsUserSessionActive db' t other = IsUserSessionActive db t other).
Proof.
  intro db'. split.
  - unfold IsUserSessionActive.
    replace (filter _ (user_sessions db')) with (@nil UserSession.t);
      [reflexivity |].
    symmetry. apply filter_nil_iff. intros x Hx.
    unfold db', InvalidateUserSessions in Hx.
    cbn [user_sessions with_user_sessions] in Hx.
    apply in_map_iff in Hx. destruct Hx as [y [Hy _]].
    destruct (is_null (UserSession.DeletedAt y)
              && String.eqb (UserSession.UserID y) userID
              && Bool.eqb (UserSession.IsActive y) true) eqn:E.
    + subst x. cbn. rewrite !andb_false_r. reflexivity.
    + subst x. rewrite E. reflexivity.
  - intro Hne. unfold IsUserSessionActive. f_equal. f_equal. f_equal.
    unfold db', InvalidateUserSessions.
    cbn [user_sessions with_user_sessions].
    apply filter_map_fix. intros r _.
    destruct (is_null (UserSession.DeletedAt r)
              && String.eqb (UserSession.UserID r) userID
              && Bool.eqb (UserSession.IsActive r) true) eqn:E;
      [| left; reflexivity].
    right. rewrite !andb_true_iff in E. destruct E as [[_ E] _].
    apply String.eqb_eq in E. cbn. rewrite E.
    assert (En : String.eqb userID other = false)
      by (apply String.eqb_neq; congruence).
    rewrite En, !andb_false_r. split; reflexivity.
Qed.

End SessionLifecycle.

Lemma OTP_queries_agree_witness :
  OTP.IsOTPValid Example2.db_codes Example.t0 1 = true
  /\ exists expiry,
       OTP.GetOTPExpiryTime Example2.db_codes Example.t0 1 = inr expiry
       /\ Example.t0 < expiry.
Proof.
  destruct (OTP_queries_agree Example2.db_codes Example.t0 1) as [_ [_ Hok]].
  apply (Hok "123456" services.TwoFactorMethodEmail). reflexivity.
Defined.

Lemma VerifyOTP_method_dispatch_witness :
  services.VerifyOTP Example2.db_sms Example.t0 1 "111111"
    services.TwoFactorMethodTOTP
  = ((false, Some gorm.ErrRecordNotFound),
     services.incrementFailedAttempts Example2.db_sms Example.t0 1)
  /\ services.VerifyOTP Example2.db_codes Example.t0 1 "123456"
       services.TwoFactorMethodTOTP
     = services.VerifyOTP Example2.db_codes Example.t0 1 "123456"
         services.TwoFactorMethodEmail
  /\ fst (services.VerifyOTP Example2.db_codes Example.t0 1 "123456"
            services.TwoFactorMethodTOTP)
     = (true, None).
Proof.
  split; [| split; [| reflexivity]].
  - destruct (VerifyOTP_method_dispatch Example2.db_sms Example.t0 1
                "111111" services.TwoFactorMethodTOTP)
      as [_ [Hfail _]]; [discriminate |].
    apply Hfail.
    intros v [<- | []] _ _. discriminate.
  - destruct (VerifyOTP_method_dispatch Example2.db_codes Example.t0 1
                "123456" services.TwoFactorMethodTOTP)
      as [Hsame _]; [discriminate |].
    exact Hsame.
Defined.

Lemma ClearExpiredOTPs_changes_no_answer_witness :
  fst (services.VerifyOTP (OTP.ClearExpiredOTPs Example2.db_codes Example.t0)
         (Example.t0 + time.Minute) 1 "123456" services.TwoFactorMethodEmail)
  = (true, None)
  /\ fst (services.VerifyOTP (OTP.ClearExpiredOTPs Example2.db_old Example.t0)
            (Example.t0 + time.Minute) 1 "222222"
            services.TwoFactorMethodEmail)
     = (false, Some gorm.ErrRecordNotFound).
Proof.
  split.
  - destruct (ClearExpiredOTPs_changes_no_answer Example2.db_codes Example.t0
                (Example.t0 + time.Minute) 1 "123456"
                services.TwoFactorMethodEmail)
      as [Hsame _].
    + vm_compute. intro E. discriminate E.
    + rewrite Hsame. reflexivity.
  - destruct (ClearExpiredOTPs_changes_no_answer Example2.db_old Example.t0
                (Example.t0 + time.Minute) 1 "222222"
                services.TwoFactorMethodEmail)
      as [Hsame _].
    + vm_compute. intro E. discriminate E.
    + rewrite Hsame. reflexivity.
Defined.

Lemma CreateSession_then_ValidateSession_witness :
  (exists validated db'',
     services.ValidateSession (snd Example2.created)
       (Example.t0 + time.Hour) "tok-9" = (inr validated, db'')
     /\ UserSession.UpdatedAt validated = Example.t0 + time.Hour
     /\ UserSession.ID validated = "s-9"
     /\ In validated (gorm.user_sessions db''))
  /\ services.ValidateSession (snd Example2.created)
       (Example.t0 + 24 * time.Hour) "tok-9"
     = (inl gorm.ErrRecordNotFound, snd Example2.created).
Proof.
  assert (Hfresh : forall r, In r (gorm.user_sessions Example.db_sessions) ->
            UserSession.Token r <> "tok-9").
  { intros r [<- | [<- | []]]; discriminate. }
  split.
  - destruct (CreateSession_then_ValidateSession Example.db_sessions
                (snd Example2.created) Example.t0 (Example.t0 + time.Hour)
                "s-9" "tok-9" "u-1" "10.0.0.9" "curl" Example2.session9
                eq_refl Hfresh)
      as [_ [_ [Hvalid _]]].
    destruct Hvalid as (validated & db'' & E & Hu & Hi & Hrest);
      [vm_compute; reflexivity |].
    exists validated, db''. split; [exact E |]. split; [exact Hu |].
    split; [exact Hi |]. apply Hrest.
  - destruct (CreateSession_then_ValidateSession Example.db_sessions
                (snd Example2.created) Example.t0
                (Example.t0 + 24 * time.Hour)
                "s-9" "tok-9" "u-1" "10.0.0.9" "curl" Example2.session9
                eq_refl Hfresh)
      as [_ [_ [_ [Hgone _]]]].
    apply Hgone. vm_compute. intro E. discriminate E.
Defined.

Lemma RefreshSession_revives_expired_witness :
  let now := Example.t0 + 25 * time.Hour in
  services.ValidateSession Example2.db_sessions3 now "tok-3"
  = (inl gorm.ErrRecordNotFound, Example2.db_sessions3)
  /\ fst (services.ValidateSession
            (Sessions.RefreshSession Example2.db_sessions3 now "tok-3")
            (now + time.Hour) "tok-3")
     = inr (UserSession.with_UpdatedAt (now + time.Hour)
              (UserSession.with_UpdatedAt now
                 (Sessions.with_ExpiresAt (now + 24 * time.Hour)
                    Example2.session3))).
Proof.
  intro now.
  apply (RefreshSession_revives_expired Example2.db_sessions3 now
           (now + time.Hour) Example2.session3).
  - right. right. left. reflexivity.
  - reflexivity.
  - reflexivity.
  - intros s' [<- | [<- | [<- | []]]] E; try reflexivity; discriminate E.
  - vm_compute. intro E. discriminate E.
  - vm_compute. reflexivity.
Defined.

Lemma InvalidateSession_is_final_witness :
  let db' := Sessions.InvalidateSession Example2.db_sessions3 Example.t0
               "tok-1" in
  services.ValidateSession db' (Example.t0 + time.Hour) "tok-1"
  = (inl gorm.ErrRecordNotFound, db')
  /\ fst (services.ValidateSession db' (Example.t0 + time.Hour) "tok-2")
     = fst (services.ValidateSession Example2.db_sessions3
              (Example.t0 + time.Hour) "tok-2").
Proof.
  intro db'.
  destruct (InvalidateSession_is_final Example2.db_sessions3 Example.t0
              (Example.t0 + time.Minute) (Example.t0 + time.Hour)
              "tok-1" "tok-2")
    as [Hdead [_ [_ Hother]]].
  split; [exact Hdead | apply Hother; discriminate].
Defined.

Lemma InvalidateUserSessionsExcept_spares_one_witness :
  let db' := Sessions.InvalidateUserSessionsExcept Example2.db_sessions3
               Example.t0 "u-1" "tok-1" in
  services.ValidateSession db' (Example.t0 + time.Hour) "tok-3"
  = (inl gorm.ErrRecordNotFound, db')
  /\ fst (services.ValidateSession db' (Example.t0 + time.Hour) "tok-1")
     = fst (services.ValidateSession Example2.db_sessions3
              (Example.t0 + time.Hour) "tok-1").
Proof.
  intro db'.
  apply (InvalidateUserSessionsExcept_spares_one Example2.db_sessions3
           Example.t0 (Example.t0 + time.Hour) "u-1" "tok-1" "tok-3").
  - discriminate.
  - intros r [<- | [<- | [<- | []]]] E; try reflexivity; discriminate E.
Defined.

Lemma CleanupExpiredSessions_changes_no_answer_witness :
  let now := Example.t0 + 25 * time.Hour in
  fst (services.ValidateSession
         (Sessions.CleanupExpiredSessions Example2.db_sessions3 now)
         (now + time.Hour) "tok-1")
  = inl gorm.ErrRecordNotFound
  /\ List.length (gorm.user_sessions
                    (Sessions.CleanupExpiredSessions Example2.db_sessions3 now))
     = 3%nat.
Proof.
  intro now.
  destruct (CleanupExpiredSessions_changes_no_answer Example2.db_sessions3
              now (now + time.Hour) "tok-1" "u-1")
    as [Hsame [_ [Hlen _]]].
  - vm_compute. intro E. discriminate E.
  - split; [rewrite Hsame; reflexivity | rewrite Hlen; reflexivity].
Defined.

Lemma InvalidateUserSessions_ends_activity_witness :
  let db' := services.InvalidateUserSessions Example2.db_sessions3 Example.t0
               "u-1" in
  Sessions.IsUserSessionActive db' (Example.t0 + time.Hour) "u-1" = false
  /\ Sessions.IsUserSessionActive db' (Example.t0 + time.Hour) "u-2" = true.
Proof.
  intro db'.
  destruct (InvalidateUserSessions_ends_activity Example2.db_sessions3
              Example.t0 (Example.t0 + time.Hour) "u-1" "u-2")
    as [Hnone Hother].
  split; [exact Hnone |].
  unfold db'. rewrite Hother; [reflexivity | discriminate].
Defined.
